(** * Agentic document extraction: validation rules, confidence scoring and
      the extraction driver

    A shallow embedding of [src/agent/validation_rules.py],
    [src/utils/confidence_scorer.py] and the control flow of
    [src/agent/core.py], with the properties stated about them.

    Conventions of the embedding.
    - Python [str] is [string]; the string built-ins ([lower], [strip],
      [in], [re.findall] with [\b\w+\b], [split]) are given on ASCII text.
    - Python numbers are exact: an [int] is a [Z], a [float] is the rational
      it denotes ([Q], compared with [==]); [round(x, 2)] rounds the exact
      value half-to-even to a multiple of 1/100.  Binary64 rounding error,
      infinities and NaN are outside the model.
    - A [dict] that is iterated is an association list in insertion order; a
      [dict] that is only looked up is a [gmap].
    - Code that can raise returns a [result]. *)

From Stdlib Require Import QArith Qround Qminmax Qabs Lqa Lia ZArith.
From Stdlib Require Import String Ascii List DecimalString.
From stdpp Require Import base option list gmap strings.

Set Warnings "-register-all".
Local Open Scope Q_scope.

(** ** Python string built-ins, on ASCII text *)

Module PyStr.

(** [str.isspace] for one ASCII character: TAB, LF, VT, FF, CR, the four
    separators FS GS RS US, and the blank. *)
Definition is_space (c : ascii) : bool :=
  let n := nat_of_ascii c in
  ((9 <=? n) && (n <=? 13) || (28 <=? n) && (n <=? 32))%nat.

Definition lower_char (c : ascii) : ascii :=
  let n := nat_of_ascii c in
  if ((65 <=? n) && (n <=? 90))%nat then ascii_of_nat (n + 32) else c.

(** [s.lower()] *)
Fixpoint lower (s : string) : string :=
  match s with
  | EmptyString => EmptyString
  | String c s' => String (lower_char c) (lower s')
  end.

Fixpoint lstrip (s : string) : string :=
  match s with
  | EmptyString => EmptyString
  | String c s' => if is_space c then lstrip s' else s
  end.

Definition rstrip (s : string) : string :=
  String.rev (lstrip (String.rev s)).

(** [s.strip()] *)
Definition strip (s : string) : string := rstrip (lstrip s).

(** [sub in s] for two strings: [sub] occurs in [s] as a contiguous run. *)
Fixpoint contains (sub s : string) : bool :=
  String.prefix sub s ||
  match s with
  | EmptyString => false
  | String _ s' => contains sub s'
  end.

(** The class [\w] on ASCII: letters, digits and the underscore. *)
Definition is_word_char (c : ascii) : bool :=
  let n := nat_of_ascii c in
  ((48 <=? n) && (n <=? 57) || (65 <=? n) && (n <=? 90)
   || (97 <=? n) && (n <=? 122) || (n =? 95))%nat.

(** [re.findall(r'\b\w+\b', s)]: the maximal runs of word characters, from
    left to right.  [cur] is the run being read, in reverse. *)
Fixpoint findall_words_aux (s : string) (cur : string) : list string :=
  match s with
  | EmptyString =>
      match cur with
      | EmptyString => []
      | _ => [String.rev cur]
      end
  | String c s' =>
      if is_word_char c then findall_words_aux s' (String c cur)
      else match cur with
           | EmptyString => findall_words_aux s' EmptyString
           | _ => String.rev cur :: findall_words_aux s' EmptyString
           end
  end.

Definition findall_words (s : string) : list string :=
  findall_words_aux s EmptyString.

(** [s.split('.')[0]]: the part of [s] before its first dot. *)
Fixpoint before_first_dot (s : string) : string :=
  match s with
  | EmptyString => EmptyString
  | String c s' =>
      if Ascii.eqb c "."%char then EmptyString
      else String c (before_first_dot s')
  end.

(** [str(n)] for a non-negative [int], as in [f"{i}"]. *)
Definition of_nat (n : nat) : string :=
  NilEmpty.string_of_uint (Nat.to_uint n).

(** [sep.join(l)] *)
Fixpoint join (sep : string) (l : list string) : string :=
  match l with
  | [] => EmptyString
  | [x] => x
  | x :: rest => x +:+ sep +:+ join sep rest
  end.

End PyStr.

(** ** Python values, exceptions and the built-ins the rules call *)

Module Py.

(** A JSON-shaped Python value, as [json.loads] or [model_dump] produce. *)
Inductive pyval : Type :=
| PNone
| PBool (b : bool)
| PInt (z : Z)
| PFloat (q : Q)
| PStr (s : string)
| PList (l : list pyval)
| PDict (d : list (string * pyval)).

(** A [dict] with [str] keys, in insertion order; keys are distinct. *)
Definition pydict : Type := list (string * pyval).

Inductive pyexn : Type :=
| TypeError
| ValueError
| AttributeError
| NameError
| ExternalError (msg : string).

Inductive result (A : Type) : Type :=
| Ok (a : A)
| Raise (e : pyexn).
Arguments Ok {A} a.
Arguments Raise {A} e.

Definition bind {A B : Type} (r : result A) (k : A -> result B) : result B :=
  match r with
  | Ok a => k a
  | Raise e => Raise e
  end.

(** [try: body  except <classes>: handler] *)
Definition try_except {A : Type} (body : result A) (catches : pyexn -> bool)
    (handler : result A) : result A :=
  match body with
  | Ok a => Ok a
  | Raise e => if catches e then handler else Raise e
  end.

Definition is_ValueError (e : pyexn) : bool :=
  match e with ValueError => true | _ => false end.

Definition is_ValueError_or_TypeError (e : pyexn) : bool :=
  match e with ValueError | TypeError => true | _ => false end.

(** [d.get(k)]; [None] when the key is absent, so [k in d] is [is_Some]. *)
Fixpoint dict_get (d : pydict) (k : string) : option pyval :=
  match d with
  | [] => None
  | (k', v) :: rest => if String.eqb k k' then Some v else dict_get rest k
  end.

Definition is_dict (v : pyval) : bool :=
  match v with PDict _ => true | _ => false end.

Definition is_None (v : pyval) : bool :=
  match v with PNone => true | _ => false end.

(** Truth value of an object, as [if v:] and [not v] test it. *)
Definition truthy (v : pyval) : bool :=
  match v with
  | PNone => false
  | PBool b => b
  | PInt z => negb (Z.eqb z 0)
  | PFloat q => negb (Qeq_bool q 0)
  | PStr s => negb (String.eqb s "")
  | PList l => match l with [] => false | _ => true end
  | PDict d => match d with [] => false | _ => true end
  end.

(** [iter(v)]: the elements a [for] loop or a generator visits. *)
Definition py_iter (v : pyval) : result (list pyval) :=
  match v with
  | PList l => Ok l
  | PDict d => Ok (map (fun kv => PStr (fst kv)) d)
  | PStr s => Ok (map (fun c => PStr (String c EmptyString)) (list_ascii_of_string s))
  | _ => Raise TypeError
  end.

(** [item.get(k)] and [item.get(k, default)]: only a [dict] has [get]. *)
Definition py_get (item : pyval) (k : string) (default : pyval) : result pyval :=
  match item with
  | PDict d => Ok (match dict_get d k with Some v => v | None => default end)
  | _ => Raise AttributeError
  end.

(** *** [float(s)] on a string: finite decimal literals

    Surrounding white space, a sign, digits with an optional fraction and an
    optional exponent.  Digit separators ([1_000]) and the words [inf] and
    [nan] are not covered: the model answers [ValueError] for them. *)

Definition digit_of (c : ascii) : option Z :=
  let n := nat_of_ascii c in
  if ((48 <=? n) && (n <=? 57))%nat then Some (Z.of_nat (n - 48)) else None.

(** Reads a maximal run of digits: its value, its length, the rest. *)
Fixpoint take_digits (s : string) (acc : Z) (n : nat) : Z * nat * string :=
  match s with
  | EmptyString => (acc, n, s)
  | String c s' =>
      match digit_of c with
      | Some d => take_digits s' (acc * 10 + d)%Z (S n)
      | None => (acc, n, s)
      end
  end.

Definition take_sign (s : string) : bool * string :=
  match s with
  | String "-" s' => (true, s')
  | String "+" s' => (false, s')
  | _ => (false, s)
  end.

Definition apply_sign (neg : bool) (q : Q) : Q := if neg then - q else q.

Definition float_of_string (s : string) : option Q :=
  let '(neg, s1) := take_sign (PyStr.strip s) in
  let '(ip, ni, s2) := take_digits s1 0 0 in
  let '(fp, nf, s3) :=
    match s2 with
    | String "." r => take_digits r 0 0
    | _ => (0%Z, 0%nat, s2)
    end in
  if (ni + nf =? 0)%nat then None
  else
    let mant := (inject_Z ip + inject_Z fp / inject_Z (10 ^ Z.of_nat nf)) in
    match s3 with
    | EmptyString => Some (apply_sign neg mant)
    | String c r =>
        if (Ascii.eqb c "e" || Ascii.eqb c "E")%bool then
          let '(eneg, r1) := take_sign r in
          let '(ev, ne, r2) := take_digits r1 0 0 in
          if ((ne =? 0)%nat || negb (String.eqb r2 ""))%bool then None
          else Some (apply_sign neg mant * Qpower 10 (if eneg then - ev else ev))
        else None
    end.

(** [float(v)] *)
Definition py_float (v : pyval) : result Q :=
  match v with
  | PBool b => Ok (if b then 1 else 0)
  | PInt z => Ok (inject_Z z)
  | PFloat q => Ok q
  | PStr s =>
      match float_of_string s with
      | Some q => Ok q
      | None => Raise ValueError
      end
  | PNone | PList _ | PDict _ => Raise TypeError
  end.

(** *** [datetime.strptime(s, "%Y-%m-%d")] *)

Definition digit_nat (c : ascii) : option nat :=
  let n := nat_of_ascii c in
  if ((48 <=? n) && (n <=? 57))%nat then Some (n - 48)%nat else None.

(** [%m]: [1[0-2]|0[1-9]|[1-9]], the whole text between the two dashes. *)
Definition month_token (s : string) : option nat :=
  match s with
  | String a EmptyString =>
      match digit_nat a with
      | Some n => if (1 <=? n)%nat then Some n else None
      | None => None
      end
  | String a (String b EmptyString) =>
      match digit_nat a, digit_nat b with
      | Some 1%nat, Some n => if (n <=? 2)%nat then Some (10 + n)%nat else None
      | Some 0%nat, Some n => if (1 <=? n)%nat then Some n else None
      | _, _ => None
      end
  | _ => None
  end.

(** [%d]: [3[0-1]|[1-2]\d|0[1-9]|[1-9]| [1-9]], up to the end of the text. *)
Definition day_token (s : string) : option nat :=
  match s with
  | String a EmptyString =>
      match digit_nat a with
      | Some n => if (1 <=? n)%nat then Some n else None
      | None => None
      end
  | String a (String b EmptyString) =>
      match digit_nat b with
      | Some n =>
          if Ascii.eqb a " " then (if (1 <=? n)%nat then Some n else None)
          else match digit_nat a with
               | Some 3%nat => if (n <=? 1)%nat then Some (30 + n)%nat else None
               | Some 2%nat => Some (20 + n)%nat
               | Some 1%nat => Some (10 + n)%nat
               | Some 0%nat => if (1 <=? n)%nat then Some n else None
               | _ => None
               end
      | None => None
      end
  | _ => None
  end.

Definition is_leap (y : nat) : bool :=
  ((y mod 4 =? 0) && (negb (y mod 100 =? 0) || (y mod 400 =? 0)))%nat.

Definition days_in_month (y m : nat) : nat :=
  match m with
  | 2 => if is_leap y then 29 else 28
  | 4 | 6 | 9 | 11 => 30
  | _ => 31
  end%nat.

(** Splits at the first dash. *)
Fixpoint split_dash (s : string) : option (string * string) :=
  match s with
  | EmptyString => None
  | String c s' =>
      if Ascii.eqb c "-" then Some (EmptyString, s')
      else match split_dash s' with
           | Some (a, b) => Some (String c a, b)
           | None => None
           end
  end.

Definition valid_ymd (s : string) : bool :=
  match s with
  | String a (String b (String c (String d (String "-" rest)))) =>
      match digit_nat a, digit_nat b, digit_nat c, digit_nat d, split_dash rest with
      | Some a, Some b, Some c, Some d, Some (ms, ds) =>
          let y := (a * 1000 + b * 100 + c * 10 + d)%nat in
          match month_token ms, day_token ds with
          | Some m, Some dd => ((1 <=? y) && (dd <=? days_in_month y m))%nat
          | _, _ => false
          end
      | _, _, _, _, _ => false
      end
  | _ => false
  end.

(** The call raises [TypeError] for an argument that is not a [str] and
    [ValueError] for a string that is not a date in this format. *)
Definition strptime_ymd (v : pyval) : result unit :=
  match v with
  | PStr s => if valid_ymd s then Ok tt else Raise ValueError
  | _ => Raise TypeError
  end.

End Py.

Import Py.

Notation "x <- r ;; k" := (Py.bind r (fun x => k))
  (at level 100, r at next level, right associativity).

(** ** [re.match] on ASCII text *)

Module PyRe.

(** A pattern built from character classes, sequence, alternative and
    repetition; the two patterns of the rules need no group, and their
    anchors are handled by the two entry points below. *)
Inductive regex : Type :=
| Void
| Eps
| Cls (p : ascii -> bool)
| Cat (r1 r2 : regex)
| Alt (r1 r2 : regex)
| Star (r : regex).

(** [r+] and [r?] *)
Definition Plus (r : regex) : regex := Cat r (Star r).
Definition Opt (r : regex) : regex := Alt r Eps.

(** [r] matches the empty string. *)
Fixpoint nullable (r : regex) : bool :=
  match r with
  | Void => false
  | Eps => true
  | Cls _ => false
  | Cat r1 r2 => nullable r1 && nullable r2
  | Alt r1 r2 => nullable r1 || nullable r2
  | Star _ => true
  end.

(** What is left of [r] once the character [c] has been read. *)
Fixpoint deriv (c : ascii) (r : regex) : regex :=
  match r with
  | Void => Void
  | Eps => Void
  | Cls p => if p c then Eps else Void
  | Cat r1 r2 =>
      if nullable r1 then Alt (Cat (deriv c r1) r2) (deriv c r2)
      else Cat (deriv c r1) r2
  | Alt r1 r2 => Alt (deriv c r1) (deriv c r2)
  | Star r' => Cat (deriv c r') (Star r')
  end.

(** [re.match(r, s) is not None] for a pattern without [$]: the match starts
    at the first character and may stop anywhere. *)
Fixpoint match_prefix (r : regex) (s : string) : bool :=
  nullable r ||
  match s with
  | EmptyString => false
  | String c s' => match_prefix (deriv c r) s'
  end.

Definition newline : string := String (ascii_of_nat 10) EmptyString.

(** [re.match(r'^...$', s) is not None]: the match starts at the first
    character and stops at the end of [s], or just before a line feed that
    ends [s]. *)
Fixpoint match_to_end (r : regex) (s : string) : bool :=
  match s with
  | EmptyString => nullable r
  | String c s' => (nullable r && String.eqb s newline) || match_to_end (deriv c r) s'
  end.

Definition is_char (x : ascii) (c : ascii) : bool := Ascii.eqb c x.

(** [\d] on ASCII *)
Definition is_digit (c : ascii) : bool :=
  let n := nat_of_ascii c in ((48 <=? n) && (n <=? 57))%nat.

End PyRe.

(** ** [src/agent/validation_rules.py] *)

(** The [qa] dictionary: [passed_rules], [failed_rules], [notes].  Readers
    use [qa.get('failed_rules', [])], so a missing key reads as [[]]. *)
Record qa_result : Type := mk_qa {
  passed_rules : list string;
  failed_rules : list string;
  notes : string
}.

Module ValidationRules.

(** The two lists a rule set fills, [passed_rules] and [failed_rules]. *)
Definition rules : Type := (list string * list string)%type.

Definition no_rules : rules := (@nil string, @nil string).

Definition passed_append (r : string) (st : rules) : rules := (fst st ++ [r], snd st).
Definition failed_append (r : string) (st : rules) : rules := (fst st, snd st ++ [r]).

Definition _is_valid_date (date_string : pyval) : result bool :=
  try_except (_ <- strptime_ymd date_string ;; Ok true) is_ValueError (Ok false).

Definition _is_valid_decimal (value : pyval) : result bool :=
  try_except (_ <- py_float value ;; Ok true) is_ValueError_or_TypeError (Ok false).

(** [[^@]+@[^@]+\.[^@]+] *)
Definition not_at (c : ascii) : bool := negb (Ascii.eqb c "@").

Definition email_pattern : PyRe.regex :=
  PyRe.Cat (PyRe.Plus (PyRe.Cls not_at))
    (PyRe.Cat (PyRe.Cls (PyRe.is_char "@"))
       (PyRe.Cat (PyRe.Plus (PyRe.Cls not_at))
          (PyRe.Cat (PyRe.Cls (PyRe.is_char "."))
             (PyRe.Plus (PyRe.Cls not_at))))).

(** [re.match] raises [TypeError] on an argument that is not a string. *)
Definition _is_valid_email (email : pyval) : result bool :=
  match email with
  | PStr s => Ok (PyRe.match_prefix email_pattern s)
  | _ => Raise TypeError
  end.

(** [^\+?[\d\s\-\(\)]+$] *)
Definition phone_char (c : ascii) : bool :=
  (PyRe.is_digit c || PyStr.is_space c || Ascii.eqb c "-"
   || Ascii.eqb c "(" || Ascii.eqb c ")")%bool.

Definition phone_pattern : PyRe.regex :=
  PyRe.Cat (PyRe.Opt (PyRe.Cls (PyRe.is_char "+"))) (PyRe.Plus (PyRe.Cls phone_char)).

Definition _is_valid_phone (phone_number : pyval) : result bool :=
  match phone_number with
  | PStr s => Ok (PyRe.match_to_end phone_pattern s)
  | _ => Raise TypeError
  end.

(** ['k' in d and test(d['k'])]: [test] runs only when the key is there. *)
Definition key_and (d : pydict) (k : string) (test : pyval -> result bool) : result bool :=
  match dict_get d k with
  | Some v => test v
  | None => Ok false
  end.

(** ['k' in d and d['k'] is not None] *)
Definition present_not_None (d : pydict) (k : string) : bool :=
  match dict_get d k with
  | Some v => negb (is_None v)
  | None => false
  end.

(** [v is None or _is_valid_decimal(v)] *)
Definition None_or_decimal (v : pyval) : result bool :=
  if is_None v then Ok true else _is_valid_decimal v.

(** An optional amount: passes when present and [None] or numeric, fails
    when present and not numeric, records nothing when absent. *)
Definition optional_amount_rule (d : pydict) (k valid invalid : string)
    (st : rules) : result rules :=
  ok <- key_and d k None_or_decimal ;;
  Ok (if ok then passed_append valid st
      else if present_not_None d k then failed_append invalid st
      else st).

(** [sum(float(item.get('line_total', 0)) for item in line_items
         if _is_valid_decimal(item.get('line_total')))] *)
Fixpoint sum_line_totals (items : list pyval) (acc : Q) : result Q :=
  match items with
  | [] => Ok acc
  | item :: rest =>
      lt <- py_get item "line_total" PNone ;;
      ok <- _is_valid_decimal lt ;;
      if ok then
        v <- py_get item "line_total" (PInt 0) ;;
        x <- py_float v ;;
        sum_line_totals rest (acc + x)
      else sum_line_totals rest acc
  end.

(** Rule 1 of [validate_invoice]: the date formats. *)
Definition invoice_date_rules (extracted_data : pydict) (st : rules) : result rules :=
  ok <- key_and extracted_data "invoice_date" _is_valid_date ;;
  let st := if ok then passed_append "invoice_date_format_valid" st
            else failed_append "invoice_date_format_invalid" st in
  ok <- key_and extracted_data "due_date"
         (fun v => if truthy v then _is_valid_date v else Ok false) ;;
  Ok (if ok then passed_append "due_date_format_valid" st
      else if present_not_None extracted_data "due_date"
           then failed_append "due_date_format_invalid" st
           else st).

(** Rule 2: the numerical amounts. *)
Definition invoice_amount_rules (extracted_data : pydict) (st : rules) : result rules :=
  ok <- key_and extracted_data "total_amount" _is_valid_decimal ;;
  let st := if ok then passed_append "total_amount_numeric_valid" st
            else failed_append "total_amount_numeric_invalid" st in
  st <- optional_amount_rule extracted_data "subtotal"
         "subtotal_numeric_valid" "subtotal_numeric_invalid" st ;;
  optional_amount_rule extracted_data "tax_amount"
    "tax_amount_numeric_valid" "tax_amount_numeric_invalid" st.

(** Rule 3: the line items add up to the total. *)
Definition line_items_sum_rule (extracted_data : pydict) (st : rules) : result rules :=
  match dict_get extracted_data "total_amount", dict_get extracted_data "line_items" with
  | Some total, Some line_items =>
      try_except
        (expected_total <- py_float total ;;
         items <- py_iter line_items ;;
         calculated_line_items_total <- sum_line_totals items 0 ;;
         if Qlt_le_dec (Qabs (expected_total - calculated_line_items_total)) 0.01
         then Ok (passed_append "line_items_sum_matches_total" st)
         else Ok (failed_append "line_items_sum_mismatch" st))
        is_ValueError_or_TypeError
        (Ok (failed_append "line_items_sum_check_failed_parsing" st))
  | _, _ => Ok (failed_append "line_items_or_total_missing_for_sum_check" st)
  end.

Definition validate_invoice (extracted_data : pydict) : result rules :=
  st <- invoice_date_rules extracted_data no_rules ;;
  st <- invoice_amount_rules extracted_data st ;;
  line_items_sum_rule extracted_data st.

(** [all(k in d and _is_valid_decimal(d[k]) for k in keys)] *)
Fixpoint all_decimal (d : pydict) (keys : list string) : result bool :=
  match keys with
  | [] => Ok true
  | k :: rest =>
      ok <- key_and d k _is_valid_decimal ;;
      if ok then all_decimal d rest else Ok false
  end.

Definition validate_medical_bill (extracted_data : pydict) : result rules :=
  let st := no_rules in
  ok <- key_and extracted_data "date_of_service_start" _is_valid_date ;;
  let st := if ok then passed_append "service_start_date_format_valid" st
            else failed_append "service_start_date_format_invalid" st in
  ok <- key_and extracted_data "total_charges" _is_valid_decimal ;;
  let st := if ok then passed_append "total_charges_numeric_valid" st
            else failed_append "total_charges_numeric_invalid" st in
  ok <- key_and extracted_data "amount_due" _is_valid_decimal ;;
  let st := if ok then passed_append "amount_due_numeric_valid" st
            else failed_append "amount_due_numeric_invalid" st in
  (* total charges = insurance paid + amount due, when all are there *)
  both <- all_decimal extracted_data ["total_charges"; "amount_due"]%string ;;
  ins_ok <- (if both then key_and extracted_data "insurance_paid" None_or_decimal
            else Ok false) ;;
  if ins_ok then
    try_except
      (total_charges <- py_float (default PNone (dict_get extracted_data "total_charges")) ;;
       amount_due <- py_float (default PNone (dict_get extracted_data "amount_due")) ;;
       insurance_paid <-
         (let v := default PNone (dict_get extracted_data "insurance_paid") in
          if negb (is_None v) then py_float v else Ok 0.0) ;;
       if Qlt_le_dec (Qabs (total_charges - (amount_due + insurance_paid))) 0.01
       then Ok (passed_append "charges_balance_check_valid" st)
       else Ok (failed_append "charges_balance_check_mismatch" st))
      is_ValueError_or_TypeError
      (Ok (failed_append "charges_balance_check_failed_parsing" st))
  else Ok st.

(** The three checks on the medication at index [i]. *)
Definition medication_rules (i : nat) (med : pyval) (st : rules) : result rules :=
  let check (key : string) (st : rules) : result rules :=
    v <- py_get med key PNone ;;
    Ok (if negb (truthy v)
        then failed_append ("medication_" +:+ PyStr.of_nat i +:+ "_" +:+ key +:+ "_missing") st
        else passed_append ("medication_" +:+ PyStr.of_nat i +:+ "_" +:+ key +:+ "_present") st) in
  st <- check "drug_name"%string st ;;
  st <- check "dosage"%string st ;;
  check "frequency"%string st.

(** [for i, med in enumerate(medications)], from index [i]. *)
Fixpoint medications_loop (i : nat) (meds : list pyval) (st : rules) : result rules :=
  match meds with
  | [] => Ok st
  | med :: rest =>
      st <- medication_rules i med st ;;
      medications_loop (S i) rest st
  end.

Definition validate_prescription (extracted_data : pydict) : result rules :=
  let st := no_rules in
  ok <- key_and extracted_data "prescription_date" _is_valid_date ;;
  let st := if ok then passed_append "prescription_date_format_valid" st
            else failed_append "prescription_date_format_invalid" st in
  let st := match dict_get extracted_data "medications" with
            | Some (PList (_ :: _)) => passed_append "at_least_one_medication_listed" st
            | _ => failed_append "no_medication_listed" st
            end in
  match dict_get extracted_data "medications" with
  | Some (PList meds) => medications_loop 0 meds st
  | _ => Ok st
  end.

(** The dispatcher. *)
Definition run_validation (doc_type : string) (extracted_data : pydict) : result qa_result :=
  st <- (if String.eqb doc_type "invoice" then validate_invoice extracted_data
        else if String.eqb doc_type "medical_bill" then validate_medical_bill extracted_data
        else if String.eqb doc_type "prescription" then validate_prescription extracted_data
        else Ok (failed_append ("no_validation_rules_for_type_" +:+ doc_type) no_rules)) ;;
  Ok {| passed_rules := fst st;
        failed_rules := snd st;
        notes := match snd st with
                 | [] => "All primary validation rules passed."
                 | _ => PyStr.of_nat (length (snd st)) +:+ " validation rule(s) failed."
                 end |}.

End ValidationRules.

Import ValidationRules.

(** ** [src/utils/confidence_scorer.py] *)

(** [bbox], a list [[x0, y0, x1, y1]]. *)
Record bbox : Type := mk_bbox { bx0 : Q; by0 : Q; bx1 : Q; by1 : Q }.

(** An OCR token.  [word] and [conf] are read with [get] and may be missing;
    [bbox] and [page_num] are read by subscript. *)
Record word_box : Type := mk_word_box {
  wb_word : option string;
  wb_conf : option Q;
  wb_bbox : bbox;
  wb_page_num : Z
}.

(** [{"page": ..., "bbox": [...]}] *)
Record source : Type := mk_source { src_page : option Z; src_bbox : bbox }.

(** One entry of the returned field list. *)
Record field : Type := mk_field {
  f_name : string;
  f_value : string;
  f_confidence : Q;
  f_source : option source
}.

(** [round(x, 2)]: the nearest multiple of 1/100, ties to the even one. *)
Definition round_half_even (q : Q) : Z :=
  let f := Qfloor q in
  match Qcompare (q - inject_Z f) 0.5 with
  | Lt => f
  | Gt => (f + 1)%Z
  | Eq => if Z.even f then f else (f + 1)%Z
  end.

Definition py_round2 (x : Q) : Q := inject_Z (round_half_even (x * 100)) / 100.

Module ConfidenceScorer.

(** [repr(s)] of an ASCII string, and [str(l)] of a list of strings. *)
Definition squote : string := "'".
Definition dquote : string := String (ascii_of_nat 34) EmptyString.
Definition backslash : string := String (ascii_of_nat 92) EmptyString.

Definition hex_digit (n : nat) : ascii :=
  if (n <? 10)%nat then ascii_of_nat (48 + n) else ascii_of_nat (87 + n).

Definition escape_char (quote : ascii) (c : ascii) : string :=
  let n := nat_of_ascii c in
  if (n =? 92)%nat then backslash +:+ backslash
  else if Ascii.eqb c quote then backslash +:+ String c EmptyString
  else if (n =? 9)%nat then backslash +:+ "t"
  else if (n =? 10)%nat then backslash +:+ "n"
  else if (n =? 13)%nat then backslash +:+ "r"
  else if ((n <? 32) || (127 <=? n))%nat
       then backslash +:+ "x" +:+ String (hex_digit (n / 16)) (String (hex_digit (n mod 16)) EmptyString)
  else String c EmptyString.

Fixpoint escape (quote : ascii) (s : string) : string :=
  match s with
  | EmptyString => EmptyString
  | String c s' => escape_char quote c +:+ escape quote s'
  end.

Definition repr_str (s : string) : string :=
  if (PyStr.contains squote s && negb (PyStr.contains dquote s))%bool
  then dquote +:+ escape (ascii_of_nat 34) s +:+ dquote
  else squote +:+ escape "'"%char s +:+ squote.

Definition str_of_list (l : list string) : string :=
  "[" +:+ PyStr.join ", " (map repr_str l) +:+ "]".

(** The [validation_score] local of the composite calculator. *)
Definition validation_score (field_name : string) (qa_results : qa_result) : Q :=
  let validation_score := 1.0 in
  let validation_score :=
    if (PyStr.contains "date" field_name
        && PyStr.contains "format_invalid" (str_of_list (failed_rules qa_results)))%bool
    then 0.5 else validation_score in
  let validation_score :=
    if (PyStr.contains "numeric_invalid" (str_of_list (failed_rules qa_results))
        && (PyStr.contains "amount" field_name || PyStr.contains "total" field_name
            || PyStr.contains "subtotal" field_name || PyStr.contains "charge" field_name))%bool
    then 0.5 else validation_score in
  validation_score.

(** [np.mean] of a non-empty list. *)
Definition mean (l : list Q) : Q :=
  fold_left Qplus l 0 / inject_Z (Z.of_nat (length l)).

(** The loop collecting [matching_word_confs]. *)
Definition matching_word_confs (normalized_value : string) (word_boxes : list word_box) : list Q :=
  fold_left
    (fun confs box_info =>
       let normalized_word_in_box :=
         PyStr.lower (PyStr.strip (default EmptyString (wb_word box_info))) in
       if (PyStr.contains normalized_value normalized_word_in_box
           || PyStr.contains normalized_word_in_box normalized_value)%bool
       then confs ++ [default 100 (wb_conf box_info) / 100.0]
       else confs)
    word_boxes [].

Definition _get_ocr_confidence_for_value (value : string) (word_boxes : list word_box) : Q :=
  if (String.eqb value "" || match word_boxes with [] => true | _ => false end)%bool
  then 0.0
  else
    let normalized_value := PyStr.lower (PyStr.strip value) in
    match matching_word_confs normalized_value word_boxes with
    | [] => 0.0
    | confs => mean confs
    end.

Definition _calculate_field_composite_confidence (field_name field_value : string)
    (llm_consistency_score : Q) (qa_results : qa_result)
    (word_boxes : list word_box) : Q :=
  let validation_score := validation_score field_name qa_results in
  let ocr_confidence_avg := _get_ocr_confidence_for_value field_value word_boxes in
  (0.70 * llm_consistency_score) + (0.20 * validation_score) + (0.10 * ocr_confidence_avg).

(** [min(...)] and [max(...)] over a first element and the rest. *)
Definition py_min (x : Q) (rest : list Q) : Q :=
  fold_left (fun m y => if Qlt_le_dec y m then y else m) rest x.
Definition py_max (x : Q) (rest : list Q) : Q :=
  fold_left (fun m y => if Qlt_le_dec m y then y else m) rest x.

(** The loop collecting [matching_boxes] and [matching_page]. *)
Definition matching_loop (normalized_value_tokens : list string)
    (word_boxes : list word_box) : list bbox * option Z :=
  fold_left
    (fun st box_info =>
       let box_word_norm := PyStr.lower (default EmptyString (wb_word box_info)) in
       if bool_decide (box_word_norm ∈ normalized_value_tokens)
       then (fst st ++ [wb_bbox box_info],
             match snd st with
             | None => Some (wb_page_num box_info)
             | Some p => Some p
             end)
       else st)
    word_boxes ([], None).

Definition _find_bbox_for_value (value : string) (word_boxes : list word_box) : option source :=
  if (String.eqb value "" || match word_boxes with [] => true | _ => false end)%bool
  then None
  else
    let normalized_value_tokens := PyStr.findall_words (PyStr.lower value) in
    let '(matching_boxes, matching_page) := matching_loop normalized_value_tokens word_boxes in
    match matching_boxes with
    | [] => None
    | b :: bs =>
        Some {| src_page := matching_page;
                src_bbox := {| bx0 := py_min (bx0 b) (map bx0 bs);
                               by0 := py_min (by0 b) (map by0 bs);
                               bx1 := py_max (bx1 b) (map bx1 bs);
                               by1 := py_max (by1 b) (map by1 bs) |} |}
    end.

(** The importance table and [field_weights.get(top_level_key, 1.0)]. *)
Definition field_weights : list (string * Q) :=
  [("invoice_number", 1.5); ("total_amount", 2.0); ("vendor_name", 1.5);
   ("patient_name", 1.5); ("total_charges", 2.0); ("amount_due", 1.5);
   ("prescription_date", 1.5); ("doctor_name", 1.5); ("medications", 2.0)]%string.

Fixpoint table_get (t : list (string * Q)) (k : string) (default : Q) : Q :=
  match t with
  | [] => default
  | (k', w) :: rest => if String.eqb k k' then w else table_get rest k default
  end.

Definition weight_of (field_name : string) : Q :=
  table_get field_weights (PyStr.before_first_dot field_name) 1.0.

(** The loop accumulating [(weighted_sum, total_weight)]. *)
Definition weight_loop (fields_with_confidence : list field) : Q * Q :=
  fold_left
    (fun acc f =>
       let weight := weight_of (f_name f) in
       (fst acc + f_confidence f * weight, snd acc + weight))
    fields_with_confidence (0.0, 0.0).

Definition _calculate_overall_confidence (fields_with_confidence : list field)
    (qa_results : qa_result) : Q :=
  match fields_with_confidence with
  | [] => 0.0
  | _ =>
      let '(weighted_sum, total_weight) := weight_loop fields_with_confidence in
      let overall_score :=
        if Qlt_le_dec 0 total_weight then weighted_sum / total_weight else 0.0 in
      let num_failed_rules := length (failed_rules qa_results) in
      let overall_score :=
        if (0 <? num_failed_rules)%nat then
          let penalty := Qmin (0.1 * inject_Z (Z.of_nat num_failed_rules)) 0.5 in
          overall_score * (1 - penalty)
        else overall_score in
      py_round2 overall_score
  end.

(** The functions below call the built-in [str] on extracted values; it
    is a parameter of the development. *)
Section WithStr.

Variable py_str : pyval -> string.

(** [f"{parent_key}{sep}{k}" if parent_key else k], with [sep = '.'] *)
Definition join_key (parent_key k : string) : string :=
  if String.eqb parent_key "" then k else parent_key +:+ "." +:+ k.

(** [dict(items)]: a later pair replaces an earlier one with its key. *)
Definition py_dict (items : list (string * string)) : gmap string string :=
  fold_left (fun m kv => <[fst kv := snd kv]> m) items ∅.

(** What one entry [(k, v)] of the dictionary being flattened adds to
    [items], [new_key] being the path of [k]. *)
Fixpoint flatten_value (v : pyval) (new_key : string) : list (string * string) :=
  match v with
  | PDict d =>
      map_to_list (py_dict
        ((fix entries (d : list (string * pyval)) : list (string * string) :=
            match d with
            | [] => []
            | (k, v') :: rest => flatten_value v' (join_key new_key k) ++ entries rest
            end) d))
  | PList l =>
      if forallb is_dict l then
        (fix items (l : list pyval) (i : nat) : list (string * string) :=
           match l with
           | [] => []
           | item_val :: rest =>
               flatten_value item_val (new_key +:+ "." +:+ PyStr.of_nat i)
               ++ items rest (S i)
           end) l 0%nat
      else [(new_key, py_str v)]
  | _ => [(new_key, py_str v)]
  end.

(** [flatten_dict(d, parent_key)] *)
Definition flatten_dict (d : pydict) (parent_key : string) : gmap string string :=
  py_dict (flat_map (fun kv => flatten_value (snd kv) (join_key parent_key (fst kv))) d).

(** The inner loop counting the runs that agree with the primary value. *)
Definition match_count (field_name primary_value : string)
    (flattened_all_outputs : list (gmap string string)) : nat :=
  fold_left
    (fun count output =>
       if bool_decide (output !! field_name = Some primary_value) then S count else count)
    flattened_all_outputs 0%nat.

Definition _calculate_llm_consistency (extracted_data : pydict)
    (llm_raw_outputs : list pydict) : gmap string Q :=
  match llm_raw_outputs with
  | [] => ∅
  | _ =>
      let num_runs := length llm_raw_outputs in
      let flattened_main_data := flatten_dict extracted_data "" in
      let flattened_all_outputs := map (fun output => flatten_dict output "") llm_raw_outputs in
      map_imap
        (fun field_name primary_value =>
           Some (if (0 <? num_runs)%nat
                 then inject_Z (Z.of_nat (match_count field_name primary_value flattened_all_outputs))
                      / inject_Z (Z.of_nat num_runs)
                 else 0.0))
        flattened_main_data
  end.

(** The record appended for one field. *)
Definition field_record (llm_consistency_scores : gmap string Q)
    (qa_results : qa_result) (word_boxes : list word_box)
    (field_name : string) (value : pyval) : field :=
  let confidence :=
    _calculate_field_composite_confidence field_name (py_str value)
      (default 0.0 (llm_consistency_scores !! field_name)) qa_results word_boxes in
  let source_info := _find_bbox_for_value (py_str value) word_boxes in
  {| f_name := field_name;
     f_value := py_str value;
     f_confidence := py_round2 confidence;
     f_source := source_info |}.

(** [item_dict.items()] for an element known to be a [dict]. *)
Definition dict_items (v : pyval) : list (string * pyval) :=
  match v with PDict d => d | _ => [] end.

(** The body of the loop over [extracted_data.items()]. *)
Definition fields_of_entry (llm_consistency_scores : gmap string Q)
    (qa_results : qa_result) (word_boxes : list word_box)
    (key : string) (value : pyval) : list field :=
  match value with
  | PList l =>
      if forallb is_dict l then
        concat (imap
          (fun i item_dict =>
             map (fun kv =>
                    field_record llm_consistency_scores qa_results word_boxes
                      (key +:+ "." +:+ PyStr.of_nat i +:+ "." +:+ fst kv) (snd kv))
                 (dict_items item_dict))
          l)
      else [field_record llm_consistency_scores qa_results word_boxes key value]
  | _ => [field_record llm_consistency_scores qa_results word_boxes key value]
  end.

Definition calculate_confidence_scores (extracted_data : pydict)
    (qa_results : qa_result) (llm_raw_outputs : list pydict)
    (word_boxes : list word_box) : list field * Q :=
  let llm_consistency_scores := _calculate_llm_consistency extracted_data llm_raw_outputs in
  let formatted_fields_with_confidence :=
    flat_map (fun kv => fields_of_entry llm_consistency_scores qa_results word_boxes
                          (fst kv) (snd kv))
             extracted_data in
  (formatted_fields_with_confidence,
   _calculate_overall_confidence formatted_fields_with_confidence qa_results).

End WithStr.

End ConfidenceScorer.

Import ConfidenceScorer.

(** A rendering that agrees with [str] on [None], booleans, integers and
    strings; it instantiates the parameter in examples. *)
Definition str_scalar (v : pyval) : string :=
  match v with
  | PNone => "None"
  | PBool true => "True"
  | PBool false => "False"
  | PInt z => if (z <? 0)%Z then "-" +:+ PyStr.of_nat (Z.to_nat (- z)) else PyStr.of_nat (Z.to_nat z)
  | PStr s => s
  | _ => "<object>"
  end.

Definition sample_invoice : pydict :=
  [("vendor_name", PStr "Acme Corp");
   ("total_amount", PStr "100.00");
   ("line_items", PList [PDict [("description", PStr "Widget"); ("line_total", PStr "60.00")];
                         PDict [("description", PStr "Gadget"); ("line_total", PStr "40.00")]])]%string.

Definition sample_boxes : list word_box :=
  [ {| wb_word := Some "Acme"%string; wb_conf := Some 96; wb_bbox := mk_bbox 10 10 50 22; wb_page_num := 1 |};
    {| wb_word := Some "Corp"%string; wb_conf := Some 80; wb_bbox := mk_bbox 55 11 90 23; wb_page_num := 1 |};
    {| wb_word := Some "100.00"%string; wb_conf := Some 90; wb_bbox := mk_bbox 200 300 240 312; wb_page_num := 2 |} ].

(** ** [src/agent/document_router.py], [src/agent/extraction_chain.py] and
       [src/agent/core.py] *)

Module Core.

(** What [process_document] returns; both keys are read with [get]. *)
Record document_data : Type := mk_document_data {
  dd_text : option string;
  dd_word_boxes : option (list word_box)
}.

(** The dictionary [run_extraction] returns. *)
Record report : Type := mk_report {
  doc_type : string;
  fields : list field;
  overall_confidence : Q;
  qa : qa_result
}.

Inductive schema : Type := InvoiceSchema | MedicalBillSchema | PrescriptionSchema.

Definition _create_error_output (message error_code : string) : report :=
  {| doc_type := "error";
     fields := [];
     overall_confidence := 0.0;
     qa := {| passed_rules := []; failed_rules := [error_code]; notes := message |} |}.

(** [map] for a function that can raise: stops at the first exception. *)
Fixpoint map_result {A B : Type} (f : A -> result B) (l : list A) : result (list B) :=
  match l with
  | [] => Ok []
  | x :: rest =>
      y <- f x ;;
      ys <- map_result f rest ;;
      Ok (y :: ys)
  end.

(** The collaborators are parameters: the OCR front end, the two chat
    completions (the reply text, or the exception of the call) and the
    Pydantic validation followed by [model_dump].  The OpenAI client is
    built before each [try]; its construction is taken to succeed. *)
Section Pipeline.

Variable py_str : pyval -> string.
Variable exn_str : pyexn -> string.
Variable process_document : string -> result document_data.
Variable classification_reply : string -> result (option string).
Variable extraction_reply : string -> schema -> result pyval.
Variable model_validate : schema -> pyval -> result pydict.

(** [document_text[:2000]] *)
Definition text_snippet (document_text : string) : string :=
  String.substring 0 2000 document_text.

Definition allowed_types : list string := ["invoice"; "medical_bill"; "prescription"]%string.

Definition classify_document_type (document_text : string) : string :=
  match classification_reply (text_snippet document_text) with
  | Ok (Some content) =>
      let detected_type := PyStr.lower (PyStr.strip content) in
      if bool_decide (detected_type ∈ allowed_types) then detected_type else "unknown"%string
  | Ok None => "unknown"%string
  | Raise _ => "unknown"%string
  end.

Definition extract_document_data (document_text : string) (document_schema : schema) : pyval :=
  match extraction_reply document_text document_schema with
  | Ok extracted_data => extracted_data
  | Raise _ => PDict []
  end.

(** [core.py] calls [re.sub] here without importing [re]: the call
    raises [NameError] as soon as both arguments are non-empty. *)
Definition _find_bbox_for_value (value : string) (word_boxes : list word_box)
    : result (option (Z * bbox)) :=
  if (String.eqb value "" || match word_boxes with [] => true | _ => false end)%bool
  then Ok None
  else Raise NameError.

Definition extracted_field (word_boxes : list word_box) (field_name : string)
    (value : pyval) : result field :=
  bbox_for_value <- _find_bbox_for_value (py_str value) word_boxes ;;
  Ok {| f_name := field_name;
        f_value := py_str value;
        f_confidence := 0.5;
        f_source := match bbox_for_value with
                    | Some (page_num, b) => Some {| src_page := Some page_num; src_bbox := b |}
                    | None => None
                    end |}.

Definition format_entry (word_boxes : list word_box) (kv : string * pyval)
    : result (list field) :=
  let '(key, value) := kv in
  match value with
  | PList l =>
      if forallb is_dict l then
        rows <- map_result
                  (fun ix =>
                     map_result
                       (fun sub =>
                          extracted_field word_boxes
                            (key +:+ "." +:+ PyStr.of_nat (fst ix) +:+ "." +:+ fst sub) (snd sub))
                       (dict_items (snd ix)))
                  (imap (fun i item_dict => (i, item_dict)) l) ;;
        Ok (concat rows)
      else f <- extracted_field word_boxes key value ;; Ok [f]
  | _ => f <- extracted_field word_boxes key value ;; Ok [f]
  end.

Definition _format_extracted_data (extracted_data : pydict) (word_boxes : list word_box)
    : result (list field) :=
  rows <- map_result (format_entry word_boxes) extracted_data ;;
  Ok (concat rows).

Definition schema_of (detected_doc_type : string) : option schema :=
  if String.eqb detected_doc_type "invoice" then Some InvoiceSchema
  else if String.eqb detected_doc_type "medical_bill" then Some MedicalBillSchema
  else if String.eqb detected_doc_type "prescription" then Some PrescriptionSchema
  else None.

Definition run_extraction (file_path : string) : result report :=
  (* 1. document ingestion and OCR *)
  match process_document file_path with
  | Raise e =>
      Ok (_create_error_output ("Error during OCR processing: " +:+ exn_str e) "ocr_error")
  | Ok document_data =>
      let raw_text := default EmptyString (dd_text document_data) in
      let word_boxes := default [] (dd_word_boxes document_data) in
      if String.eqb raw_text "" then
        Ok (_create_error_output "OCR failed to extract text." "ocr_failed")
      else
        (* 2. document routing *)
        let detected_doc_type := classify_document_type raw_text in
        if String.eqb detected_doc_type "unknown" then
          Ok (_create_error_output "Could not classify document type." "classification_failed")
        else
          match schema_of detected_doc_type with
          | None =>
              Ok (_create_error_output
                    ("No schema defined for document type: " +:+ detected_doc_type)
                    "schema_missing")
          | Some document_schema =>
              (* 3. information extraction *)
              let extracted_raw_data := extract_document_data raw_text document_schema in
              match model_validate document_schema extracted_raw_data with
              | Raise e =>
                  Ok (_create_error_output
                        ("Error during data extraction or schema validation: " +:+ exn_str e
                         +:+ ". Raw extracted: " +:+ py_str extracted_raw_data)
                        "extraction_error")
              | Ok extracted_raw_data =>
                  (* 4, 5. placeholders, then the output *)
                  let qa_notes := {| passed_rules := []; failed_rules := [];
                                     notes := "Validation not yet fully implemented." |} in
                  fields_with_confidence <- _format_extracted_data extracted_raw_data word_boxes ;;
                  Ok {| doc_type := detected_doc_type;
                        fields := fields_with_confidence;
                        overall_confidence := 0.0;
                        qa := qa_notes |}
              end
          end
  end.

End Pipeline.

End Core.

(** ** [src/utils/tools.py] *)

Module Tools.

(** [FileNotFoundError] is none of the classes the rules catch by name; it
    travels as [ExternalError] with its message. *)
Definition FileNotFoundError (msg : string) : pyexn := ExternalError msg.

(** The part of [s] before the first character that satisfies [stop], and
    what follows that character when there is one. *)
Fixpoint take_until (stop : ascii -> bool) (s : string) : string * option string :=
  match s with
  | EmptyString => (EmptyString, None)
  | String c s' =>
      if stop c then (EmptyString, Some s')
      else let '(a, b) := take_until stop s' in (String c a, b)
  end.

Fixpoint all_dots (s : string) : bool :=
  match s with
  | EmptyString => true
  | String c s' => (Ascii.eqb c "." && all_dots s')%bool
  end.

(** [os.path.splitext(p)[1]]: the last path component from its last dot on,
    unless nothing but dots precedes that dot there.  [is_sep] tells the
    characters that separate path components. *)
Definition splitext_ext (is_sep : ascii -> bool) (p : string) : string :=
  let rev_base := fst (take_until is_sep (String.rev p)) in
  match take_until (PyRe.is_char ".") rev_base with
  | (rev_ext, Some rev_stem) =>
      if all_dots rev_stem then EmptyString else String "." (String.rev rev_ext)
  | (_, None) => EmptyString
  end.

(** A tuple of [page.get_text("words")]: [(x0, y0, x1, y1, word, ...)]. *)
Record pdf_word : Type := mk_pdf_word {
  pw_x0 : Q; pw_y0 : Q; pw_x1 : Q; pw_y1 : Q; pw_word : string
}.

(** What the loop reads from a page: [get_text()] and [get_text("words")]. *)
Record pdf_page : Type := mk_pdf_page {
  page_text : string;
  page_words : list pdf_word
}.

(** The columns of [pytesseract.image_to_data(..., output_type=DICT)] that
    the loop reads. *)
Record tesseract_data : Type := mk_tesseract_data {
  td_text : list string;
  td_conf : list pyval;
  td_left : list Z;
  td_top : list Z;
  td_width : list Z;
  td_height : list Z
}.

(** [int(s)] on a string: white space, a sign, digits.  Digit separators
    are not covered: the model answers no number for them. *)
Definition int_of_string (s : string) : option Z :=
  let '(neg, s1) := take_sign (PyStr.strip s) in
  let '(v, n, rest) := take_digits s1 0 0 in
  if ((n =? 0)%nat || negb (String.eqb rest ""))%bool then None
  else Some (if neg then - v else v)%Z.

(** [int(v)]; [None] when the call raises. *)
Definition py_int (v : pyval) : option Z :=
  match v with
  | PBool b => Some (if b then 1 else 0)%Z
  | PInt z => Some z
  | PFloat q => Some (if Qlt_le_dec q 0 then Qceiling q else Qfloor q)
  | PStr s => int_of_string s
  | PNone | PList _ | PDict _ => None
  end.

(** [{"text": "", "word_boxes": []}], what both readers return on failure. *)
Definition empty_document : Core.document_data :=
  Core.mk_document_data (Some EmptyString) (Some []).

Definition pdf_word_box (page_num : nat) (word_info : pdf_word) : word_box :=
  {| wb_word := Some (pw_word word_info);
     wb_conf := None;
     wb_bbox := mk_bbox (pw_x0 word_info) (pw_y0 word_info) (pw_x1 word_info) (pw_y1 word_info);
     wb_page_num := Z.of_nat page_num + 1 |}.

(** The loop over [enumerate(doc)], on [(full_text, word_boxes)]. *)
Definition pdf_loop (pages : list pdf_page) : list string * list word_box :=
  fold_left
    (fun st numbered =>
       let '(page_num, page) := numbered in
       (fst st ++ [page_text page],
        fold_left
          (fun word_boxes word_info =>
             if negb (String.eqb (PyStr.strip (pw_word word_info)) "")
             then word_boxes ++ [pdf_word_box page_num word_info]
             else word_boxes)
          (page_words page) (snd st)))
    (imap (fun page_num page => (page_num, page)) pages) ([], []).

Definition image_word_box (word : string) (x y w h : Z) : word_box :=
  {| wb_word := Some word;
     wb_conf := None;
     wb_bbox := mk_bbox (inject_Z x) (inject_Z y) (inject_Z (x + w)) (inject_Z (y + h));
     wb_page_num := 1 |}.

(** The body of [for i in range(n_boxes)]; [None] when a subscript or
    [int] raises. *)
Definition image_step (data : tesseract_data) (word_boxes : list word_box) (i : nat)
    : option (list word_box) :=
  match td_conf data !! i with
  | None => None
  | Some conf =>
      match py_int conf with
      | None => None
      | Some c =>
          if (0 <? c)%Z then
            match td_text data !! i with
            | None => None
            | Some word =>
                if negb (String.eqb (PyStr.strip word) "") then
                  match td_left data !! i, td_top data !! i,
                        td_width data !! i, td_height data !! i with
                  | Some x, Some y, Some w, Some h =>
                      Some (word_boxes ++ [image_word_box word x y w h])
                  | _, _, _, _ => None
                  end
                else Some word_boxes
            end
          else Some word_boxes
      end
  end.

Fixpoint image_loop (data : tesseract_data) (indices : list nat) (word_boxes : list word_box)
    : option (list word_box) :=
  match indices with
  | [] => Some word_boxes
  | i :: rest =>
      match image_step data word_boxes i with
      | Some word_boxes => image_loop data rest word_boxes
      | None => None
      end
  end.

Definition image_extensions : list string :=
  [".png"; ".jpg"; ".jpeg"; ".tiff"; ".bmp"; ".gif"]%string.

(** The platform and the libraries are parameters: the path separators,
    [os.path.exists], the pages PyMuPDF reads from a file, and the table and
    the text Tesseract reads from an image.  [None] stands for an exception
    raised by any call into the library; each reader catches them all and
    answers alike. *)
Section WithFiles.

Variable is_sep : ascii -> bool.
Variable path_exists : string -> bool.
Variable fitz_open : string -> option (list pdf_page).
Variable image_to_data : string -> option tesseract_data.
Variable image_to_string : string -> option string.

Definition _process_pdf (pdf_path : string) : Core.document_data :=
  match fitz_open pdf_path with
  | Some pages =>
      let '(full_text, word_boxes) := pdf_loop pages in
      Core.mk_document_data (Some (PyStr.join PyRe.newline full_text)) (Some word_boxes)
  | None => empty_document
  end.

Definition _process_image (image_path : string) : Core.document_data :=
  match image_to_data image_path, image_to_string image_path with
  | Some data, Some full_text =>
      let n_boxes := length (td_text data) in
      match image_loop data (seq 0 n_boxes) [] with
      | Some word_boxes => Core.mk_document_data (Some full_text) (Some word_boxes)
      | None => empty_document
      end
  | _, _ => empty_document
  end.

Definition process_document (file_path : string) : result Core.document_data :=
  if negb (path_exists file_path)
  then Raise (FileNotFoundError ("Document not found at: " +:+ file_path))
  else
    let file_extension := PyStr.lower (splitext_ext is_sep file_path) in
    if String.eqb file_extension ".pdf" then Ok (_process_pdf file_path)
    else if bool_decide (file_extension ∈ image_extensions) then Ok (_process_image file_path)
    else Raise ValueError.

End WithFiles.

End Tools.

(** ** Notions used in the statements *)

(** The test of [_get_ocr_confidence_for_value] on one token: the stripped,
    lower-cased value and word contain one another, either way round. *)
Definition ocr_matches (value : string) (box_info : word_box) : bool :=
  let normalized_value := PyStr.lower (PyStr.strip value) in
  let normalized_word_in_box :=
    PyStr.lower (PyStr.strip (default EmptyString (wb_word box_info))) in
  (PyStr.contains normalized_value normalized_word_in_box
   || PyStr.contains normalized_word_in_box normalized_value)%bool.

(** A token's confidence on the scale 0 to 1, 100 standing in when the OCR
    gave none. *)
Definition ocr_conf (box_info : word_box) : Q := default 100 (wb_conf box_info) / 100.0.

Definition sum_Q (l : list Q) : Q := fold_right Qplus 0 l.

(** The specification's weighted mean, [sum(confidence * weight) / sum(weight)]. *)
Definition unpenalized_weighted_mean (fields : list field) : Q :=
  sum_Q (List.map (fun f => f_confidence f * weight_of (f_name f)) fields)
  / sum_Q (List.map (fun f => weight_of (f_name f)) fields).

(** A run agrees with the primary value at a path. *)
Definition agrees (field_name primary_value : string) (output : gmap string string) : bool :=
  bool_decide (output !! field_name = Some primary_value).

(** The fraction of the runs that agree, [count / N]. *)
Definition agreement_ratio (py_str : pyval -> string) (field_name primary_value : string)
    (llm_raw_outputs : list pydict) : Q :=
  inject_Z (Z.of_nat (length (List.filter (agrees field_name primary_value)
                                (List.map (fun o => flatten_dict py_str o "") llm_raw_outputs))))
  / inject_Z (Z.of_nat (length llm_raw_outputs)).

(** Every confidence the OCR attached to a token lies between 0 and 100. *)
Definition conf_in_range (word_boxes : list word_box) : Prop :=
  forall b c, In b word_boxes -> wb_conf b = Some c -> 0 <= c <= 100.

(** The test of [_find_bbox_for_value] on one token: its lower-cased word is
    one of the word tokens of the lower-cased value. *)
Definition box_matches (value : string) (box_info : word_box) : bool :=
  bool_decide (PyStr.lower (default EmptyString (wb_word box_info))
               ∈ PyStr.findall_words (PyStr.lower value)).

(** [outer] covers [inner], coordinate by coordinate. *)
Definition covers (outer inner : bbox) : Prop :=
  bx0 outer <= bx0 inner /\ by0 outer <= by0 inner
  /\ bx1 inner <= bx1 outer /\ by1 inner <= by1 outer.

(** [x0 <= x1] and [y0 <= y1]. *)
Definition well_formed (b : bbox) : Prop := bx0 b <= bx1 b /\ by0 b <= by1 b.





(** [c] occurs in [s]. *)
Fixpoint has_char (c : ascii) (s : string) : bool :=
  match s with
  | EmptyString => false
  | String x s' => (Ascii.eqb c x || has_char c s')%bool
  end.

(** A character [repr] shows as it is inside single quotes. *)
Definition plain_char (c : ascii) : bool :=
  let n := nat_of_ascii c in
  ((32 <=? n) && (n <? 127) && negb (n =? 39) && negb (n =? 92))%nat.

Fixpoint plain (s : string) : bool :=
  match s with
  | EmptyString => true
  | String c s' => (plain_char c && plain s')%bool
  end.

(** A marker free of the characters that delimit the rendered list. *)
Definition delimiter_free (marker : string) : bool :=
  (negb (String.eqb marker "")
   && negb (has_char "[" marker) && negb (has_char "]" marker)
   && negb (has_char "'" marker) && negb (has_char "," marker)
   && negb (has_char " " marker))%bool.

(** A plain string between single quotes, as [repr] writes it. *)
Definition quoted (s : string) : string := "'" +:+ s +:+ "'".

(** The value under [k] is a string, or the key is absent. *)
Definition date_ok (d : pydict) (k : string) : bool :=
  match dict_get d k with
  | Some (PStr _) | None => true
  | Some _ => false
  end.





(** ** Notions used in the further properties *)

(** The strings a pattern matches in full. *)
Inductive matches : PyRe.regex -> string -> Prop :=
| matches_eps : matches PyRe.Eps EmptyString
| matches_cls p c : p c = true -> matches (PyRe.Cls p) (String c EmptyString)
| matches_cat r1 r2 s1 s2 :
    matches r1 s1 -> matches r2 s2 -> matches (PyRe.Cat r1 r2) (s1 +:+ s2)
| matches_alt_l r1 r2 s : matches r1 s -> matches (PyRe.Alt r1 r2) s
| matches_alt_r r1 r2 s : matches r2 s -> matches (PyRe.Alt r1 r2) s
| matches_star_nil r : matches (PyRe.Star r) EmptyString
| matches_star_cons r s1 s2 :
    matches r s1 -> matches (PyRe.Star r) s2 -> matches (PyRe.Star r) (s1 +:+ s2).

(** Every character of [s] satisfies [p]. *)
Fixpoint all_chars (p : ascii -> bool) (s : string) : bool :=
  match s with
  | EmptyString => true
  | String c s' => (p c && all_chars p s')%bool
  end.

(** The value is a [str]. *)
Definition is_str (v : pyval) : bool := match v with PStr _ => true | _ => false end.




(** [med.get(k)], [None] when the key is absent. *)
Definition med_field (med : pyval) (k : string) : pyval :=
  default PNone (dict_get (dict_items med) k).

(** A medication with a truthy drug name, dosage and frequency. *)
Definition complete (med : pyval) : bool :=
  (truthy (med_field med "drug_name") && truthy (med_field med "dosage")
   && truthy (med_field med "frequency"))%bool.

(** The list under [medications]; nothing when the key is absent or holds
    no list. *)
Definition medications_of (d : pydict) : list pyval :=
  match dict_get d "medications" with
  | Some (PList meds) => meds
  | _ => []
  end.

(** The key holds a string that is a date in the format of the rules. *)
Definition valid_date_at (d : pydict) (k : string) : bool :=
  match dict_get d k with
  | Some (PStr s) => valid_ymd s
  | _ => false
  end.








(** The factor the failed rules leave of the overall score: 10% off per
    failed rule, 50% at most. *)
Definition penalty_factor (num_failed_rules : nat) : Q :=
  if (0 <? num_failed_rules)%nat
  then 1 - Qmin (0.1 * inject_Z (Z.of_nat num_failed_rules)) 0.5
  else 1.

(** The pairs of a name and a value that [_format_extracted_data] turns into
    fields, in order: an entry as it is, or, for a list of dictionaries, the
    entries of its elements under the names [key.i.sub_key]. *)
Definition entry_leaves (kv : string * pyval) : list (string * pyval) :=
  match snd kv with
  | PList l =>
      if forallb is_dict l then
        concat (imap
          (fun i item_dict =>
             map (fun sub => (fst kv +:+ "." +:+ PyStr.of_nat i +:+ "." +:+ fst sub, snd sub))
                 (dict_items item_dict))
          l)
      else [kv]
  | _ => [kv]
  end.

Definition leaf_entries (extracted_data : pydict) : list (string * pyval) :=
  flat_map entry_leaves extracted_data.

(** The field [core.py] builds for a value it finds no box for. *)
Definition placeholder_field (py_str : pyval -> string) (kv : string * pyval) : field :=
  {| f_name := fst kv; f_value := py_str (snd kv); f_confidence := 0.5; f_source := None |}.

(** The [qa] entry of a report that is not an error report. *)
Definition placeholder_qa : qa_result :=
  {| passed_rules := []; failed_rules := [];
     notes := "Validation not yet fully implemented." |}.

(** The error codes [run_extraction] can report. *)
Definition error_codes : list string :=
  ["ocr_error"; "ocr_failed"; "classification_failed"; "extraction_error"]%string.

(** [_format_extracted_data] stops at this pair: its value renders to a
    non-empty string and the page has tokens. *)
Definition stops_at (py_str : pyval -> string) (word_boxes : list word_box)
    (kv : string * pyval) : bool :=
  negb (String.eqb (py_str (snd kv)) "" || match word_boxes with [] => true | _ => false end).

(** [word.strip()] is truthy. *)
Definition nonblank (word : string) : bool := negb (String.eqb (PyStr.strip word) "").

(** What [tools.py] guarantees of a token it hands on: a word that is not
    blank, no [conf] entry, and a page number. *)
Definition tools_box (pages : Z) (b : word_box) : Prop :=
  wb_conf b = None
  /\ (1 <= wb_page_num b <= pages)%Z
  /\ exists word, wb_word b = Some word /\ nonblank word = true.

(** The row [i] of the Tesseract table is kept: its confidence is an integer
    above 0 and its text is not blank. *)
Definition kept_row (data : Tools.tesseract_data) (i : nat) (word : string) (x y w h : Z) : Prop :=
  (exists conf c, Tools.td_conf data !! i = Some conf /\ Tools.py_int conf = Some c /\ (0 < c)%Z)
  /\ Tools.td_text data !! i = Some word /\ nonblank word = true
  /\ Tools.td_left data !! i = Some x /\ Tools.td_top data !! i = Some y
  /\ Tools.td_width data !! i = Some w /\ Tools.td_height data !! i = Some h.




(** * Properties *)

(** ** The embedding on concrete inputs *)

Example lower_mixed : PyStr.lower "Total: 100.00 USD" = "total: 100.00 usd"%string.
Proof. reflexivity. Qed.

Example strip_both : PyStr.strip "  Acme Corp " = "Acme Corp"%string.
Proof. reflexivity. Qed.

Example findall_words_amount :
  PyStr.findall_words "acme corp., $1,200.50" = ["acme"; "corp"; "1"; "200"; "50"]%string.
Proof. reflexivity. Qed.

Example before_first_dot_nested :
  PyStr.before_first_dot "line_items.0.unit_price" = "line_items"%string.
Proof. reflexivity. Qed.

Example of_nat_12 : PyStr.of_nat 12 = "12"%string /\ PyStr.of_nat 0 = "0"%string.
Proof. split; reflexivity. Qed.

Example float_of_string_plain : Py.float_of_string " 100.00 " = Some (100 + 0 / 100).
Proof. reflexivity. Qed.

Example float_of_string_exp : exists q, Py.float_of_string "-1.5e2" = Some q /\ q == -150.
Proof. eexists; split; [reflexivity | reflexivity]. Qed.

Example float_of_string_bad : Py.float_of_string "12abc" = None /\ Py.float_of_string "" = None.
Proof. split; reflexivity. Qed.

Example valid_ymd_samples :
  Py.valid_ymd "2024-02-29" = true /\ Py.valid_ymd "2023-02-29" = false /\
  Py.valid_ymd "2024-13-45" = false /\ Py.valid_ymd "2024-1-5" = true /\
  Py.valid_ymd "24-01-05" = false /\ Py.valid_ymd "2024-01-311" = false /\
  Py.valid_ymd "2024-01- 5" = true /\ Py.valid_ymd "0000-01-01" = false.
Proof. repeat split; reflexivity. Qed.

Example float_of_string_forms :
  List.map (fun s => option_map Qred (Py.float_of_string s))
    ["1."; ".5"; "."; "1e"; "+1"; "--1"; "1 2"; "1e+2"; "1E-2"; "0x10"; "1.5.2"]%string
  = [Some 1; Some (1 # 2); None; None; Some 1; None; None; Some 100; Some (1 # 100);
     None; None].
Proof. reflexivity. Qed.

Example str_of_list_quotes :
  str_of_list ["a_format_invalid"; "it's"; "x"]%string
  = "['a_format_invalid', " +:+ dquote +:+ "it's" +:+ dquote +:+ ", 'x']".
Proof. reflexivity. Qed.

Example scenario_A_invalid_date :
  validate_invoice [("invoice_date", PStr "2024-13-45")]%string =
  Ok ([], ["invoice_date_format_invalid"; "total_amount_numeric_invalid";
           "line_items_or_total_missing_for_sum_check"]%string).
Proof. reflexivity. Qed.

Example scenario_F_no_medication :
  validate_prescription [("medications", PList [])]%string =
  Ok ([], ["prescription_date_format_invalid"; "no_medication_listed"]%string).
Proof. reflexivity. Qed.

Example unknown_type_note :
  run_validation "receipt" [] =
  Ok {| passed_rules := [];
        failed_rules := ["no_validation_rules_for_type_receipt"]%string;
        notes := "1 validation rule(s) failed." |}.
Proof. reflexivity. Qed.

Example scenario_B_sum_matches :
  validate_invoice
    [("total_amount", PFloat 100.00);
     ("line_items", PList [PDict [("line_total", PFloat 50.00)];
                           PDict [("line_total", PFloat 50.00)]])]%string =
  Ok (["total_amount_numeric_valid"; "line_items_sum_matches_total"]%string,
      ["invoice_date_format_invalid"]%string).
Proof. reflexivity. Qed.

Example scenario_C_sum_mismatch :
  validate_invoice
    [("total_amount", PFloat 100.00);
     ("line_items", PList [PDict [("line_total", PFloat 40.00)]])]%string =
  Ok (["total_amount_numeric_valid"]%string,
      ["invoice_date_format_invalid"; "line_items_sum_mismatch"]%string).
Proof. reflexivity. Qed.

Example py_round2_samples :
  py_round2 0.125 == 0.12 /\ py_round2 0.375 == 0.38 /\ py_round2 0.994 == 0.99 /\
  py_round2 (5 / 6) == 0.83 /\ py_round2 1 == 1.
Proof. repeat split; reflexivity. Qed.

Example flatten_sample :
  map_to_list (flatten_dict str_scalar sample_invoice "") ≡ₚ
  [("vendor_name", "Acme Corp"); ("total_amount", "100.00");
   ("line_items.0.description", "Widget"); ("line_items.0.line_total", "60.00");
   ("line_items.1.description", "Gadget"); ("line_items.1.line_total", "40.00")]%string.
Proof. vm_compute. solve_Permutation. Qed.

(** A nested dictionary is flattened by the recursive call, and a later pair
    replaces an earlier one with the same path. *)
Example flatten_last_wins :
  flatten_dict str_scalar
    [("a.b", PInt 1); ("a", PDict [("b", PInt 2)]); ("tags", PList [PStr "x"; PStr "y"]);
     ("rows", PList [])]%string ""
  !! "a.b"%string = Some "2"%string.
Proof. vm_compute. reflexivity. Qed.


(** ** Arithmetic of [round(x, 2)] *)

Lemma Qfloor_bounds (q : Q) :
  exists f : Q, f = inject_Z (Qfloor q) /\ f <= q /\ q < f + 1.
Proof.
  exists (inject_Z (Qfloor q)). split; [reflexivity |].
  split; [apply Qfloor_le |].
  pose proof (Qlt_floor q) as H. rewrite inject_Z_plus in H. exact H.
Qed.

Lemma inject_Z_le_Qfloor (a : Z) (q : Q) : inject_Z a <= q -> (a <= Qfloor q)%Z.
Proof.
  intros H. pose proof (Qlt_floor q) as Hlt.
  assert (Hq : inject_Z a < inject_Z (Qfloor q + 1)) by (eapply Qle_lt_trans; eauto).
  rewrite <- Zlt_Qlt in Hq. lia.
Qed.

(** Rounding to an integer moves a number by at most one half. *)
Lemma round_half_even_error (q : Q) :
  - (1 # 2) <= inject_Z (round_half_even q) - q <= 1 # 2.
Proof.
  unfold round_half_even.
  destruct (Qfloor_bounds q) as (f & Hf & Hlo & Hhi).
  destruct (Qcompare (q - inject_Z (Qfloor q)) 0.5) eqn:E;
    [apply Qeq_alt in E; destruct (Z.even (Qfloor q)) | apply Qlt_alt in E | apply Qgt_alt in E];
    rewrite ?inject_Z_plus; change (inject_Z 1) with 1; rewrite <- Hf in *; clear Hf; lra.
Qed.

(** Rounding stays between any two integers that enclose the number. *)
Lemma round_half_even_between (a b : Z) (q : Q) :
  inject_Z a <= q <= inject_Z b -> (a <= round_half_even q <= b)%Z.
Proof.
  intros [Ha Hb].
  pose proof (inject_Z_le_Qfloor a q Ha) as Hfa.
  assert (Hfb : (Qfloor q <= b)%Z).
  { rewrite Zle_Qle. eapply Qle_trans; [apply Qfloor_le | exact Hb]. }
  unfold round_half_even.
  destruct (Z.eq_dec (Qfloor q) b) as [Heq | Hne].
  - assert (E : Qcompare (q - inject_Z (Qfloor q)) 0.5 = Lt).
    { apply (proj1 (Qlt_alt _ _)). rewrite Heq. generalize dependent (inject_Z b). intros; lra. }
    rewrite E. lia.
  - destruct (Qcompare _ _); [destruct (Z.even _) | |]; lia.
Qed.


Lemma py_round2_unit (x : Q) : 0 <= x <= 1 -> 0 <= py_round2 x <= 1.
Proof.
  intros Hx. unfold py_round2.
  destruct (round_half_even_between 0 100 (x * 100)) as [Hlo Hhi].
  { change (inject_Z 0) with 0. change (inject_Z 100) with 100. lra. }
  rewrite Zle_Qle in Hlo, Hhi.
  change (inject_Z 0) with 0 in Hlo. change (inject_Z 100) with 100 in Hhi.
  generalize dependent (inject_Z (round_half_even (x * 100))). intros r Hlo Hhi.
  unfold Qdiv. change (/ 100) with (1 # 100). lra.
Qed.

(** [round] sees the number, not the fraction that writes it. *)
Lemma py_round2_compat (x y : Q) : x == y -> py_round2 x = py_round2 y.
Proof.
  intros H. unfold py_round2, round_half_even.
  assert (Hf : Qfloor (x * 100) = Qfloor (y * 100)) by (apply Qfloor_comp; by rewrite H).
  rewrite Hf.
  assert (Hc : Qcompare (x * 100 - inject_Z (Qfloor (y * 100))) 0.5
               = Qcompare (y * 100 - inject_Z (Qfloor (y * 100))) 0.5).
  { apply Qcompare_comp; [by rewrite H | reflexivity]. }
  by rewrite Hc.
Qed.

Lemma Qdiv_unit (a b : Q) : 0 <= a <= b -> 0 < b -> 0 <= a / b <= 1.
Proof.
  intros [Ha Hab] Hb. split.
  - apply Qle_shift_div_l; [exact Hb | lra].
  - apply Qle_shift_div_r; [exact Hb | lra].
Qed.

Lemma Qmult_unit (a b : Q) : 0 <= a <= 1 -> 0 <= b <= 1 -> 0 <= a * b <= 1.
Proof. intros [Ha Ha'] [Hb Hb']. split; nra. Qed.

Lemma inject_nat_le (a b : nat) : (a <= b)%nat -> inject_Z (Z.of_nat a) <= inject_Z (Z.of_nat b).
Proof. intros H. rewrite <- Zle_Qle. lia. Qed.

Lemma inject_nat_pos (n : nat) : (0 < n)%nat -> 0 < inject_Z (Z.of_nat n).
Proof. intros H. change 0 with (inject_Z 0). rewrite <- Zlt_Qlt. lia. Qed.

(** ** Loops written as folds *)

Lemma fold_left_collect {A B : Type} (p : A -> bool) (f : A -> B) (l : list A) (init : list B) :
  fold_left (fun acc x => if p x then acc ++ [f x] else acc) l init
  = init ++ List.map f (List.filter p l).
Proof.
  revert init. induction l as [| x l IH]; intros init; simpl.
  - by rewrite app_nil_r.
  - rewrite IH. destruct (p x); simpl; [by rewrite <- app_assoc | done].
Qed.

Lemma fold_left_count {A : Type} (p : A -> bool) (l : list A) (c0 : nat) :
  fold_left (fun count x => if p x then S count else count) l c0
  = (c0 + length (List.filter p l))%nat.
Proof.
  revert c0. induction l as [| x l IH]; intros c0; simpl; [lia |].
  rewrite IH. destruct (p x); simpl; lia.
Qed.

Lemma filter_length_le {A : Type} (p : A -> bool) (l : list A) :
  (length (List.filter p l) <= length l)%nat.
Proof. induction l as [| x l IH]; simpl; [lia |]. destruct (p x); simpl; lia. Qed.

(** ** The composite calculator *)

Lemma matching_word_confs_filter (value : string) (word_boxes : list word_box) :
  matching_word_confs (PyStr.lower (PyStr.strip value)) word_boxes
  = List.map ocr_conf (List.filter (ocr_matches value) word_boxes).
Proof.
  unfold matching_word_confs.
  exact (fold_left_collect (ocr_matches value) ocr_conf word_boxes []).
Qed.

Lemma validation_score_cases (field_name : string) (qa_results : qa_result) :
  let failed := str_of_list (failed_rules qa_results) in
  let date_trigger :=
    (PyStr.contains "date" field_name && PyStr.contains "format_invalid" failed)%bool in
  let money_trigger :=
    ((PyStr.contains "amount" field_name || PyStr.contains "total" field_name
      || PyStr.contains "subtotal" field_name || PyStr.contains "charge" field_name)
     && PyStr.contains "numeric_invalid" failed)%bool in
  validation_score field_name qa_results = (if (date_trigger || money_trigger)%bool then 0.5 else 1.0).
Proof.
  cbv zeta. unfold validation_score.
  destruct (PyStr.contains "date" field_name), (PyStr.contains "format_invalid" _),
    (PyStr.contains "numeric_invalid" _), (PyStr.contains "amount" field_name),
    (PyStr.contains "total" field_name), (PyStr.contains "subtotal" field_name),
    (PyStr.contains "charge" field_name); reflexivity.
Qed.

Lemma ocr_conf_unit (b : word_box) :
  (forall c, wb_conf b = Some c -> 0 <= c <= 100) -> 0 <= ocr_conf b <= 1.
Proof.
  intros H. unfold ocr_conf. destruct (wb_conf b) as [c |]; simpl.
  - specialize (H c eq_refl). unfold Qdiv. change (/ 100.0) with (10 # 1000). lra.
  - split; discriminate.
Qed.

Lemma fold_left_Qplus_bounds (l : list Q) (a : Q) :
  (forall x, In x l -> 0 <= x <= 1) ->
  a <= fold_left Qplus l a <= a + inject_Z (Z.of_nat (length l)).
Proof.
  revert a. induction l as [| x l IH]; intros a H.
  - cbn [fold_left length]. change (inject_Z (Z.of_nat 0)) with 0. lra.
  - cbn [fold_left length]. rewrite Nat2Z.inj_succ, <- Z.add_1_r, inject_Z_plus.
    change (inject_Z 1) with 1.
    destruct (H x (or_introl eq_refl)) as [Hx0 Hx1].
    destruct (IH (a + x) (fun y Hy => H y (or_intror Hy))) as [Hlo Hhi].
    revert Hlo Hhi. generalize (inject_Z (Z.of_nat (length l))) as n.
    generalize (fold_left Qplus l (a + x)) as s. intros s n Hlo Hhi.
    lra.
Qed.

Lemma mean_unit (l : list Q) :
  l <> [] -> (forall x, In x l -> 0 <= x <= 1) -> 0 <= mean l <= 1.
Proof.
  intros Hne H. unfold mean. apply Qdiv_unit.
  - pose proof (fold_left_Qplus_bounds l 0 H) as Hb. lra.
  - apply inject_nat_pos. destruct l; [congruence | simpl; lia].
Qed.

Lemma ocr_confidence_unit (value : string) (word_boxes : list word_box) :
  conf_in_range word_boxes -> 0 <= _get_ocr_confidence_for_value value word_boxes <= 1.
Proof.
  intros Hr. unfold _get_ocr_confidence_for_value.
  destruct (String.eqb value "" || _)%bool; [split; discriminate |].
  rewrite matching_word_confs_filter.
  destruct (List.map ocr_conf (List.filter (ocr_matches value) word_boxes)) as [| x l] eqn:E;
    [split; discriminate |].
  rewrite <- E. apply mean_unit; [rewrite E; discriminate |].
  intros y Hy. apply in_map_iff in Hy as (b & <- & Hb). apply filter_In in Hb as [Hb _].
  apply ocr_conf_unit. intros c Hc. by apply (Hr b c).
Qed.

Lemma composite_unit (field_name field_value : string) (c : Q) (qa_results : qa_result)
    (word_boxes : list word_box) :
  conf_in_range word_boxes -> 0 <= c <= 1 ->
  0 <= _calculate_field_composite_confidence field_name field_value c qa_results word_boxes <= 1.
Proof.
  intros Hr Hc. unfold _calculate_field_composite_confidence.
  pose proof (ocr_confidence_unit field_value word_boxes Hr) as Ho.
  rewrite validation_score_cases. cbv zeta.
  generalize dependent (_get_ocr_confidence_for_value field_value word_boxes). intros o Ho.
  match goal with |- context [if ?b then _ else _] => destruct b end; lra.
Qed.

(** ** The self-consistency scorer *)

Lemma match_count_filter (field_name primary_value : string) (outs : list (gmap string string)) :
  match_count field_name primary_value outs
  = length (List.filter (agrees field_name primary_value) outs).
Proof. unfold match_count. by rewrite (fold_left_count (agrees field_name primary_value)). Qed.

Lemma consistency_lookup (py_str : pyval -> string) (extracted_data : pydict)
    (llm_raw_outputs : list pydict) (path : string) :
  llm_raw_outputs <> [] ->
  _calculate_llm_consistency py_str extracted_data llm_raw_outputs !! path
  = (fun v => agreement_ratio py_str path v llm_raw_outputs)
      <$> flatten_dict py_str extracted_data "" !! path.
Proof.
  intros Hne. unfold _calculate_llm_consistency, agreement_ratio.
  destruct llm_raw_outputs as [| r0 rs]; [congruence |].
  rewrite map_lookup_imap.
  destruct (flatten_dict py_str extracted_data "" !! path) as [v |]; [| reflexivity].
  simpl. rewrite match_count_filter. reflexivity.
Qed.

Lemma agreement_ratio_unit (py_str : pyval -> string) (path v : string)
    (llm_raw_outputs : list pydict) :
  llm_raw_outputs <> [] -> 0 <= agreement_ratio py_str path v llm_raw_outputs <= 1.
Proof.
  intros Hne. unfold agreement_ratio. apply Qdiv_unit.
  - split; [change 0 with (inject_Z 0); rewrite <- Zle_Qle; lia |].
    apply inject_nat_le. etransitivity; [apply filter_length_le |].
    by rewrite length_map.
  - apply inject_nat_pos. destruct llm_raw_outputs; [congruence | simpl; lia].
Qed.

Lemma consistency_unit (py_str : pyval -> string) (extracted_data : pydict)
    (llm_raw_outputs : list pydict) (path : string) (c : Q) :
  _calculate_llm_consistency py_str extracted_data llm_raw_outputs !! path = Some c ->
  0 <= c <= 1.
Proof.
  destruct (decide (llm_raw_outputs = [])) as [-> | Hne].
  - cbn. rewrite lookup_empty. discriminate.
  - rewrite consistency_lookup by exact Hne.
    destruct (flatten_dict py_str extracted_data "" !! path) as [v |]; [| discriminate].
    intros [= <-]. by apply agreement_ratio_unit.
Qed.

(** ** The field list *)

Lemma fields_of_entry_records (py_str : pyval -> string) (scores : gmap string Q)
    (qa_results : qa_result) (word_boxes : list word_box) (key : string) (value : pyval)
    (f : field) :
  In f (fields_of_entry py_str scores qa_results word_boxes key value) ->
  exists field_name v, f = field_record py_str scores qa_results word_boxes field_name v.
Proof.
  unfold fields_of_entry.
  assert (Hone : forall k v, In f [field_record py_str scores qa_results word_boxes k v] ->
                 exists field_name v', f = field_record py_str scores qa_results word_boxes field_name v').
  { intros k v [<- | []]. eauto. }
  destruct value; try apply Hone.
  destruct (forallb is_dict l); [| apply Hone].
  intros Hin. apply in_concat in Hin as (row & Hrow & Hf).
  apply list_elem_of_In, elem_of_lookup_imap in Hrow as (i & item & -> & _).
  apply in_map_iff in Hf as (kv & <- & _). eauto.
Qed.

Lemma calculate_confidence_scores_records (py_str : pyval -> string) (extracted_data : pydict)
    (qa_results : qa_result) (llm_raw_outputs : list pydict) (word_boxes : list word_box)
    (f : field) :
  In f (fst (calculate_confidence_scores py_str extracted_data qa_results llm_raw_outputs word_boxes)) ->
  exists field_name v,
    f = field_record py_str (_calculate_llm_consistency py_str extracted_data llm_raw_outputs)
          qa_results word_boxes field_name v.
Proof.
  unfold calculate_confidence_scores. cbn [fst].
  intros Hin. apply in_flat_map in Hin as (kv & _ & Hin).
  by apply fields_of_entry_records in Hin.
Qed.

(** ** The overall aggregator *)

Lemma weight_of_cases (field_name : string) :
  weight_of field_name = 1.0 \/ weight_of field_name = 1.5 \/ weight_of field_name = 2.0.
Proof.
  unfold weight_of, field_weights. generalize (PyStr.before_first_dot field_name) as k.
  intros k. cbn [table_get].
  repeat match goal with
         | |- context [String.eqb k ?s] => destruct (String.eqb k s); [tauto |]
         end.
  tauto.
Qed.

Lemma weight_of_bounds (field_name : string) : 1 <= weight_of field_name <= 2.
Proof.
  destruct (weight_of_cases field_name) as [H | [H | H]]; rewrite H; split; discriminate.
Qed.

Lemma weight_loop_sums (fields : list field) (a b : Q) :
  let r := fold_left
             (fun acc f => (fst acc + f_confidence f * weight_of (f_name f),
                            snd acc + weight_of (f_name f)))
             fields (a, b) in
  fst r == a + sum_Q (List.map (fun f => f_confidence f * weight_of (f_name f)) fields)
  /\ snd r == b + sum_Q (List.map (fun f => weight_of (f_name f)) fields).
Proof.
  revert a b. induction fields as [| f fields IH]; intros a b; cbn zeta; simpl.
  - split; ring.
  - destruct (IH (a + f_confidence f * weight_of (f_name f)) (b + weight_of (f_name f))) as [H1 H2].
    cbn zeta in H1, H2. rewrite H1, H2. split; ring.
Qed.

Lemma total_weight_pos (fields : list field) :
  fields <> [] -> 0 < sum_Q (List.map (fun f => weight_of (f_name f)) fields).
Proof.
  assert (H : forall l : list field, 0 <= sum_Q (List.map (fun f => weight_of (f_name f)) l)).
  { induction l as [| f l IH]; simpl; [discriminate |].
    pose proof (weight_of_bounds (f_name f)). lra. }
  destruct fields as [| f l]; [congruence |]. intros _. simpl.
  pose proof (weight_of_bounds (f_name f)). specialize (H l). lra.
Qed.

Lemma sum_weighted_bounds (fields : list field) :
  (forall f, In f fields -> 0 <= f_confidence f <= 1) ->
  0 <= sum_Q (List.map (fun f => f_confidence f * weight_of (f_name f)) fields)
    <= sum_Q (List.map (fun f => weight_of (f_name f)) fields).
Proof.
  induction fields as [| f l IH]; intros H; cbn [List.map sum_Q fold_right].
  - split; discriminate.
  - destruct (IH (fun g Hg => H g (or_intror Hg))) as [Hlo Hhi].
    destruct (H f (or_introl eq_refl)) as [Hc0 Hc1].
    fold (sum_Q (List.map (fun f => f_confidence f * weight_of (f_name f)) l)).
    fold (sum_Q (List.map (fun f => weight_of (f_name f)) l)).
    revert Hlo Hhi.
    generalize (sum_Q (List.map (fun f => f_confidence f * weight_of (f_name f)) l)) as s.
    generalize (sum_Q (List.map (fun f => weight_of (f_name f)) l)) as t.
    intros t s Hlo Hhi.
    destruct (weight_of_cases (f_name f)) as [Hw | [Hw | Hw]]; rewrite Hw; lra.
Qed.

(** The result of the loop, read as the two sums. *)
Lemma weight_loop_mean (fields : list field) :
  fields <> [] ->
  let '(weighted_sum, total_weight) := weight_loop fields in
  0 < total_weight /\ weighted_sum / total_weight == unpenalized_weighted_mean fields.
Proof.
  intros Hne.
  pose proof (weight_loop_sums fields 0.0 0.0) as Hs. cbn zeta in Hs.
  fold (weight_loop fields) in Hs. destruct (weight_loop fields) as [ws tw].
  cbn [fst snd] in Hs. destruct Hs as [Hws Htw].
  pose proof (total_weight_pos fields Hne) as Hpos.
  split.
  - rewrite Htw. lra.
  - unfold unpenalized_weighted_mean. rewrite Hws, Htw. apply Qdiv_comp; ring.
Qed.

Lemma unpenalized_weighted_mean_unit (fields : list field) :
  fields <> [] -> (forall f, In f fields -> 0 <= f_confidence f <= 1) ->
  0 <= unpenalized_weighted_mean fields <= 1.
Proof.
  intros Hne H. unfold unpenalized_weighted_mean.
  apply Qdiv_unit; [by apply sum_weighted_bounds | by apply total_weight_pos].
Qed.

(** ** The rendered list of failed rules *)

Lemma append_cons (x : ascii) (a b : string) : String x a +:+ b = String x (a +:+ b).
Proof. reflexivity. Qed.

Lemma append_nil_l (b : string) : "" +:+ b = b.
Proof. reflexivity. Qed.

Lemma append_assoc (a b c : string) : (a +:+ b) +:+ c = a +:+ (b +:+ c).
Proof.
  induction a as [| x a IH]; [reflexivity |].
  by rewrite !append_cons, IH.
Qed.

Lemma prefix_app_sep (m a b : string) (c : ascii) :
  has_char c m = false ->
  String.prefix m (a +:+ String c b) = String.prefix m a.
Proof.
  revert a. induction m as [| x m IH]; intros a Hc; [by destruct a |].
  cbn in Hc. apply orb_false_elim in Hc as [Hx Hm].
  destruct a as [| y a]; rewrite ?append_nil_l, ?append_cons; cbn [String.prefix].
  - destruct (ascii_dec x c) as [-> | Hne]; [| reflexivity].
    by rewrite Ascii.eqb_refl in Hx.
  - destruct (ascii_dec x y); [by apply IH | reflexivity].
Qed.

Lemma contains_nil (m : string) : m <> EmptyString -> PyStr.contains m "" = false.
Proof. by destruct m. Qed.

Lemma contains_app_sep (m a b : string) (c : ascii) :
  m <> EmptyString -> has_char c m = false ->
  PyStr.contains m (a +:+ String c b) = (PyStr.contains m a || PyStr.contains m b)%bool.
Proof.
  intros Hm Hc. induction a as [| x a IH].
  - rewrite append_nil_l. cbn [PyStr.contains].
    rewrite <- (append_nil_l (String c b)), prefix_app_sep by exact Hc.
    destruct m; [congruence | reflexivity].
  - rewrite append_cons. cbn [PyStr.contains]. rewrite IH.
    rewrite <- append_cons, prefix_app_sep by exact Hc.
    by rewrite orb_assoc.
Qed.

Lemma has_char_contains (c : ascii) (s : string) :
  has_char c s = false -> PyStr.contains (String c EmptyString) s = false.
Proof.
  induction s as [| x s IH]; [reflexivity |].
  cbn. intros H. apply orb_false_elim in H as [Hx Hs].
  rewrite (IH Hs). destruct (ascii_dec c x) as [-> | Hne].
  - by rewrite Ascii.eqb_refl in Hx.
  - reflexivity.
Qed.

Lemma plain_no_quote (s : string) : plain s = true -> has_char "'" s = false.
Proof.
  induction s as [| x s IH]; [reflexivity |].
  cbn [plain has_char]. intros H. apply andb_prop in H as [Hx Hs].
  rewrite (IH Hs), orb_false_r.
  destruct (Ascii.eqb_spec "'"%char x) as [<- | Hne]; [discriminate | reflexivity].
Qed.

Lemma escape_plain (s : string) : plain s = true -> escape "'" s = s.
Proof.
  induction s as [| x s IH]; [reflexivity |].
  cbn [plain escape]. intros H. apply andb_prop in H as [Hx Hs].
  rewrite (IH Hs). clear IH Hs.
  unfold plain_char in Hx. unfold escape_char.
  repeat (apply andb_prop in Hx as [Hx ?]).
  apply Nat.leb_le in Hx.
  repeat match goal with
         | H : (_ <? _)%nat = true |- _ => apply Nat.ltb_lt in H
         | H : negb _ = true |- _ => apply negb_true_iff in H
         | H : (_ =? _)%nat = false |- _ => apply Nat.eqb_neq in H
         end.
  replace (nat_of_ascii x =? 92)%nat with false by (symmetry; by apply Nat.eqb_neq).
  destruct (Ascii.eqb_spec x "'"%char) as [-> | _]; [by cbn in * |].
  replace (nat_of_ascii x =? 9)%nat with false by (symmetry; apply Nat.eqb_neq; lia).
  replace (nat_of_ascii x =? 10)%nat with false by (symmetry; apply Nat.eqb_neq; lia).
  replace (nat_of_ascii x =? 13)%nat with false by (symmetry; apply Nat.eqb_neq; lia).
  replace (nat_of_ascii x <? 32)%nat with false by (symmetry; apply Nat.ltb_ge; lia).
  replace (127 <=? nat_of_ascii x)%nat with false by (symmetry; apply Nat.leb_gt; lia).
  reflexivity.
Qed.

Lemma repr_plain (s : string) : plain s = true -> repr_str s = "'" +:+ s +:+ "'".
Proof.
  intros H. unfold repr_str.
  change squote with (String "'"%char EmptyString).
  rewrite (has_char_contains _ _ (plain_no_quote s H)). cbn [andb].
  by rewrite escape_plain.
Qed.

Lemma contains_sep_head (m b : string) (c : ascii) :
  m <> EmptyString -> has_char c m = false ->
  PyStr.contains m (String c b) = PyStr.contains m b.
Proof.
  intros Hm Hc. rewrite <- (append_nil_l (String c b)), contains_app_sep by done.
  by rewrite contains_nil.
Qed.

Lemma contains_quoted_then (m s rest : string) :
  delimiter_free m = true ->
  PyStr.contains m (quoted s +:+ rest) = (PyStr.contains m s || PyStr.contains m rest)%bool.
Proof.
  unfold delimiter_free. intros H.
  repeat (apply andb_prop in H as [H ?]).
  repeat match goal with
         | H : negb _ = true |- _ => apply negb_true_iff in H
         end.
  apply String.eqb_neq in H.
  unfold quoted. rewrite !append_assoc, !append_cons, !append_nil_l.
  rewrite contains_sep_head by done.
  by rewrite contains_app_sep by done.
Qed.

Lemma contains_joined (m : string) (l : list string) :
  delimiter_free m = true ->
  PyStr.contains m (PyStr.join ", " (List.map quoted l) +:+ "]")
  = existsb (PyStr.contains m) l.
Proof.
  intros H. pose proof H as H'. unfold delimiter_free in H'.
  repeat (apply andb_prop in H' as [H' ?]).
  repeat match goal with
         | H : negb _ = true |- _ => apply negb_true_iff in H
         end.
  apply String.eqb_neq in H'.
  induction l as [| s rest IH].
  - cbn [List.map PyStr.join existsb]. rewrite append_nil_l.
    rewrite contains_sep_head by done. by apply contains_nil.
  - cbn [existsb]. rewrite <- IH. clear IH.
    destruct rest as [| r rest'].
    + cbn [List.map PyStr.join]. rewrite append_nil_l.
      by rewrite contains_quoted_then.
    + change (PyStr.join ", " (List.map quoted (s :: r :: rest')))
        with (quoted s +:+ ", " +:+ PyStr.join ", " (List.map quoted (r :: rest'))).
      rewrite !append_assoc, contains_quoted_then by done.
      rewrite !append_cons, append_nil_l.
      by rewrite !contains_sep_head by done.
Qed.

Lemma str_of_list_contains (marker : string) (l : list string) :
  delimiter_free marker = true ->
  Forall (fun s => plain s = true) l ->
  PyStr.contains marker (str_of_list l) = existsb (PyStr.contains marker) l.
Proof.
  intros Hm Hl. unfold str_of_list.
  replace (List.map repr_str l) with (List.map quoted l).
  - pose proof Hm as H'. unfold delimiter_free in H'.
    repeat (apply andb_prop in H' as [H' ?]).
    repeat match goal with
           | H : negb _ = true |- _ => apply negb_true_iff in H
           end.
    apply String.eqb_neq in H'.
    rewrite append_cons, append_nil_l, contains_sep_head by done.
    by apply contains_joined.
  - induction Hl as [| s l Hs _ IH]; [reflexivity |].
    cbn [List.map]. by rewrite IH, repr_plain.
Qed.

(** C8 -- The validation component of the composite confidence is 0.5
    exactly when the field name contains "date" and the failed rules show a
    date-format failure ("format_invalid" occurs in the rendered list), or the
    field name contains "amount", "total", "subtotal" or "charge" and the
    failed rules show a numeric-format failure ("numeric_invalid" occurs);
    otherwise it is 1.0.  Both triggers together still give 0.5, so the
    component never falls below 0.5, and it enters the composite with weight
    0.20.  For rule identifiers that [repr] leaves as they are, the marker
    occurs in the rendered list exactly when some failed rule contains it, so
    the signal is document-wide: any failed rule counts, whatever the field. *)
Theorem validation_score_demotion (field_name field_value : string) (c : Q)
    (qa_results : qa_result) (word_boxes : list word_box) :
  let failed := str_of_list (failed_rules qa_results) in
  let date_trigger :=
    (PyStr.contains "date" field_name && PyStr.contains "format_invalid" failed)%bool in
  let money_trigger :=
    ((PyStr.contains "amount" field_name || PyStr.contains "total" field_name
      || PyStr.contains "subtotal" field_name || PyStr.contains "charge" field_name)
     && PyStr.contains "numeric_invalid" failed)%bool in
  let v := validation_score field_name qa_results in
  (v = 0.5 <-> (date_trigger || money_trigger)%bool = true)
  /\ (v = 1.0 <-> (date_trigger || money_trigger)%bool = false)
  /\ ((date_trigger && money_trigger)%bool = true -> v = 0.5)
  /\ 0.5 <= v
  /\ _calculate_field_composite_confidence field_name field_value c qa_results word_boxes
     = 0.70 * c + 0.20 * v + 0.10 * _get_ocr_confidence_for_value field_value word_boxes
  /\ (Forall (fun rule => plain rule = true) (failed_rules qa_results) ->
      PyStr.contains "format_invalid" failed
      = existsb (PyStr.contains "format_invalid") (failed_rules qa_results)
      /\ PyStr.contains "numeric_invalid" failed
         = existsb (PyStr.contains "numeric_invalid") (failed_rules qa_results)).
Proof.
  intros failed date_trigger money_trigger v.
  assert (Hv : v = if (date_trigger || money_trigger)%bool then 0.5 else 1.0)
    by apply validation_score_cases.
  repeat split.
  - intros H. rewrite Hv in H. destruct (date_trigger || money_trigger)%bool; [done | discriminate].
  - intros H. by rewrite Hv, H.
  - intros H. rewrite Hv in H. destruct (date_trigger || money_trigger)%bool; [discriminate | done].
  - intros H. by rewrite Hv, H.
  - intros H. rewrite Hv. apply andb_prop in H as [-> _]. reflexivity.
  - rewrite Hv. destruct (date_trigger || money_trigger)%bool; discriminate.
  - by apply str_of_list_contains.
  - by apply str_of_list_contains.
Qed.

(** A field name and a failed-rule list on which both triggers fire. *)
Lemma validation_score_demotion_witness :
  validation_score "due_date_amount"
    (mk_qa [] ["invoice_date_format_invalid"; "total_amount_numeric_invalid"]%string "") = 0.5.
Proof.
  apply (validation_score_demotion "due_date_amount" "" 0
           (mk_qa [] ["invoice_date_format_invalid"; "total_amount_numeric_invalid"]%string "") []).
  reflexivity.
Defined.



Lemma penalty_bounds (n : nat) :
  0 <= Qmin (0.1 * inject_Z (Z.of_nat n)) 0.5 <= 0.5.
Proof.
  split; [| apply Q.le_min_r].
  apply Q.min_glb; [| discriminate].
  assert (H : 0 <= inject_Z (Z.of_nat n)).
  { change 0 with (inject_Z 0). rewrite <- Zle_Qle. lia. }
  revert H. generalize (inject_Z (Z.of_nat n)). intros k H. lra.
Qed.

Lemma overall_confidence_unit (fields : list field) (qa_results : qa_result) :
  (forall f, In f fields -> 0 <= f_confidence f <= 1) ->
  0 <= _calculate_overall_confidence fields qa_results <= 1.
Proof.
  intros H. unfold _calculate_overall_confidence.
  destruct fields as [| f0 l]; [split; discriminate |].
  set (fields := f0 :: l) in *.
  assert (Hne : fields <> []) by discriminate.
  pose proof (weight_loop_mean fields Hne) as Hm.
  pose proof (unpenalized_weighted_mean_unit fields Hne H) as Hu.
  destruct (weight_loop fields) as [ws tw]. destruct Hm as [Hpos Hm].
  rewrite <- Hm in Hu.
  destruct (Qlt_le_dec 0 tw) as [_ | Hle]; [| lra].
  apply py_round2_unit.
  destruct (0 <? length (failed_rules qa_results))%nat; [| exact Hu].
  apply Qmult_unit; [exact Hu |].
  pose proof (penalty_bounds (length (failed_rules qa_results))) as Hp.
  revert Hp. generalize (Qmin (0.1 * inject_Z (Z.of_nat (length (failed_rules qa_results)))) 0.5).
  intros p Hp. lra.
Qed.




(** C3 -- Whatever the extracted data, the validation result and the repeated
    runs, and for word boxes whose [conf] values lie in [0, 100], every
    per-field confidence that [calculate_confidence_scores] returns lies in
    [0, 1], and so does the overall document confidence. *)
Theorem confidence_scores_in_unit_interval (py_str : pyval -> string)
    (extracted_data : pydict) (qa_results : qa_result) (llm_raw_outputs : list pydict)
    (word_boxes : list word_box) :
  conf_in_range word_boxes ->
  (forall f,
      In f (fst (calculate_confidence_scores py_str extracted_data qa_results
                   llm_raw_outputs word_boxes)) ->
      0 <= f_confidence f <= 1)
  /\ 0 <= snd (calculate_confidence_scores py_str extracted_data qa_results
                 llm_raw_outputs word_boxes) <= 1.
Proof.
  intros Hr.
  assert (Hfields : forall f,
             In f (fst (calculate_confidence_scores py_str extracted_data qa_results
                          llm_raw_outputs word_boxes)) ->
             0 <= f_confidence f <= 1).
  { intros f Hin.
    apply calculate_confidence_scores_records in Hin as (field_name & v & ->).
    cbn [field_record f_confidence].
    apply py_round2_unit, composite_unit; [exact Hr |].
    destruct (_calculate_llm_consistency py_str extracted_data llm_raw_outputs !! field_name)
      as [c |] eqn:E; cbn [default from_option id].
    - by apply consistency_unit in E.
    - split; discriminate. }
  split; [exact Hfields |].
  unfold calculate_confidence_scores in *. cbn [fst snd] in *.
  by apply overall_confidence_unit.
Qed.

Lemma confidence_scores_in_unit_interval_witness :
  conf_in_range sample_boxes
  /\ 0 <= snd (calculate_confidence_scores str_scalar sample_invoice
                 (mk_qa [] ["invoice_date_format_invalid"%string] "1 validation rule(s) failed.")
                 [sample_invoice; []] sample_boxes) <= 1.
Proof.
  assert (Hr : conf_in_range sample_boxes).
  { intros b c Hb Hc. unfold sample_boxes in Hb. cbn [In] in Hb.
    destruct Hb as [<- | [<- | [<- | []]]]; injection Hc as <-; split; discriminate. }
  split; [exact Hr |].
  apply (confidence_scores_in_unit_interval str_scalar sample_invoice
           (mk_qa [] ["invoice_date_format_invalid"%string] "1 validation rule(s) failed.")
           [sample_invoice; []] sample_boxes Hr).
Defined.



(** Three fields whose raw composites are 0.904, 0.904 and 0.914: the
    function reports 0.90, 0.90, 0.91 and aggregates those to 0.90, while the
    raw composites would aggregate to 0.91. *)
Example overall_uses_rounded_fields :
  let extracted_data :=
    [("currency", PStr "USD"); ("memo", PStr "paid"); ("terms", PStr "net30")]%string in
  let word_boxes :=
    [mk_word_box (Some "USD"%string) (Some 4) (mk_bbox 0 0 10 10) 1;
     mk_word_box (Some "paid"%string) (Some 4) (mk_bbox 20 0 30 10) 1;
     mk_word_box (Some "net30"%string) (Some 14) (mk_bbox 40 0 50 10) 1] in
  let qa_results := mk_qa [] [] "" in
  let result := calculate_confidence_scores str_scalar extracted_data qa_results
                  [extracted_data] word_boxes in
  List.map (fun f => Qred (f_confidence f)) (fst result) = [0.9; 0.9; 0.91]
  /\ snd result == 0.90
  /\ py_round2 ((0.904 + 0.904 + 0.914) / 3) == 0.91.
Proof. cbv zeta. repeat split; vm_compute; reflexivity. Qed.

Lemma filter_all {A : Type} (p : A -> bool) (l : list A) :
  Forall (fun x => p x = true) l -> List.filter p l = l.
Proof. induction 1 as [| x l Hx _ IH]; simpl; [done |]. by rewrite Hx, IH. Qed.

Lemma filter_none {A : Type} (p : A -> bool) (l : list A) :
  Forall (fun x => p x = false) l -> List.filter p l = [].
Proof. induction 1 as [| x l Hx _ IH]; simpl; [done |]. by rewrite Hx, IH. Qed.





(** ** The grounding matcher *)

Lemma py_min_spec (x : Q) (rest : list Q) :
  In (py_min x rest) (x :: rest) /\ Forall (fun y => py_min x rest <= y) (x :: rest).
Proof.
  unfold py_min. revert x. induction rest as [| y rest IH]; intros x; cbn [fold_left].
  - split; [by left | repeat constructor; apply Qle_refl].
  - destruct (Qlt_le_dec y x) as [Hlt | Hle].
    + destruct (IH y) as [Hin Hall]. split.
      * right. exact Hin.
      * apply Forall_cons in Hall as [Hy Hrest].
        constructor; [| by constructor]. apply Qlt_le_weak in Hlt. by eapply Qle_trans.
    + destruct (IH x) as [Hin Hall]. split.
      * destruct Hin as [Hin | Hin]; [by left | right; by right].
      * apply Forall_cons in Hall as [Hx Hrest].
        constructor; [exact Hx |]. constructor; [by eapply Qle_trans | exact Hrest].
Qed.

Lemma py_max_spec (x : Q) (rest : list Q) :
  In (py_max x rest) (x :: rest) /\ Forall (fun y => y <= py_max x rest) (x :: rest).
Proof.
  unfold py_max. revert x. induction rest as [| y rest IH]; intros x; cbn [fold_left].
  - split; [by left | repeat constructor; apply Qle_refl].
  - destruct (Qlt_le_dec x y) as [Hlt | Hle].
    + destruct (IH y) as [Hin Hall]. split.
      * right. exact Hin.
      * apply Forall_cons in Hall as [Hy Hrest].
        constructor; [| by constructor]. apply Qlt_le_weak in Hlt. by eapply Qle_trans.
    + destruct (IH x) as [Hin Hall]. split.
      * destruct Hin as [Hin | Hin]; [by left | right; by right].
      * apply Forall_cons in Hall as [Hx Hrest].
        constructor; [exact Hx |]. constructor; [by eapply Qle_trans | exact Hrest].
Qed.

Lemma matching_loop_filter (value : string) (word_boxes : list word_box) :
  matching_loop (PyStr.findall_words (PyStr.lower value)) word_boxes
  = (List.map wb_bbox (List.filter (box_matches value) word_boxes),
     wb_page_num <$> head (List.filter (box_matches value) word_boxes)).
Proof.
  unfold matching_loop.
  set (step := fun (st : list bbox * option Z) (box_info : word_box) => _).
  assert (H : forall l bs pg,
             fold_left step l (bs, pg)
             = (bs ++ List.map wb_bbox (List.filter (box_matches value) l),
                match pg with
                | Some p => Some p
                | None => wb_page_num <$> head (List.filter (box_matches value) l)
                end)).
  { induction l as [| b l IH]; intros bs pg; cbn [fold_left List.filter List.map].
    - rewrite app_nil_r. by destruct pg.
    - unfold step at 2. fold (box_matches value b). cbn [fst snd].
      destruct (box_matches value b); rewrite IH.
      + cbn [List.map head]. rewrite <- app_assoc. by destruct pg.
      + reflexivity. }
  apply H.
Qed.

Lemma py_min_map {A : Type} (g : A -> Q) (a : A) (l : list A) :
  (forall b, In b (a :: l) -> py_min (g a) (List.map g l) <= g b)
  /\ (exists b, In b (a :: l) /\ py_min (g a) (List.map g l) = g b).
Proof.
  destruct (py_min_spec (g a) (List.map g l)) as [Hin Hall]. split.
  - intros b Hb. rewrite List.Forall_forall in Hall. apply Hall.
    change (g a :: List.map g l) with (List.map g (a :: l)). by apply in_map.
  - change (g a :: List.map g l) with (List.map g (a :: l)) in Hin.
    apply in_map_iff in Hin as (b & Hb & Hin). eauto.
Qed.

Lemma py_max_map {A : Type} (g : A -> Q) (a : A) (l : list A) :
  (forall b, In b (a :: l) -> g b <= py_max (g a) (List.map g l))
  /\ (exists b, In b (a :: l) /\ py_max (g a) (List.map g l) = g b).
Proof.
  destruct (py_max_spec (g a) (List.map g l)) as [Hin Hall]. split.
  - intros b Hb. rewrite List.Forall_forall in Hall. apply Hall.
    change (g a :: List.map g l) with (List.map g (a :: l)). by apply in_map.
  - change (g a :: List.map g l) with (List.map g (a :: l)) in Hin.
    apply in_map_iff in Hin as (b & Hb & Hin). eauto.
Qed.

Lemma find_bbox_unfold (value : string) (word_boxes : list word_box) :
  _find_bbox_for_value value word_boxes
  = match List.filter (box_matches value) word_boxes with
    | [] => None
    | first :: rest =>
        Some {| src_page := Some (wb_page_num first);
                src_bbox :=
                  {| bx0 := py_min (bx0 (wb_bbox first)) (List.map (fun b => bx0 (wb_bbox b)) rest);
                     by0 := py_min (by0 (wb_bbox first)) (List.map (fun b => by0 (wb_bbox b)) rest);
                     bx1 := py_max (bx1 (wb_bbox first)) (List.map (fun b => bx1 (wb_bbox b)) rest);
                     by1 := py_max (by1 (wb_bbox first)) (List.map (fun b => by1 (wb_bbox b)) rest) |} |}
    end.
Proof.
  unfold _find_bbox_for_value.
  destruct (String.eqb_spec value "") as [-> | Hv]; cbn [orb].
  - replace (List.filter (box_matches "") word_boxes) with (@nil word_box); [done |].
    symmetry. apply filter_none. apply List.Forall_forall. intros b _.
    unfold box_matches. apply bool_decide_eq_false. cbn. apply not_elem_of_nil.
  - destruct word_boxes as [| b0 bs]; [reflexivity |].
    rewrite matching_loop_filter.
    destruct (List.filter (box_matches value) (b0 :: bs)) as [| first rest]; [reflexivity |].
    cbn [List.map head fmap option_fmap option_map]. by rewrite !map_map.
Qed.

(** C5 -- [_find_bbox_for_value] returns nothing exactly when no token's
    lower-cased word is among the word tokens of the value.  When tokens
    match, the page is that of the first match in index order, and the box
    covers the box of every matched token with each side attained by one of
    them: x0 and y0 are minima, x1 and y1 are maxima over the matches, so
    every box that covers the matched boxes covers it.  The box has
    [x0 <= x1] and [y0 <= y1] when every input token box has. *)
Theorem find_bbox_covers_matches (value : string) (word_boxes : list word_box) :
  let matched := List.filter (box_matches value) word_boxes in
  (_find_bbox_for_value value word_boxes = None <-> matched = [])
  /\ (forall first rest, matched = first :: rest ->
      exists src,
        _find_bbox_for_value value word_boxes = Some src
        /\ src_page src = Some (wb_page_num first)
        /\ (forall b, In b matched -> covers (src_bbox src) (wb_bbox b))
        /\ (exists b, In b matched /\ bx0 (src_bbox src) = bx0 (wb_bbox b))
        /\ (exists b, In b matched /\ by0 (src_bbox src) = by0 (wb_bbox b))
        /\ (exists b, In b matched /\ bx1 (src_bbox src) = bx1 (wb_bbox b))
        /\ (exists b, In b matched /\ by1 (src_bbox src) = by1 (wb_bbox b))
        /\ (forall outer,
              (forall b, In b matched -> covers outer (wb_bbox b)) ->
              covers outer (src_bbox src))
        /\ ((forall b, In b word_boxes -> well_formed (wb_bbox b)) ->
            well_formed (src_bbox src))).
Proof.
  cbv zeta. rewrite find_bbox_unfold. split.
  - destruct (List.filter (box_matches value) word_boxes); split; done.
  - intros first rest Hm. rewrite Hm. eexists. split; [reflexivity |].
    cbn [src_page src_bbox bx0 by0 bx1 by1].
    destruct (py_min_map (fun b => bx0 (wb_bbox b)) first rest) as [Hx0 Ex0].
    destruct (py_min_map (fun b => by0 (wb_bbox b)) first rest) as [Hy0 Ey0].
    destruct (py_max_map (fun b => bx1 (wb_bbox b)) first rest) as [Hx1 Ex1].
    destruct (py_max_map (fun b => by1 (wb_bbox b)) first rest) as [Hy1 Ey1].
    split; [reflexivity |]. split.
    { intros b Hb. unfold covers. cbn [bx0 by0 bx1 by1]. auto. }
    do 4 (split; [assumption |]).
    split.
    { intros outer Hout. unfold covers. cbn [bx0 by0 bx1 by1].
      destruct Ex0 as (b0 & Hb0 & ->), Ey0 as (b1 & Hb1 & ->),
               Ex1 as (b2 & Hb2 & ->), Ey1 as (b3 & Hb3 & ->).
      pose proof (Hout b0 Hb0) as (? & _ & _ & _).
      pose proof (Hout b1 Hb1) as (_ & ? & _ & _).
      pose proof (Hout b2 Hb2) as (_ & _ & ? & _).
      pose proof (Hout b3 Hb3) as (_ & _ & _ & ?).
      auto. }
    intros Hwf. unfold well_formed. cbn [bx0 by0 bx1 by1].
    assert (Hfirst : well_formed (wb_bbox first)).
    { apply Hwf. eapply (proj1 (filter_In _ _ _)). rewrite Hm. by left. }
    destruct Hfirst as [Hfx Hfy].
    specialize (Hx0 first (or_introl eq_refl)). specialize (Hy0 first (or_introl eq_refl)).
    specialize (Hx1 first (or_introl eq_refl)). specialize (Hy1 first (or_introl eq_refl)).
    cbv beta in *. split; eapply Qle_trans; eauto; eapply Qle_trans; eauto.
Qed.

Lemma find_bbox_covers_matches_witness :
  exists src,
    _find_bbox_for_value "Acme Corp" sample_boxes = Some src
    /\ src_page src = Some 1%Z
    /\ well_formed (src_bbox src).
Proof.
  destruct (proj2 (find_bbox_covers_matches "Acme Corp" sample_boxes) _ _ eq_refl)
    as (src & Hsrc & Hpage & _ & _ & _ & _ & _ & _ & Hwf).
  exists src. split; [exact Hsrc |]. split; [exact Hpage |].
  apply Hwf. intros b Hb. unfold sample_boxes in Hb. cbn [In] in Hb.
  destruct Hb as [<- | [<- | [<- | []]]]; split; discriminate.
Defined.

(** ** The validation rules *)


(** The date test answers on strings and raises on everything else. *)
Lemma is_valid_date_spec (date_string : pyval) :
  _is_valid_date date_string
  = match date_string with
    | PStr s => Ok (valid_ymd s)
    | _ => Raise TypeError
    end.
Proof.
  unfold _is_valid_date.
  destruct date_string as [| b | z | q | s | l | d]; try reflexivity.
  cbn [strptime_ymd]. destruct (valid_ymd s); reflexivity.
Qed.


















(** C6 -- The rules do raise.  [_is_valid_date] catches [ValueError] only,
    so a date that is present and is not a string ([None], a number) makes
    [run_validation] raise [TypeError]; an element of [medications] or
    [line_items] that is not a dictionary makes it raise [AttributeError].
    The sibling [_is_valid_decimal] catches both classes and answers
    [False] on [None].  ([run_validation_returns] above gives the inputs on
    which the dispatcher does return.) *)
Theorem run_validation_raises_on_malformed_input :
  run_validation "invoice" [("invoice_date", PNone)]%string = Raise TypeError
  /\ run_validation "invoice" [("invoice_date", PInt 20240131)]%string = Raise TypeError
  /\ run_validation "medical_bill" [("date_of_service_start", PNone)]%string = Raise TypeError
  /\ run_validation "prescription" [("prescription_date", PNone)]%string = Raise TypeError
  /\ run_validation "prescription"
       [("prescription_date", PStr "2024-01-31"); ("medications", PList [PStr "aspirin"])]%string
     = Raise AttributeError
  /\ run_validation "invoice"
       [("invoice_date", PStr "2024-01-31"); ("total_amount", PFloat 10.0);
        ("line_items", PList [PFloat 10.0])]%string
     = Raise AttributeError
  /\ _is_valid_date PNone = Raise TypeError
  /\ _is_valid_decimal PNone = Ok false.
Proof. repeat split; reflexivity. Qed.




(** ** The extraction driver *)


(** A reply that raises, that has no content, or that names no known type
    is classified as ['unknown']. *)
Lemma classify_unknown (classification_reply : string -> result (option string))
    (document_text : string) :
  (forall content,
      classification_reply (Core.text_snippet document_text) = Ok (Some content) ->
      PyStr.lower (PyStr.strip content) ∉ Core.allowed_types) ->
  Core.classify_document_type classification_reply document_text = "unknown"%string.
Proof.
  intros H. unfold Core.classify_document_type.
  destruct (classification_reply (Core.text_snippet document_text)) as [[content |] | e];
    try reflexivity.
  rewrite bool_decide_eq_false_2; [reflexivity | by apply H].
Qed.

Lemma schema_of_unknown : Core.schema_of "unknown" = None.
Proof. reflexivity. Qed.



(** A run past the three failure points: [_format_extracted_data] reaches the
    [re.sub] call of [core.py], where [re] was never imported. *)
Example run_extraction_after_validation :
  Core.run_extraction str_scalar (fun _ => "boom"%string)
    (fun _ => Ok (Core.mk_document_data (Some "Invoice 42"%string) (Some sample_boxes)))
    (fun _ => Ok (Some " Invoice "%string))
    (fun _ _ => Ok (PDict sample_invoice))
    (fun _ v => Ok (dict_items v))
    "scan.pdf" = Raise NameError
  /\ Core.run_extraction str_scalar (fun _ => "boom"%string)
       (fun _ => Ok (Core.mk_document_data (Some "Invoice 42"%string) None))
       (fun _ => Ok (Some " Invoice "%string))
       (fun _ _ => Ok (PDict [("vendor_name", PStr "Acme Corp")]%string))
       (fun _ v => Ok (dict_items v))
       "scan.pdf"
     = Ok {| Core.doc_type := "invoice";
             Core.fields := [mk_field "vendor_name" "Acme Corp" 0.5 None];
             Core.overall_confidence := 0.0;
             Core.qa := mk_qa [] [] "Validation not yet fully implemented." |}.
Proof. split; reflexivity. Qed.

(** * Further properties *)

(** ** The dispatcher *)



(** ** The medical bill rules *)







(** ** The prescription rules *)

Lemma key_and_date_spec (d : pydict) (k : string) :
  date_ok d k = true -> key_and d k _is_valid_date = Ok (valid_date_at d k).
Proof.
  unfold date_ok, key_and, valid_date_at. destruct (dict_get d k) as [v |]; [| reflexivity].
  rewrite is_valid_date_spec. by destruct v.
Qed.

Lemma medication_rules_dict (i : nat) (md : pydict) (st : rules) :
  exists P F,
    medication_rules i (PDict md) st = Ok (fst st ++ P, snd st ++ F)
    /\ (length P + length F = 3)%nat
    /\ (F = [] <-> complete (PDict md) = true).
Proof.
  unfold medication_rules, complete, med_field. cbn [py_get bind dict_items].
  change (match dict_get md "drug_name" with Some v => v | None => PNone end)
    with (default PNone (dict_get md "drug_name")).
  change (match dict_get md "dosage" with Some v => v | None => PNone end)
    with (default PNone (dict_get md "dosage")).
  change (match dict_get md "frequency" with Some v => v | None => PNone end)
    with (default PNone (dict_get md "frequency")).
  set (b1 := truthy (default PNone (dict_get md "drug_name"))).
  set (b2 := truthy (default PNone (dict_get md "dosage"))).
  set (b3 := truthy (default PNone (dict_get md "frequency"))).
  set (name := fun key suffix : string =>
                 ("medication_" +:+ PyStr.of_nat i +:+ "_" +:+ key +:+ suffix)%string).
  exists ((if b1 then [name "drug_name" "_present"] else [])
          ++ (if b2 then [name "dosage" "_present"] else [])
          ++ (if b3 then [name "frequency" "_present"] else [])),
         ((if b1 then [] else [name "drug_name" "_missing"])
          ++ (if b2 then [] else [name "dosage" "_missing"])
          ++ (if b3 then [] else [name "frequency" "_missing"])).
  destruct b1, b2, b3; unfold passed_append, failed_append; cbn [negb fst snd app length];
    rewrite <- ?app_assoc, ?app_nil_r; cbn [app];
    (split; [reflexivity |]); (split; [reflexivity |]); split; done.
Qed.

Lemma medications_loop_dicts (meds : list pyval) (i : nat) (st : rules) :
  forallb is_dict meds = true ->
  exists P F,
    medications_loop i meds st = Ok (fst st ++ P, snd st ++ F)
    /\ (length P + length F = 3 * length meds)%nat
    /\ (F = [] <-> forallb complete meds = true).
Proof.
  revert i st. induction meds as [| med meds IH]; intros i st Hd.
  - exists [], []. cbn [medications_loop length forallb]. rewrite !app_nil_r.
    split; [by destruct st |]. split; [reflexivity | done].
  - cbn [forallb] in Hd. apply andb_prop in Hd as [Hmed Hmeds].
    destruct med as [| | | | | | md]; try discriminate.
    destruct (medication_rules_dict i md st) as (P1 & F1 & H1 & Hlen1 & Hc1).
    cbn [medications_loop]. rewrite H1. cbn [bind].
    destruct (IH (S i) (fst st ++ P1, snd st ++ F1) Hmeds) as (P2 & F2 & H2 & Hlen2 & Hc2).
    exists (P1 ++ P2), (F1 ++ F2). rewrite H2. cbn [fst snd]. rewrite <- !app_assoc.
    split; [reflexivity |]. split.
    + rewrite !length_app. cbn [length]. lia.
    + cbn [forallb]. rewrite andb_true_iff, <- Hc1, <- Hc2. split.
      * intros H. by apply app_eq_nil in H.
      * by intros [-> ->].
Qed.

(** X3 -- [validate_prescription] on data whose [prescription_date] is a
    string or absent and whose [medications], when a list, holds
    dictionaries only.  The call returns.  It records two outcomes and three
    more for each medication, one per key among [drug_name], [dosage] and
    [frequency].  No rule fails exactly when the date is valid, the list has
    at least one medication and each medication has a truthy value under
    each of the three keys.  When [medications] is absent or is not a list,
    [no_medication_listed] is recorded and no medication is looked at. *)
Theorem prescription_rule_outcomes (d : pydict) :
  date_ok d "prescription_date" = true ->
  forallb is_dict (medications_of d) = true ->
  exists passed failed,
    validate_prescription d = Ok (passed, failed)
    /\ (length passed + length failed = 2 + 3 * length (medications_of d))%nat
    /\ (failed = []
        <-> valid_date_at d "prescription_date" = true
            /\ medications_of d <> []
            /\ forallb complete (medications_of d) = true)
    /\ (medications_of d = [] -> In "no_medication_listed"%string failed).
Proof.
  intros Hdate Hd. unfold validate_prescription.
  rewrite (key_and_date_spec d _ Hdate). cbn [bind].
  unfold medications_of in *.
  destruct (dict_get d "medications") as [[| | | | | meds |] |];
    try (destruct (valid_date_at d "prescription_date");
         eexists _, _; (split; [reflexivity |]); cbn; repeat split; try done; tauto).
  destruct meds as [| med meds].
  - destruct (valid_date_at d "prescription_date");
      eexists _, _; (split; [reflexivity |]); cbn; repeat split; try done; tauto.
  - set (st := passed_append "at_least_one_medication_listed" _).
    destruct (medications_loop_dicts (med :: meds) 0 st Hd) as (P & F & Hloop & Hlen & Hc).
    rewrite Hloop. eexists _, _. split; [reflexivity |].
    subst st. destruct (valid_date_at d "prescription_date");
      cbn [passed_append failed_append no_rules fst snd app length] in *;
      rewrite ?length_app; cbn [length].
    + split; [lia |]. split; [| done]. rewrite Hc. split; [by intros -> | tauto].
    + split; [lia |]. split; [| done]. split; [discriminate | by intros [? _]].
Qed.

(** Two medications, the second without a frequency. *)
Lemma prescription_rule_outcomes_witness :
  exists passed failed,
    validate_prescription
      [("prescription_date", PStr "2024-05-17");
       ("medications",
        PList [PDict [("drug_name", PStr "Amoxicillin"); ("dosage", PStr "1 tablet");
                      ("frequency", PStr "daily")];
               PDict [("drug_name", PStr "Ibuprofen"); ("dosage", PStr "200mg");
                      ("frequency", PStr "")]])]%string
    = Ok (passed, failed)
    /\ (length passed + length failed = 8)%nat.
Proof.
  destruct (prescription_rule_outcomes
              [("prescription_date", PStr "2024-05-17");
               ("medications",
                PList [PDict [("drug_name", PStr "Amoxicillin"); ("dosage", PStr "1 tablet");
                              ("frequency", PStr "daily")];
                       PDict [("drug_name", PStr "Ibuprofen"); ("dosage", PStr "200mg");
                              ("frequency", PStr "")]])]%string eq_refl eq_refl)
    as (passed & failed & H & Hlen & _).
  exists passed, failed. split; [exact H | exact Hlen].
Defined.

(** ** The invoice rules, rule by rule *)










Lemma Qlt_le_dec_compat {A : Type} (a b c : Q) (x y : A) :
  a == b -> (if Qlt_le_dec a c then x else y) = (if Qlt_le_dec b c then x else y).
Proof.
  intros E. destruct (Qlt_le_dec a c) as [H1 | H1], (Qlt_le_dec b c) as [H2 | H2];
    try reflexivity; exfalso; rewrite E in H1; lra.
Qed.











(** ** The two pattern tests

    The matcher against the strings a pattern denotes. *)

Lemma append_nil_r (a : string) : a +:+ "" = a.
Proof. induction a as [| x a IH]; [reflexivity |]. by rewrite append_cons, IH. Qed.

Lemma append_eq_nil (a b : string) : a +:+ b = EmptyString -> a = EmptyString /\ b = EmptyString.
Proof. destruct a; [rewrite append_nil_l; auto | rewrite append_cons; discriminate]. Qed.

Lemma append_eq_cons (a b : string) (c : ascii) (s : string) :
  a +:+ b = String c s ->
  (a = EmptyString /\ b = String c s) \/ (exists a', a = String c a' /\ s = a' +:+ b).
Proof.
  destruct a as [| x a]; [rewrite append_nil_l; auto |].
  rewrite append_cons. intros [= -> <-]. right. eauto.
Qed.

Lemma nullable_matches (r : PyRe.regex) : PyRe.nullable r = true <-> matches r EmptyString.
Proof.
  split.
  - induction r as [| | p | r1 IH1 r2 IH2 | r1 IH1 r2 IH2 | r IH]; cbn [PyRe.nullable];
      intros H; try discriminate.
    + constructor.
    + apply andb_prop in H as [H1 H2].
      rewrite <- (append_nil_l ""). constructor; auto.
    + apply orb_prop in H as [H | H]; [apply matches_alt_l | apply matches_alt_r]; auto.
    + constructor.
  - remember EmptyString as s eqn:Es. intros H.
    induction H as [| p c Hp | r1 r2 s1 s2 H1 IH1 H2 IH2 | r1 r2 s H IH | r1 r2 s H IH
                    | r | r s1 s2 H1 IH1 H2 IH2]; cbn [PyRe.nullable]; try reflexivity.
    + discriminate.
    + apply append_eq_nil in Es as [-> ->]. by rewrite IH1, IH2.
    + by rewrite IH.
    + rewrite IH by done. apply orb_true_r.
Qed.

Lemma matches_star_inv (r : PyRe.regex) (c : ascii) (s : string) :
  matches (PyRe.Star r) (String c s) ->
  exists s1 s2, s = s1 +:+ s2 /\ matches r (String c s1) /\ matches (PyRe.Star r) s2.
Proof.
  remember (PyRe.Star r) as r' eqn:Er. remember (String c s) as t eqn:Et.
  intros H. revert s Et.
  induction H as [| p c' Hp | r1 r2 s1 s2 H1 IH1 H2 IH2 | r1 r2 s' H IH | r1 r2 s' H IH
                  | r0 | r0 s1 s2 H1 IH1 H2 IH2]; intros s Et; try discriminate.
  injection Er as ->.
  apply append_eq_cons in Et as [[-> ->] | (a' & -> & ->)].
  - by apply IH2.
  - eauto.
Qed.

Lemma deriv_matches (r : PyRe.regex) (c : ascii) (s : string) :
  matches (PyRe.deriv c r) s <-> matches r (String c s).
Proof.
  revert s. induction r as [| | p | r1 IH1 r2 IH2 | r1 IH1 r2 IH2 | r IH]; intros s;
    cbn [PyRe.deriv].
  - split; inversion 1.
  - split; inversion 1.
  - destruct (p c) eqn:Hp; split; intros H; inversion H; subst.
    + by constructor.
    + constructor.
    + congruence.
  - assert (Hcat : matches (PyRe.Cat (PyRe.deriv c r1) r2) s
                   <-> exists a' b, s = a' +:+ b /\ matches r1 (String c a') /\ matches r2 b).
    { split.
      - inversion 1; subst. eexists _, _. split; [reflexivity |]. split; [by apply IH1 | done].
      - intros (a' & b & -> & Ha & Hb). constructor; [by apply IH1 | done]. }
    assert (Hall : matches (PyRe.Cat r1 r2) (String c s)
                   <-> (matches r1 EmptyString /\ matches r2 (String c s))
                       \/ exists a' b, s = a' +:+ b /\ matches r1 (String c a') /\ matches r2 b).
    { split.
      - inversion 1 as [| | ? ? s1 s2 H1 H2 E1 E2 | | | |]; subst.
        apply append_eq_cons in E2 as [[-> ->] | (a' & -> & ->)]; [by left | right; eauto].
      - intros [[H1 H2] | (a' & b & -> & Ha & Hb)].
        + rewrite <- (append_nil_l (String c s)). by constructor.
        + rewrite <- append_cons. by constructor. }
    rewrite Hall. destruct (PyRe.nullable r1) eqn:Hn.
    + split.
      * inversion 1; subst; [right; by apply Hcat | left; split; [by apply nullable_matches | by apply IH2]].
      * intros [[H1 H2] | H]; [apply matches_alt_r; by apply IH2 | apply matches_alt_l; by apply Hcat].
    + rewrite Hcat. split; [by right |].
      intros [[H1 _] | H]; [| done].
      apply nullable_matches in H1. congruence.
  - split.
    + inversion 1; subst; [apply matches_alt_l; by apply IH1 | apply matches_alt_r; by apply IH2].
    + inversion 1; subst; [apply matches_alt_l; by apply IH1 | apply matches_alt_r; by apply IH2].
  - split.
    + inversion 1; subst. rewrite <- append_cons. constructor; [by apply IH | done].
    + intros H. apply matches_star_inv in H as (s1 & s2 & -> & H1 & H2).
      constructor; [by apply IH | done].
Qed.

(** [match_prefix] finds a match exactly when a prefix of the text is in
    the language of the pattern. *)
Lemma match_prefix_spec (r : PyRe.regex) (s : string) :
  PyRe.match_prefix r s = true <-> exists p rest, s = p +:+ rest /\ matches r p.
Proof.
  revert r. induction s as [| c s IH]; intros r; cbn [PyRe.match_prefix].
  - rewrite orb_false_r, nullable_matches. split.
    + intros H. exists EmptyString, EmptyString. by split.
    + intros (p & rest & E & H). symmetry in E. apply append_eq_nil in E as [-> _]. done.
  - rewrite orb_true_iff, IH, nullable_matches. split.
    + intros [H | (p & rest & -> & H)].
      * exists EmptyString, (String c s). by split.
      * exists (String c p), rest. split; [reflexivity | by apply deriv_matches].
    + intros (p & rest & E & H). symmetry in E.
      apply append_eq_cons in E as [[-> _] | (p' & -> & ->)]; [by left |].
      right. exists p', rest. split; [reflexivity | by apply deriv_matches].
Qed.

Lemma match_to_end_spec (r : PyRe.regex) (s : string) :
  PyRe.match_to_end r s = true
  <-> matches r s \/ exists p, s = p +:+ PyRe.newline /\ matches r p.
Proof.
  revert r. induction s as [| c s IH]; intros r; cbn [PyRe.match_to_end].
  - rewrite nullable_matches. split; [by left |].
    intros [H | (p & E & _)]; [done |].
    symmetry in E. apply append_eq_nil in E as [_ E]. discriminate.
  - rewrite orb_true_iff, andb_true_iff, IH, nullable_matches, !deriv_matches. split.
    + intros [[H E] | [H | (p & -> & H)]].
      * apply String.eqb_eq in E. right. exists EmptyString. by rewrite append_nil_l.
      * by left.
      * right. exists (String c p). split; [reflexivity | by apply deriv_matches].
    + intros [H | (p & E & H)]; [right; by left |].
      destruct p as [| x p].
      * rewrite append_nil_l in E. left. split; [done | by apply String.eqb_eq].
      * rewrite append_cons in E. injection E as <- ->.
        right. right. exists p. split; [done |]. by apply deriv_matches.
Qed.

Lemma matches_cat_inv (r1 r2 : PyRe.regex) (s : string) :
  matches (PyRe.Cat r1 r2) s <-> exists s1 s2, s = s1 +:+ s2 /\ matches r1 s1 /\ matches r2 s2.
Proof.
  split.
  - inversion 1; subst. eauto.
  - intros (s1 & s2 & -> & H1 & H2). by constructor.
Qed.

Lemma matches_cls_inv (p : ascii -> bool) (s : string) :
  matches (PyRe.Cls p) s <-> exists c, s = String c EmptyString /\ p c = true.
Proof.
  split.
  - inversion 1; subst. eauto.
  - intros (c & -> & H). by constructor.
Qed.

Lemma all_chars_app (p : ascii -> bool) (a b : string) :
  all_chars p (a +:+ b) = (all_chars p a && all_chars p b)%bool.
Proof.
  induction a as [| x a IH]; [by rewrite append_nil_l |].
  rewrite append_cons. cbn [all_chars]. by rewrite IH, andb_assoc.
Qed.

Lemma matches_star_cls (p : ascii -> bool) (s : string) :
  matches (PyRe.Star (PyRe.Cls p)) s <-> all_chars p s = true.
Proof.
  split.
  - remember (PyRe.Star (PyRe.Cls p)) as r eqn:Er. intros H.
    induction H as [| p' c Hp | r1 r2 s1 s2 H1 IH1 H2 IH2 | r1 r2 s H IH | r1 r2 s H IH
                    | r0 | r0 s1 s2 H1 IH1 H2 IH2]; try discriminate; [reflexivity |].
    injection Er as ->. apply matches_cls_inv in H1 as (c & -> & Hc).
    rewrite all_chars_app. cbn [all_chars]. by rewrite Hc, IH2.
  - induction s as [| c s IH]; cbn [all_chars]; intros H; [constructor |].
    apply andb_prop in H as [Hc Hs].
    change (String c s) with (String c "" +:+ s).
    constructor; [by constructor | by apply IH].
Qed.

(** [[class]+] matches the non-empty strings over the class. *)
Lemma matches_plus_cls (p : ascii -> bool) (s : string) :
  matches (PyRe.Plus (PyRe.Cls p)) s <-> s <> EmptyString /\ all_chars p s = true.
Proof.
  unfold PyRe.Plus. rewrite matches_cat_inv. split.
  - intros (s1 & s2 & -> & H1 & H2).
    apply matches_cls_inv in H1 as (c & -> & Hc). apply matches_star_cls in H2.
    rewrite append_cons. split; [discriminate |].
    cbn [all_chars]. by rewrite Hc, append_nil_l, H2.
  - intros [Hne H]. destruct s as [| c s]; [congruence |].
    cbn [all_chars] in H. apply andb_prop in H as [Hc Hs].
    exists (String c ""), s. split; [reflexivity |].
    split; [by constructor | by apply matches_star_cls].
Qed.

Lemma matches_opt_cls (p : ascii -> bool) (s : string) :
  matches (PyRe.Opt (PyRe.Cls p)) s
  <-> s = EmptyString \/ exists c, s = String c EmptyString /\ p c = true.
Proof.
  unfold PyRe.Opt. split.
  - inversion 1 as [| | | ? ? ? H1 | ? ? ? H1 | |]; subst.
    + right. by apply matches_cls_inv.
    + left. by inversion H1.
  - intros [-> | H]; [apply matches_alt_r; constructor | apply matches_alt_l; by apply matches_cls_inv].
Qed.

Lemma is_char_eq (x c : ascii) : PyRe.is_char x c = true <-> c = x.
Proof. unfold PyRe.is_char. apply Ascii.eqb_eq. Qed.

Lemma Ok_true_iff (b : bool) : @Ok bool b = Ok true <-> b = true.
Proof. split; [by intros [= ->] | by intros ->]. Qed.

Lemma is_valid_email_spec (s : string) :
  _is_valid_email (PStr s) = Ok true
  <-> exists local domain tld rest,
        s = local +:+ "@" +:+ domain +:+ "." +:+ tld +:+ rest
        /\ local <> EmptyString /\ domain <> EmptyString /\ tld <> EmptyString
        /\ all_chars not_at local = true /\ all_chars not_at domain = true
        /\ all_chars not_at tld = true.
Proof.
  cbn [_is_valid_email]. rewrite Ok_true_iff, match_prefix_spec. unfold email_pattern. split.
  - intros (p & rest & -> & H).
    apply matches_cat_inv in H as (a & p1 & -> & Ha & H).
    apply matches_cat_inv in H as (at_ & p2 & -> & Hat & H).
    apply matches_cat_inv in H as (b & p3 & -> & Hb & H).
    apply matches_cat_inv in H as (dot & c & -> & Hdot & Hc).
    apply matches_cls_inv in Hat as (x & -> & Hx). apply is_char_eq in Hx as ->.
    apply matches_cls_inv in Hdot as (y & -> & Hy). apply is_char_eq in Hy as ->.
    apply matches_plus_cls in Ha as [? ?], Hb as [? ?], Hc as [? ?].
    exists a, b, c, rest. rewrite !append_assoc. by repeat split.
  - intros (a & b & c & rest & -> & Ha & Hb & Hc & Ha' & Hb' & Hc').
    exists (a +:+ "@" +:+ b +:+ "." +:+ c), rest.
    split; [by rewrite !append_assoc |].
    constructor; [by apply matches_plus_cls |].
    constructor; [apply matches_cls_inv; exists "@"%char; by split |].
    constructor; [by apply matches_plus_cls |].
    constructor; [apply matches_cls_inv; exists "."%char; by split |].
    by apply matches_plus_cls.
Qed.

(** X6 -- [_is_valid_email] answers [True] exactly on the strings that begin
    with a non-empty run free of [@], an [@], a second such run, a dot and a
    third such run.  The pattern has no end anchor, so what follows is not
    looked at: text after a well-formed address, a second [@] included,
    leaves the answer [True].  On an argument that is not a string the call
    raises [TypeError]. *)
Theorem email_accepts_prefix :
  (forall s : string,
      _is_valid_email (PStr s) = Ok true
      <-> exists local domain tld rest,
            s = local +:+ "@" +:+ domain +:+ "." +:+ tld +:+ rest
            /\ local <> EmptyString /\ domain <> EmptyString /\ tld <> EmptyString
            /\ all_chars not_at local = true /\ all_chars not_at domain = true
            /\ all_chars not_at tld = true)
  /\ (forall s rest : string,
        _is_valid_email (PStr s) = Ok true -> _is_valid_email (PStr (s +:+ rest)) = Ok true)
  /\ (forall v : pyval, is_str v = false -> _is_valid_email v = Raise TypeError).
Proof.
  split; [exact is_valid_email_spec |]. split; [| by intros []].
  intros s rest H. apply is_valid_email_spec in H as (a & b & c & rest' & -> & H).
  apply is_valid_email_spec. exists a, b, c, (rest' +:+ rest). by rewrite !append_assoc.
Qed.

(** An address followed by a second [@] and more text. *)
Lemma email_accepts_prefix_witness :
  _is_valid_email (PStr "ann@example.org@@ and more") = Ok true.
Proof.
  apply (proj1 (proj2 email_accepts_prefix) "ann@example.org" "@@ and more").
  apply (proj1 email_accepts_prefix).
  exists "ann"%string, "example"%string, "org"%string, EmptyString.
  repeat split; discriminate.
Defined.

(** X7 -- [_is_valid_phone] answers [True] exactly on the strings made of
    an optional leading [+] and then one or more characters among the
    digits, white space, [-], [(] and [)].  No digit is required, so a string
    of brackets, hyphens or blanks is accepted; a line feed at the end is
    accepted too, being white space.  On an argument that is not a string
    the call raises [TypeError]. *)
Theorem phone_accepts_symbols (s : string) :
  (_is_valid_phone (PStr s) = Ok true
   <-> exists body,
         (s = body \/ s = "+" +:+ body)
         /\ body <> EmptyString /\ all_chars phone_char body = true)
  /\ (forall v : pyval, is_str v = false -> _is_valid_phone v = Raise TypeError).
Proof.
  split; [| by intros []].
  cbn [_is_valid_phone]. rewrite Ok_true_iff, match_to_end_spec. unfold phone_pattern.
  assert (Hpat : forall t,
             matches (PyRe.Cat (PyRe.Opt (PyRe.Cls (PyRe.is_char "+")))
                        (PyRe.Plus (PyRe.Cls phone_char))) t
             <-> exists body, (t = body \/ t = "+" +:+ body)
                              /\ body <> EmptyString /\ all_chars phone_char body = true).
  { intros t. rewrite matches_cat_inv. split.
    - intros (o & body & -> & Ho & Hb).
      apply matches_plus_cls in Hb as [Hne Hall]. exists body.
      apply matches_opt_cls in Ho as [-> | (c & -> & Hc)].
      + rewrite append_nil_l. auto.
      + apply is_char_eq in Hc as ->. auto.
    - intros (body & [-> | ->] & Hne & Hall).
      + exists EmptyString, body. rewrite append_nil_l. split; [done |].
        split; [apply matches_opt_cls; by left | by apply matches_plus_cls].
      + exists "+"%string, body. split; [done |].
        split; [apply matches_opt_cls; right; by exists "+"%char | by apply matches_plus_cls]. }
  rewrite Hpat. split; [| by left].
  intros [H | (p & -> & H)]; [exact H |].
  apply Hpat in H as (body & Hs & Hne & Hall).
  exists (body +:+ PyRe.newline). split; [| split].
  - destruct Hs as [-> | ->]; [by left | right; by rewrite append_assoc].
  - destruct body; [congruence | by rewrite append_cons].
  - by rewrite all_chars_app, Hall.
Qed.

(** A plus sign, brackets, hyphens and a blank, and no digit. *)
Lemma phone_accepts_symbols_witness :
  _is_valid_phone (PStr "+(--) ") = Ok true.
Proof.
  apply (proj1 (phone_accepts_symbols "+(--) ")).
  exists "(--) "%string. split; [by right |]. split; [discriminate | reflexivity].
Defined.

(** ** Further properties of the self-consistency scorer *)

Lemma filter_length_pos {A : Type} (p : A -> bool) (l : list A) (x : A) :
  In x l -> p x = true -> (1 <= length (List.filter p l))%nat.
Proof.
  intros Hin Hp. assert (Hf : In x (List.filter p l)) by (apply filter_In; by split).
  destruct (List.filter p l); [destruct Hf | simpl; lia].
Qed.

(** X8 -- A run that agrees with the primary value at a path lifts the
    score of that path to at least 1/N, N being the number of runs.  So when
    the primary extraction is itself one of the runs, every score of the map
    is at least 1/N, and none is 0. *)
Theorem agreeing_run_lifts_score (py_str : pyval -> string) (extracted_data : pydict)
    (llm_raw_outputs : list pydict) (path : string) (c : Q) :
  _calculate_llm_consistency py_str extracted_data llm_raw_outputs !! path = Some c ->
  (forall run,
      In run llm_raw_outputs ->
      flatten_dict py_str run "" !! path = flatten_dict py_str extracted_data "" !! path ->
      1 / inject_Z (Z.of_nat (length llm_raw_outputs)) <= c /\ 0 < c)
  /\ (In extracted_data llm_raw_outputs ->
      1 / inject_Z (Z.of_nat (length llm_raw_outputs)) <= c /\ 0 < c).
Proof.
  intros Hc.
  assert (Hrun : forall run,
             In run llm_raw_outputs ->
             flatten_dict py_str run "" !! path = flatten_dict py_str extracted_data "" !! path ->
             1 / inject_Z (Z.of_nat (length llm_raw_outputs)) <= c /\ 0 < c).
  { intros run Hin Hsame.
    assert (Hne : llm_raw_outputs <> []) by (intros ->; destruct Hin).
    rewrite consistency_lookup in Hc by exact Hne.
    destruct (flatten_dict py_str extracted_data "" !! path) as [v |] eqn:Ev; [| discriminate].
    injection Hc as <-. unfold agreement_ratio.
    pose proof (inject_nat_pos (length llm_raw_outputs)) as Hpos.
    assert (HN : 0 < inject_Z (Z.of_nat (length llm_raw_outputs))).
    { apply Hpos. destruct llm_raw_outputs; [congruence | simpl; lia]. }
    assert (Hcount : (1 <= length (List.filter (agrees path v)
                                     (List.map (fun o => flatten_dict py_str o "")
                                        llm_raw_outputs)))%nat).
    { apply (filter_length_pos _ _ (flatten_dict py_str run "")).
      - apply in_map_iff. eauto.
      - unfold agrees. by apply bool_decide_eq_true. }
    apply inject_nat_le in Hcount. change (inject_Z (Z.of_nat 1)) with 1 in Hcount.
    revert Hcount HN.
    generalize (inject_Z (Z.of_nat (length (List.filter (agrees path v)
                  (List.map (fun o => flatten_dict py_str o "") llm_raw_outputs))))) as k.
    generalize (inject_Z (Z.of_nat (length llm_raw_outputs))) as n.
    intros n k Hk Hn.
    assert (Hinv : 0 < / n) by (by apply Qinv_lt_0_compat).
    unfold Qdiv. split; [apply Qmult_le_compat_r; lra | nra]. }
  split; [exact Hrun |].
  intros Hin. by apply (Hrun extracted_data).
Qed.

(** Three runs, the primary one among them; the other two differ on the
    vendor. *)
Lemma agreeing_run_lifts_score_witness :
  1 / inject_Z (Z.of_nat 3)
  <= agreement_ratio str_scalar "vendor_name" "Acme Corp"
       [[("vendor_name", PStr "ACME")]; sample_invoice; []]%string.
Proof.
  apply (proj2 (agreeing_run_lifts_score str_scalar sample_invoice
                  [[("vendor_name", PStr "ACME")]; sample_invoice; []]%string "vendor_name"
                  (agreement_ratio str_scalar "vendor_name" "Acme Corp"
                     [[("vendor_name", PStr "ACME")]; sample_invoice; []]%string)
                  ltac:(vm_compute; reflexivity))).
  right. by left.
Defined.

(** ** Further properties of the OCR component *)

Lemma contains_empty (s : string) : PyStr.contains "" s = true.
Proof. by destruct s. Qed.

Lemma ocr_confidence_mean (value : string) (word_boxes : list word_box) (b : word_box) :
  value <> EmptyString -> In b word_boxes -> ocr_matches value b = true ->
  _get_ocr_confidence_for_value value word_boxes
  = mean (List.map ocr_conf (List.filter (ocr_matches value) word_boxes)).
Proof.
  intros Hv Hin Hm. unfold _get_ocr_confidence_for_value.
  replace (String.eqb value "") with false by (symmetry; by apply String.eqb_neq).
  destruct word_boxes as [| b0 bs]; [destruct Hin |]. cbn [orb].
  rewrite matching_word_confs_filter.
  assert (Hf : In b (List.filter (ocr_matches value) (b0 :: bs))) by (apply filter_In; by split).
  destruct (List.filter (ocr_matches value) (b0 :: bs)); [destruct Hf | reflexivity].
Qed.

(** X9 -- The empty string occurs in every string, so the substring test of
    [_get_ocr_confidence_for_value] holds whenever either side is empty
    once stripped.  A token whose word is missing or blank matches every
    non-empty value and its confidence enters the mean; a non-empty value
    made of white space only matches every token, and the result is the mean
    over all tokens. *)
Theorem blank_text_matches_everything (value : string) (word_boxes : list word_box) :
  value <> EmptyString ->
  (forall b,
      In b word_boxes ->
      PyStr.strip (default EmptyString (wb_word b)) = EmptyString ->
      ocr_matches value b = true
      /\ In (ocr_conf b) (List.map ocr_conf (List.filter (ocr_matches value) word_boxes))
      /\ _get_ocr_confidence_for_value value word_boxes
         = mean (List.map ocr_conf (List.filter (ocr_matches value) word_boxes)))
  /\ (PyStr.strip value = EmptyString ->
      word_boxes <> [] ->
      _get_ocr_confidence_for_value value word_boxes = mean (List.map ocr_conf word_boxes)).
Proof.
  intros Hv. split.
  - intros b Hin Hblank.
    assert (Hm : ocr_matches value b = true).
    { unfold ocr_matches. rewrite Hblank. cbn [PyStr.lower].
      rewrite contains_empty. apply orb_true_r. }
    split; [exact Hm |]. split.
    + apply in_map. apply filter_In. by split.
    + by apply (ocr_confidence_mean value word_boxes b).
  - intros Hblank Hne. destruct word_boxes as [| b0 bs]; [congruence |].
    assert (Hall : forall b, ocr_matches value b = true).
    { intros b. unfold ocr_matches. rewrite Hblank. cbn [PyStr.lower].
      by rewrite contains_empty. }
    rewrite (ocr_confidence_mean value (b0 :: bs) b0 Hv (or_introl eq_refl) (Hall b0)).
    rewrite filter_all; [reflexivity |].
    apply List.Forall_forall. intros b _. apply Hall.
Qed.

(** A token without a word, of confidence 40, met by an unrelated value. *)
Lemma blank_text_matches_everything_witness :
  _get_ocr_confidence_for_value "Acme Corp"
    [mk_word_box None (Some 40) (mk_bbox 0 0 1 1) 1;
     mk_word_box (Some "Invoice"%string) (Some 90) (mk_bbox 2 0 3 1) 1]
  == 0.4.
Proof.
  rewrite (proj2 (proj2 (proj1 (blank_text_matches_everything "Acme Corp"
                                  [mk_word_box None (Some 40) (mk_bbox 0 0 1 1) 1;
                                   mk_word_box (Some "Invoice"%string) (Some 90)
                                     (mk_bbox 2 0 3 1) 1]
                                  ltac:(discriminate))
                           (mk_word_box None (Some 40) (mk_bbox 0 0 1 1) 1)
                           ltac:(by left) eq_refl))).
  reflexivity.
Defined.

(** ** Further properties of the grounding matcher *)

Lemma all_chars_rev_app (p : ascii -> bool) (s acc : string) :
  all_chars p (String.rev_app s acc) = (all_chars p s && all_chars p acc)%bool.
Proof.
  revert acc. induction s as [| c s IH]; intros acc; [reflexivity |].
  cbn [String.rev_app all_chars]. rewrite IH. cbn [all_chars].
  by destruct (p c), (all_chars p s).
Qed.

Lemma all_chars_rev (p : ascii -> bool) (s : string) :
  all_chars p (String.rev s) = all_chars p s.
Proof. unfold String.rev. rewrite all_chars_rev_app. cbn [all_chars]. apply andb_true_r. Qed.

Lemma rev_app_nonempty (s acc : string) :
  acc <> EmptyString -> String.rev_app s acc <> EmptyString.
Proof.
  revert acc. induction s as [| c s IH]; intros acc Hacc; [exact Hacc |].
  cbn [String.rev_app]. by apply IH.
Qed.

Lemma rev_nonempty (s : string) : s <> EmptyString -> String.rev s <> EmptyString.
Proof.
  destruct s as [| c s]; [congruence |]. intros _. unfold String.rev. cbn [String.rev_app].
  by apply rev_app_nonempty.
Qed.

(** Every token of [re.findall(r'\b\w+\b', s)] is a non-empty run of word
    characters. *)
Lemma findall_words_aux_tokens (s cur : string) :
  all_chars PyStr.is_word_char cur = true ->
  Forall (fun w => w <> EmptyString /\ all_chars PyStr.is_word_char w = true)
         (PyStr.findall_words_aux s cur).
Proof.
  revert cur. induction s as [| c s IH]; intros cur Hcur; cbn [PyStr.findall_words_aux].
  - destruct cur as [| x cur]; [constructor |].
    constructor; [| constructor].
    split; [by apply rev_nonempty | by rewrite all_chars_rev].
  - destruct (PyStr.is_word_char c) eqn:Hc.
    + apply IH. cbn [all_chars]. by rewrite Hc.
    + destruct cur as [| x cur]; [by apply IH |].
      constructor; [| by apply IH].
      split; [by apply rev_nonempty | by rewrite all_chars_rev].
Qed.

Lemma is_word_char_lower (c : ascii) :
  PyStr.is_word_char (PyStr.lower_char c) = PyStr.is_word_char c.
Proof. destruct c as [[] [] [] [] [] [] [] []]; reflexivity. Qed.

Lemma lower_char_idem (c : ascii) : PyStr.lower_char (PyStr.lower_char c) = PyStr.lower_char c.
Proof. destruct c as [[] [] [] [] [] [] [] []]; reflexivity. Qed.

Lemma all_word_chars_lower (s : string) :
  all_chars PyStr.is_word_char (PyStr.lower s) = all_chars PyStr.is_word_char s.
Proof.
  induction s as [| c s IH]; [reflexivity |].
  cbn [PyStr.lower all_chars]. by rewrite is_word_char_lower, IH.
Qed.

Lemma lower_idem (s : string) : PyStr.lower (PyStr.lower s) = PyStr.lower s.
Proof.
  induction s as [| c s IH]; [reflexivity |].
  cbn [PyStr.lower]. by rewrite lower_char_idem, IH.
Qed.

Lemma lower_eq_nil (s : string) : PyStr.lower s = EmptyString <-> s = EmptyString.
Proof. destruct s; split; (done || discriminate). Qed.

(** X10 -- [_find_bbox_for_value] compares the word of a token with the
    tokens [re.findall(r'\b\w+\b', ...)] cuts the value into, and those are
    non-empty runs of letters, digits and underscores.  So a token matches
    only if its word is itself such a run: a token whose word holds any other
    character (a decimal point, a currency sign, a trailing comma), or no
    character at all, never matches, whatever the value, and a page whose
    tokens are all of that kind gives no source. *)
Theorem grounding_needs_word_tokens :
  (forall (value : string) (b : word_box),
      box_matches value b = true ->
      exists w, wb_word b = Some w /\ w <> EmptyString
                /\ all_chars PyStr.is_word_char w = true)
  /\ (forall (value : string) (word_boxes : list word_box),
        (forall b w, In b word_boxes -> wb_word b = Some w ->
                     w = EmptyString \/ all_chars PyStr.is_word_char w = false) ->
        _find_bbox_for_value value word_boxes = None).
Proof.
  assert (Hmatch : forall (value : string) (b : word_box),
             box_matches value b = true ->
             exists w, wb_word b = Some w /\ w <> EmptyString
                       /\ all_chars PyStr.is_word_char w = true).
  { intros value b Hm. unfold box_matches in Hm. apply bool_decide_eq_true in Hm.
    pose proof (findall_words_aux_tokens (PyStr.lower value) EmptyString eq_refl) as Htok.
    rewrite List.Forall_forall in Htok.
    apply list_elem_of_In in Hm. apply Htok in Hm as [Hne Hall].
    destruct (wb_word b) as [w |]; [| by cbn in Hne].
    exists w. split; [reflexivity |]. cbn in Hne, Hall. split.
    - intros ->. by apply Hne.
    - by rewrite all_word_chars_lower in Hall. }
  split; [exact Hmatch |].
  intros value word_boxes Hnone.
  rewrite find_bbox_unfold.
  replace (List.filter (box_matches value) word_boxes) with (@nil word_box); [reflexivity |].
  symmetry. apply filter_none, List.Forall_forall. intros b Hin.
  destruct (box_matches value b) eqn:Hm; [| reflexivity].
  apply Hmatch in Hm as (w & Hw & Hne & Hall).
  destruct (Hnone b w Hin Hw) as [-> | Hbad]; congruence.
Qed.

(** The amount as the OCR reads it, looked up by the very same text. *)
Lemma grounding_needs_word_tokens_witness :
  _find_bbox_for_value "100.00"
    [mk_word_box (Some "100.00"%string) (Some 90) (mk_bbox 200 300 240 312) 2;
     mk_word_box (Some "$100"%string) (Some 90) (mk_bbox 200 320 240 332) 2]
  = None.
Proof.
  apply (proj2 grounding_needs_word_tokens).
  intros b w [<- | [<- | []]] [= <-]; right; reflexivity.
Defined.

(** X11 -- [_find_bbox_for_value] lower-cases the value before it cuts it
    into tokens and lower-cases each word before it compares: two values
    that differ in letter case only get the same source, and so do a value
    and its lower-cased form. *)
Theorem grounding_ignores_case (value1 value2 : string) (word_boxes : list word_box) :
  PyStr.lower value1 = PyStr.lower value2 ->
  _find_bbox_for_value value1 word_boxes = _find_bbox_for_value value2 word_boxes
  /\ _find_bbox_for_value (PyStr.lower value1) word_boxes
     = _find_bbox_for_value value1 word_boxes.
Proof.
  assert (H : forall v1 v2, PyStr.lower v1 = PyStr.lower v2 ->
              _find_bbox_for_value v1 word_boxes = _find_bbox_for_value v2 word_boxes).
  { intros v1 v2 Hl. unfold _find_bbox_for_value. rewrite Hl.
    replace (String.eqb v1 "") with (String.eqb v2 ""); [reflexivity |].
    assert (Hnil : v1 = EmptyString <-> v2 = EmptyString).
    { by rewrite <- (lower_eq_nil v1), <- (lower_eq_nil v2), Hl. }
    destruct (String.eqb_spec v2 "") as [E2 | E2], (String.eqb_spec v1 "") as [E1 | E1];
      tauto. }
  intros Hl. split; [by apply H |]. apply H. apply lower_idem.
Qed.

Lemma grounding_ignores_case_witness :
  _find_bbox_for_value "ACME corp" sample_boxes = _find_bbox_for_value "Acme Corp" sample_boxes.
Proof. apply (grounding_ignores_case "ACME corp" "Acme Corp" sample_boxes eq_refl). Defined.

(** ** The penalty for failed rules *)

Lemma round_half_even_compat (x y : Q) : x == y -> round_half_even x = round_half_even y.
Proof.
  intros H. unfold round_half_even.
  assert (Hf : Qfloor x = Qfloor y) by (by apply Qfloor_comp).
  rewrite Hf.
  assert (Hc : Qcompare (x - inject_Z (Qfloor y)) 0.5 = Qcompare (y - inject_Z (Qfloor y)) 0.5).
  { apply Qcompare_comp; [by rewrite H | reflexivity]. }
  by rewrite Hc.
Qed.

(** Rounding keeps the order. *)
Lemma round_half_even_mono (x y : Q) : x <= y -> (round_half_even x <= round_half_even y)%Z.
Proof.
  intros Hxy. destruct (Z_le_gt_dec (round_half_even x) (round_half_even y)) as [H | H];
    [exact H |].
  assert (Hz : (round_half_even y + 1 <= round_half_even x)%Z) by lia.
  rewrite Zle_Qle, inject_Z_plus in Hz. change (inject_Z 1) with 1 in Hz.
  pose proof (round_half_even_error x) as [_ Hx].
  pose proof (round_half_even_error y) as [Hy _].
  assert (Heq : x == y).
  { revert Hz Hx Hy. generalize (inject_Z (round_half_even x)) as a.
    generalize (inject_Z (round_half_even y)) as b. intros b a Hz Hx Hy. lra. }
  rewrite (round_half_even_compat x y Heq) in H. lia.
Qed.

Lemma py_round2_mono (x y : Q) : x <= y -> py_round2 x <= py_round2 y.
Proof.
  intros H. unfold py_round2.
  assert (Hz : (round_half_even (x * 100) <= round_half_even (y * 100))%Z).
  { apply round_half_even_mono. lra. }
  rewrite Zle_Qle in Hz. revert Hz.
  generalize (inject_Z (round_half_even (x * 100))) as a.
  generalize (inject_Z (round_half_even (y * 100))) as b. intros b a Hz.
  unfold Qdiv. change (/ 100) with (1 # 100). lra.
Qed.

(** The overall confidence is the rounded product of the weighted mean and
    the penalty factor. *)
Lemma overall_confidence_factor (fields : list field) (qa_results : qa_result) :
  fields <> [] ->
  _calculate_overall_confidence fields qa_results
  = py_round2 (unpenalized_weighted_mean fields
               * penalty_factor (length (failed_rules qa_results))).
Proof.
  intros Hne. pose proof (weight_loop_mean fields Hne) as Hm.
  unfold _calculate_overall_confidence, penalty_factor.
  destruct fields as [| f0 l]; [congruence |].
  destruct (weight_loop (f0 :: l)) as [ws tw]. destruct Hm as [Hpos Hm].
  destruct (Qlt_le_dec 0 tw) as [_ | Hle]; [| lra].
  apply py_round2_compat.
  destruct (0 <? length (failed_rules qa_results))%nat; rewrite Hm; ring.
Qed.

Lemma penalty_factor_mono (n1 n2 : nat) :
  (n1 <= n2)%nat -> penalty_factor n2 <= penalty_factor n1.
Proof.
  intros Hn. unfold penalty_factor.
  pose proof (penalty_bounds n2) as [Hlo2 Hhi2].
  destruct (Nat.ltb_spec 0 n1) as [H1 | H1], (Nat.ltb_spec 0 n2) as [H2 | H2]; try lia.
  - assert (Hq : inject_Z (Z.of_nat n1) <= inject_Z (Z.of_nat n2)) by (by apply inject_nat_le).
    assert (Hmin : Qmin (0.1 * inject_Z (Z.of_nat n1)) 0.5
                   <= Qmin (0.1 * inject_Z (Z.of_nat n2)) 0.5).
    { apply Q.min_le_compat_r. lra. }
    lra.
  - lra.
  - lra.
Qed.

Lemma penalty_factor_saturates (n : nat) : (5 <= n)%nat -> penalty_factor n == 0.5.
Proof.
  intros Hn. unfold penalty_factor.
  destruct (Nat.ltb_spec 0 n) as [_ | H]; [| lia].
  assert (Hq : inject_Z (Z.of_nat 5) <= inject_Z (Z.of_nat n)) by (by apply inject_nat_le).
  change (inject_Z (Z.of_nat 5)) with 5 in Hq.
  rewrite Q.min_r by lra. reflexivity.
Qed.

(** X12 -- With field confidences between 0 and 1, the validation result
    enters [_calculate_overall_confidence] through the number of failed rules
    only: two results with the same number of failed rules give the same
    score.  More failed rules never give a higher score.  The penalty stops
    growing at five failed rules: from five on the score no longer changes,
    and it is at most 0.5. *)
Theorem failed_rules_penalty (fields : list field) (qa1 qa2 : qa_result) :
  (forall f, In f fields -> 0 <= f_confidence f <= 1) ->
  (length (failed_rules qa1) = length (failed_rules qa2) ->
   _calculate_overall_confidence fields qa1 = _calculate_overall_confidence fields qa2)
  /\ ((length (failed_rules qa1) <= length (failed_rules qa2))%nat ->
      _calculate_overall_confidence fields qa2 <= _calculate_overall_confidence fields qa1)
  /\ ((5 <= length (failed_rules qa1))%nat -> (5 <= length (failed_rules qa2))%nat ->
      _calculate_overall_confidence fields qa1 = _calculate_overall_confidence fields qa2)
  /\ ((5 <= length (failed_rules qa1))%nat ->
      _calculate_overall_confidence fields qa1 <= 0.5).
Proof.
  intros Hc. destruct fields as [| f0 l].
  { repeat split; intros; cbn; (reflexivity || discriminate). }
  set (fields := f0 :: l) in *.
  assert (Hne : fields <> []) by discriminate.
  pose proof (unpenalized_weighted_mean_unit fields Hne Hc) as [Hm0 Hm1].
  rewrite !(overall_confidence_factor fields) by exact Hne.
  split; [| split; [| split]].
  - by intros ->.
  - intros Hn. apply py_round2_mono. apply penalty_factor_mono in Hn.
    revert Hn Hm0. generalize (unpenalized_weighted_mean fields) as m.
    generalize (penalty_factor (length (failed_rules qa1))) as p1.
    generalize (penalty_factor (length (failed_rules qa2))) as p2. intros p2 p1 m Hn Hm0. nra.
  - intros H1 H2. apply py_round2_compat.
    by rewrite (penalty_factor_saturates _ H1), (penalty_factor_saturates _ H2).
  - intros H1. apply Qle_trans with (py_round2 0.5); [| by vm_compute].
    apply py_round2_mono. rewrite (penalty_factor_saturates _ H1).
    revert Hm1. generalize (unpenalized_weighted_mean fields) as m. intros m Hm1. lra.
Qed.

(** Two fields of full confidence under five and under seven failed rules. *)
Lemma failed_rules_penalty_witness :
  _calculate_overall_confidence
    [mk_field "vendor_name" "Acme" 1 None; mk_field "currency" "USD" 1 None]
    (mk_qa [] ["a"; "b"; "c"; "d"; "e"]%string "")
  = _calculate_overall_confidence
      [mk_field "vendor_name" "Acme" 1 None; mk_field "currency" "USD" 1 None]
      (mk_qa [] ["a"; "b"; "c"; "d"; "e"; "f"; "g"]%string "").
Proof.
  apply (failed_rules_penalty
           [mk_field "vendor_name" "Acme" 1 None; mk_field "currency" "USD" 1 None]
           (mk_qa [] ["a"; "b"; "c"; "d"; "e"]%string "")
           (mk_qa [] ["a"; "b"; "c"; "d"; "e"; "f"; "g"]%string "")).
  - intros f [<- | [<- | []]]; split; discriminate.
  - cbn. lia.
  - cbn. lia.
Defined.

(** ** The field list and the flattened paths *)




(** *** [dict(items)]: the last pair of a key is the one that stays *)





(** *** The flattening on data as the schemas shape it *)










(** ** Further properties of the extraction driver *)

(** [core.py] finds a source for no value: its matcher answers [None] on an
    empty value or an empty page and stops at [re.sub] otherwise. *)
Lemma extracted_field_cases (py_str : pyval -> string) (word_boxes : list word_box)
    (kv : string * pyval) :
  Core.extracted_field py_str word_boxes (fst kv) (snd kv)
  = if (String.eqb (py_str (snd kv)) "" || match word_boxes with [] => true | _ => false end)%bool
    then Ok (placeholder_field py_str kv)
    else Raise NameError.
Proof.
  unfold Core.extracted_field, Core._find_bbox_for_value.
  by destruct (String.eqb (py_str (snd kv)) "" || _)%bool.
Qed.

Lemma extracted_field_stops (py_str : pyval -> string) (word_boxes : list word_box)
    (kv : string * pyval) :
  Core.extracted_field py_str word_boxes (fst kv) (snd kv)
  = if stops_at py_str word_boxes kv then Raise NameError
    else Ok (placeholder_field py_str kv).
Proof.
  rewrite extracted_field_cases. unfold stops_at.
  by destruct (String.eqb (py_str (snd kv)) "" || _)%bool.
Qed.

Lemma map_result_ext {A B : Type} (f g : A -> result B) (l : list A) :
  (forall x, f x = g x) -> Core.map_result f l = Core.map_result g l.
Proof.
  intros H. induction l as [| x l IH]; [reflexivity |].
  cbn [Core.map_result]. by rewrite H, IH.
Qed.

Lemma map_result_map {A B C : Type} (n : A -> B) (f : B -> result C) (l : list A) :
  Core.map_result (fun x => f (n x)) l = Core.map_result f (List.map n l).
Proof.
  induction l as [| x l IH]; [reflexivity |].
  cbn [Core.map_result List.map]. by rewrite IH.
Qed.

Lemma map_result_app {A B : Type} (f : A -> result B) (l1 l2 : list A) :
  Core.map_result f (l1 ++ l2)
  = (ys <- Core.map_result f l1 ;; zs <- Core.map_result f l2 ;; Ok (ys ++ zs)).
Proof.
  induction l1 as [| x l1 IH]; cbn [app Core.map_result bind].
  - by destruct (Core.map_result f l2).
  - destruct (f x) as [y |]; cbn [bind]; [| reflexivity].
    rewrite IH. destruct (Core.map_result f l1) as [ys |]; cbn [bind]; [| reflexivity].
    by destruct (Core.map_result f l2).
Qed.

(** Mapping over rows and joining them is mapping over the joined rows. *)
Lemma map_result_concat {A B : Type} (f : A -> result B) (rows : list (list A)) :
  (rs <- Core.map_result (Core.map_result f) rows ;; Ok (concat rs))
  = Core.map_result f (concat rows).
Proof.
  induction rows as [| row rows IH]; [reflexivity |].
  cbn [Core.map_result concat]. rewrite map_result_app, <- IH.
  destruct (Core.map_result f row) as [ys |]; cbn [bind]; [| reflexivity].
  by destruct (Core.map_result (Core.map_result f) rows).
Qed.

Lemma map_imap_pairs {X : Type} (l : list pyval) (k : nat -> nat) (r : nat * pyval -> X) :
  List.map r (imap (fun i item => (k i, item)) l) = imap (fun i item => r (k i, item)) l.
Proof.
  revert k. induction l as [| item l IH]; intros k; [reflexivity |].
  cbn [imap List.map]. f_equal. apply (IH (k ∘ S)).
Qed.

(** [_format_extracted_data] builds one field for each leaf, from left to
    right. *)
Lemma format_extracted_data_leaves (py_str : pyval -> string) (extracted_data : pydict)
    (word_boxes : list word_box) :
  Core._format_extracted_data py_str extracted_data word_boxes
  = Core.map_result
      (fun leaf => Core.extracted_field py_str word_boxes (fst leaf) (snd leaf))
      (leaf_entries extracted_data).
Proof.
  set (ef := fun leaf : string * pyval =>
               Core.extracted_field py_str word_boxes (fst leaf) (snd leaf)).
  assert (Hentry : forall kv,
             Core.format_entry py_str word_boxes kv = Core.map_result ef (entry_leaves kv)).
  { intros [key value]. unfold Core.format_entry, entry_leaves. cbn [fst snd].
    assert (Hone : (f <- Core.extracted_field py_str word_boxes key value ;; Ok [f])
                   = Core.map_result ef [(key, value)]).
    { cbn [Core.map_result]. unfold ef. cbn [fst snd].
      by destruct (Core.extracted_field py_str word_boxes key value). }
    destruct value as [| | | | | l |]; try exact Hone.
    destruct (forallb is_dict l); [| exact Hone].
    set (row := fun ix : nat * pyval =>
                  List.map
                    (fun sub : string * pyval =>
                       (key +:+ "." +:+ PyStr.of_nat (fst ix) +:+ "." +:+ fst sub, snd sub))
                    (dict_items (snd ix))).
    assert (Hrows : imap
                      (fun i item_dict =>
                         List.map
                           (fun sub : string * pyval =>
                              (key +:+ "." +:+ PyStr.of_nat i +:+ "." +:+ fst sub, snd sub))
                           (dict_items item_dict))
                      l
                    = List.map row (imap (fun i item => (i, item)) l)).
    { symmetry. exact (map_imap_pairs l id row). }
    rewrite Hrows, <- map_result_concat, <- map_result_map. f_equal.
    apply map_result_ext. intros ix. unfold row. by rewrite <- map_result_map. }
  unfold Core._format_extracted_data, leaf_entries.
  rewrite (map_result_ext _ _ _ Hentry), map_result_map, flat_map_concat_map.
  apply map_result_concat.
Qed.

Lemma format_leaves_cases (py_str : pyval -> string) (word_boxes : list word_box)
    (leaves : list (string * pyval)) :
  Core.map_result
    (fun leaf => Core.extracted_field py_str word_boxes (fst leaf) (snd leaf)) leaves
  = if existsb (stops_at py_str word_boxes) leaves then Raise NameError
    else Ok (List.map (placeholder_field py_str) leaves).
Proof.
  induction leaves as [| leaf leaves IH]; [reflexivity |].
  cbn [Core.map_result existsb List.map]. rewrite extracted_field_stops, IH.
  destruct (stops_at py_str word_boxes leaf); cbn [bind orb]; [reflexivity |].
  by destruct (existsb (stops_at py_str word_boxes) leaves).
Qed.

Lemma classify_cases (classification_reply : string -> result (option string))
    (document_text : string) :
  Core.classify_document_type classification_reply document_text = "unknown"%string
  \/ In (Core.classify_document_type classification_reply document_text) Core.allowed_types.
Proof.
  unfold Core.classify_document_type.
  destruct (classification_reply (Core.text_snippet document_text)) as [[content |] | e];
    try (by left).
  destruct (bool_decide_reflect (PyStr.lower (PyStr.strip content) ∈ Core.allowed_types))
    as [H | H]; [right; by apply list_elem_of_In | by left].
Qed.

(** The ways a call of the model of [run_extraction] ends. *)
Lemma run_extraction_cases
    (py_str : pyval -> string) (exn_str : pyexn -> string)
    (process_document : string -> result Core.document_data)
    (classification_reply : string -> result (option string))
    (extraction_reply : string -> Core.schema -> result pyval)
    (model_validate : Core.schema -> pyval -> result pydict)
    (file_path : string) :
  match Core.run_extraction py_str exn_str process_document classification_reply
          extraction_reply model_validate file_path with
  | Ok r =>
      (exists message error_code,
          In error_code error_codes /\ r = Core._create_error_output message error_code)
      \/ (In (Core.doc_type r) Core.allowed_types
          /\ Core.overall_confidence r = 0.0
          /\ Core.qa r = placeholder_qa
          /\ Forall (fun f => f_confidence f = 0.5 /\ f_source f = None) (Core.fields r))
  | Raise e => e = NameError
  end.
Proof.
  unfold Core.run_extraction.
  destruct (process_document file_path) as [dd | e].
  2: { left. eexists _, _. split; [| reflexivity]. cbn. tauto. }
  destruct (String.eqb (default EmptyString (Core.dd_text dd)) "").
  { left. eexists _, _. split; [| reflexivity]. cbn. tauto. }
  destruct (classify_cases classification_reply (default EmptyString (Core.dd_text dd)))
    as [Hu | Hin].
  { rewrite Hu. cbn [String.eqb Ascii.eqb]. left. eexists _, _. split; [| reflexivity].
    cbn. tauto. }
  set (detected := Core.classify_document_type classification_reply _) in *.
  assert (Hs : String.eqb detected "unknown" = false
               /\ exists sc, Core.schema_of detected = Some sc).
  { cbn in Hin. destruct Hin as [<- | [<- | [<- | []]]]; split; try reflexivity; by eexists. }
  destruct Hs as [Hnu [sc Hsc]]. rewrite Hnu, Hsc.
  destruct (model_validate sc _) as [data | e].
  2: { left. eexists _, _. split; [| reflexivity]. cbn. tauto. }
  rewrite format_extracted_data_leaves, format_leaves_cases.
  destruct (existsb _ _); cbn [bind]; [reflexivity |].
  right. cbn [Core.doc_type Core.overall_confidence Core.qa Core.fields].
  repeat split; try done.
  apply List.Forall_forall. intros f Hf. apply in_map_iff in Hf as (leaf & <- & _). by split.
Qed.

(** X14 -- A report that [run_extraction] returns is of one of two kinds.
    It is an error report whose code is [ocr_error], [ocr_failed],
    [classification_failed] or [extraction_error]; the code
    [schema_missing] never occurs, since the classifier answers one of the
    three document types or ['unknown'].  Or it is a report for one of the
    three document types, and then the overall confidence is 0.0, the [qa]
    entry is the fixed placeholder with no passed and no failed rule, and
    every field has confidence 0.5 and no source: [run_extraction] runs
    neither the validation rules nor the confidence scorer. *)
Theorem run_extraction_reports
    (py_str : pyval -> string) (exn_str : pyexn -> string)
    (process_document : string -> result Core.document_data)
    (classification_reply : string -> result (option string))
    (extraction_reply : string -> Core.schema -> result pyval)
    (model_validate : Core.schema -> pyval -> result pydict)
    (file_path : string) (r : Core.report) :
  Core.run_extraction py_str exn_str process_document classification_reply
    extraction_reply model_validate file_path = Ok r ->
  (exists message error_code,
      In error_code error_codes /\ r = Core._create_error_output message error_code)
  \/ (In (Core.doc_type r) Core.allowed_types
      /\ Core.overall_confidence r = 0.0
      /\ Core.qa r = placeholder_qa
      /\ Forall (fun f => f_confidence f = 0.5 /\ f_source f = None) (Core.fields r)).
Proof.
  intros Hr.
  pose proof (run_extraction_cases py_str exn_str process_document classification_reply
                extraction_reply model_validate file_path) as H.
  by rewrite Hr in H.
Qed.

(** A scan without tokens, read as an invoice with one field. *)
Lemma run_extraction_reports_witness :
  let r := {| Core.doc_type := "invoice";
              Core.fields := [mk_field "vendor_name" "Acme Corp" 0.5 None];
              Core.overall_confidence := 0.0;
              Core.qa := placeholder_qa |} in
  (exists message error_code,
      In error_code error_codes /\ r = Core._create_error_output message error_code)
  \/ (In (Core.doc_type r) Core.allowed_types
      /\ Core.overall_confidence r = 0.0
      /\ Core.qa r = placeholder_qa
      /\ Forall (fun f => f_confidence f = 0.5 /\ f_source f = None) (Core.fields r)).
Proof.
  apply (run_extraction_reports str_scalar (fun _ => "boom"%string)
           (fun _ => Ok (Core.mk_document_data (Some "Invoice 42"%string) None))
           (fun _ => Ok (Some " Invoice "%string))
           (fun _ _ => Ok (PDict [("vendor_name", PStr "Acme Corp")]%string))
           (fun _ v => Ok (dict_items v))
           "scan.pdf").
  reflexivity.
Defined.

(** X15 -- Once the OCR, the classification and the schema validation have
    succeeded, [run_extraction] formats the validated data, and there it
    calls [re.sub] in a module that never imports [re].  If the page has at
    least one token and some value renders to a non-empty string, the call
    raises [NameError] and no report is returned.  Otherwise the report
    holds one field per value, each with confidence 0.5 and no source. *)
Theorem run_extraction_stops_at_re_sub
    (py_str : pyval -> string) (exn_str : pyexn -> string)
    (process_document : string -> result Core.document_data)
    (classification_reply : string -> result (option string))
    (extraction_reply : string -> Core.schema -> result pyval)
    (model_validate : Core.schema -> pyval -> result pydict)
    (file_path : string) (document_data : Core.document_data)
    (document_schema : Core.schema) (extracted_data : pydict) :
  let raw_text := default EmptyString (Core.dd_text document_data) in
  let word_boxes := default [] (Core.dd_word_boxes document_data) in
  let detected_doc_type := Core.classify_document_type classification_reply raw_text in
  process_document file_path = Ok document_data ->
  raw_text <> EmptyString ->
  Core.schema_of detected_doc_type = Some document_schema ->
  model_validate document_schema
    (Core.extract_document_data extraction_reply raw_text document_schema)
  = Ok extracted_data ->
  (word_boxes <> [] ->
   Exists (fun leaf => py_str (snd leaf) <> EmptyString) (leaf_entries extracted_data) ->
   Core.run_extraction py_str exn_str process_document classification_reply
     extraction_reply model_validate file_path = Raise NameError)
  /\ (word_boxes = []
      \/ Forall (fun leaf => py_str (snd leaf) = EmptyString) (leaf_entries extracted_data) ->
      Core.run_extraction py_str exn_str process_document classification_reply
        extraction_reply model_validate file_path
      = Ok {| Core.doc_type := detected_doc_type;
              Core.fields := List.map (placeholder_field py_str) (leaf_entries extracted_data);
              Core.overall_confidence := 0.0;
              Core.qa := placeholder_qa |}).
Proof.
  intros raw_text word_boxes detected Hd Ht Hs Hv.
  assert (Hrun : Core.run_extraction py_str exn_str process_document classification_reply
                   extraction_reply model_validate file_path
                 = (fields_with_confidence <-
                      Core._format_extracted_data py_str extracted_data word_boxes ;;
                    Ok {| Core.doc_type := detected;
                          Core.fields := fields_with_confidence;
                          Core.overall_confidence := 0.0;
                          Core.qa := placeholder_qa |})).
  { unfold Core.run_extraction. rewrite Hd. fold raw_text. fold detected.
    replace (String.eqb raw_text "") with false by (symmetry; by apply String.eqb_neq).
    destruct (String.eqb_spec detected "unknown") as [Hu | _].
    { rewrite Hu in Hs. discriminate. }
    by rewrite Hs, Hv. }
  rewrite Hrun, format_extracted_data_leaves, format_leaves_cases. split.
  - intros Hwb Hex.
    replace (existsb (stops_at py_str word_boxes) (leaf_entries extracted_data)) with true;
      [reflexivity |].
    symmetry. apply existsb_exists. apply List.Exists_exists in Hex as (leaf & Hin & Hne).
    exists leaf. split; [exact Hin |]. unfold stops_at.
    apply String.eqb_neq in Hne. rewrite Hne. by destruct word_boxes.
  - intros Hquiet.
    replace (existsb (stops_at py_str word_boxes) (leaf_entries extracted_data)) with false;
      [reflexivity |].
    symmetry. apply not_true_is_false. intros Hex.
    apply existsb_exists in Hex as (leaf & Hin & Hstop). unfold stops_at in Hstop.
    destruct Hquiet as [Hwb | Hall].
    + rewrite Hwb in Hstop. by rewrite orb_true_r in Hstop.
    + rewrite List.Forall_forall in Hall. rewrite (Hall leaf Hin) in Hstop. discriminate.
Qed.

(** An invoice whose OCR gave tokens, read and validated without error. *)
Lemma run_extraction_stops_at_re_sub_witness :
  Core.run_extraction str_scalar (fun _ => "boom"%string)
    (fun _ => Ok (Core.mk_document_data (Some "Invoice 42"%string) (Some sample_boxes)))
    (fun _ => Ok (Some "invoice"%string))
    (fun _ _ => Ok (PDict sample_invoice))
    (fun _ v => Ok (dict_items v))
    "scan.pdf"
  = Raise NameError.
Proof.
  apply (proj1 (run_extraction_stops_at_re_sub str_scalar (fun _ => "boom"%string)
                  (fun _ => Ok (Core.mk_document_data (Some "Invoice 42"%string)
                                  (Some sample_boxes)))
                  (fun _ => Ok (Some "invoice"%string))
                  (fun _ _ => Ok (PDict sample_invoice))
                  (fun _ v => Ok (dict_items v))
                  "scan.pdf"
                  (Core.mk_document_data (Some "Invoice 42"%string) (Some sample_boxes))
                  Core.InvoiceSchema sample_invoice
                  eq_refl ltac:(discriminate) eq_refl eq_refl)).
  - discriminate.
  - apply Exists_cons_hd. discriminate.
Defined.

(** ** The OCR front end *)

Example splitext_ext_samples :
  List.map (Tools.splitext_ext (PyRe.is_char "/"))
    ["scan.pdf"; "scan.PDF"; ".pdf"; "dir.x/file"; "a..png"; "...pdf"; "a.tar.gz"; "a.";
     "/x/.hidden.png"]%string
  = [".pdf"; ".PDF"; ""; ""; ".png"; ""; ".gz"; "."; ".png"]%string.
Proof. reflexivity. Qed.

Lemma pdf_loop_pages (pages : list Tools.pdf_page) :
  Tools.pdf_loop pages
  = (List.map Tools.page_text pages,
     concat (imap (fun page_num page =>
                     List.map (Tools.pdf_word_box page_num)
                       (List.filter (fun w => nonblank (Tools.pw_word w))
                          (Tools.page_words page)))
               pages)).
Proof.
  unfold Tools.pdf_loop.
  set (step := fun (st : list string * list word_box) (numbered : nat * Tools.pdf_page) => _).
  assert (H : forall (l : list Tools.pdf_page) (k : nat -> nat) full_text word_boxes,
             fold_left step (imap (fun i page => (k i, page)) l) (full_text, word_boxes)
             = (full_text ++ List.map Tools.page_text l,
                word_boxes
                ++ concat (imap (fun i page =>
                                   List.map (Tools.pdf_word_box (k i))
                                     (List.filter (fun w => nonblank (Tools.pw_word w))
                                        (Tools.page_words page)))
                             l))).
  { induction l as [| page l IH]; intros k full_text word_boxes.
    - cbn. by rewrite !app_nil_r.
    - cbn [imap fold_left List.map concat]. unfold step at 2. cbn [fst snd].
      rewrite (fold_left_collect (fun w => nonblank (Tools.pw_word w))
                 (Tools.pdf_word_box (k 0%nat))).
      rewrite (IH (k ∘ S)). by rewrite <- !app_assoc. }
  exact (H pages id [] []).
Qed.

Lemma pdf_boxes_elements (pages : list Tools.pdf_page) (b : word_box) :
  In b (snd (Tools.pdf_loop pages))
  <-> exists page_num page w,
        pages !! page_num = Some page /\ In w (Tools.page_words page)
        /\ nonblank (Tools.pw_word w) = true /\ b = Tools.pdf_word_box page_num w.
Proof.
  rewrite pdf_loop_pages. cbn [snd]. rewrite in_concat. split.
  - intros (row & Hrow & Hb).
    apply list_elem_of_In, elem_of_lookup_imap in Hrow as (i & page & -> & Hpage).
    apply in_map_iff in Hb as (w & <- & Hw). apply filter_In in Hw as [Hw Hnb].
    by exists i, page, w.
  - intros (i & page & w & Hpage & Hw & Hnb & ->).
    eexists. split.
    + apply list_elem_of_In, elem_of_lookup_imap. exists i, page. by split.
    + cbv beta. apply in_map. apply filter_In. by split.
Qed.

(** X16 -- [_process_pdf], when PyMuPDF reads the file.  The text is the
    page texts joined by line feeds.  Every word of every page that is not
    blank becomes a token, with the number of its page counted from 1, and
    nothing else does: every token has a word that is not blank, a page
    number between 1 and the number of pages, and no [conf] entry.  When any
    call into PyMuPDF raises, the result is the empty text with no token. *)
Theorem pdf_reader_tokens (fitz_open : string -> option (list Tools.pdf_page))
    (pdf_path : string) :
  (forall pages,
      fitz_open pdf_path = Some pages ->
      exists word_boxes,
        Tools._process_pdf fitz_open pdf_path
        = Core.mk_document_data
            (Some (PyStr.join PyRe.newline (List.map Tools.page_text pages)))
            (Some word_boxes)
        /\ Forall (tools_box (Z.of_nat (length pages))) word_boxes
        /\ (forall page_num page w,
               pages !! page_num = Some page -> In w (Tools.page_words page) ->
               nonblank (Tools.pw_word w) = true ->
               In {| wb_word := Some (Tools.pw_word w);
                     wb_conf := None;
                     wb_bbox := mk_bbox (Tools.pw_x0 w) (Tools.pw_y0 w)
                                  (Tools.pw_x1 w) (Tools.pw_y1 w);
                     wb_page_num := Z.of_nat page_num + 1 |} word_boxes))
  /\ (fitz_open pdf_path = None ->
      Tools._process_pdf fitz_open pdf_path = Tools.empty_document).
Proof.
  split; [| by (unfold Tools._process_pdf; intros ->)].
  intros pages Hopen. unfold Tools._process_pdf. rewrite Hopen.
  pose proof (pdf_boxes_elements pages) as Hel.
  pose proof (f_equal fst (pdf_loop_pages pages)) as Htext. cbn [fst] in Htext.
  destruct (Tools.pdf_loop pages) as [full_text word_boxes]. cbn [fst snd] in *. subst full_text.
  exists word_boxes. split; [reflexivity |]. split.
  - apply List.Forall_forall. intros b Hb.
    apply Hel in Hb as (i & page & w & Hpage & Hw & Hnb & ->).
    apply lookup_lt_Some in Hpage.
    split; [reflexivity |]. split; [cbn; lia |]. by exists (Tools.pw_word w).
  - intros i page w Hpage Hw Hnb. apply Hel. by exists i, page, w.
Qed.

(** Two pages; the second word of the first page is blank. *)
Lemma pdf_reader_tokens_witness :
  exists word_boxes,
    Tools._process_pdf
      (fun _ => Some [Tools.mk_pdf_page "Invoice 42"
                        [Tools.mk_pdf_word 10 10 50 22 "Invoice"; Tools.mk_pdf_word 52 10 54 22 " "];
                      Tools.mk_pdf_page "Total" [Tools.mk_pdf_word 10 10 40 22 "Total"]])
      "scan.pdf"
    = Core.mk_document_data (Some ("Invoice 42" +:+ PyRe.newline +:+ "Total")) (Some word_boxes)
    /\ Forall (tools_box 2) word_boxes.
Proof.
  destruct (proj1 (pdf_reader_tokens
                     (fun _ => Some [Tools.mk_pdf_page "Invoice 42"
                                       [Tools.mk_pdf_word 10 10 50 22 "Invoice";
                                        Tools.mk_pdf_word 52 10 54 22 " "];
                                     Tools.mk_pdf_page "Total"
                                       [Tools.mk_pdf_word 10 10 40 22 "Total"]])
                     "scan.pdf") _ eq_refl) as (word_boxes & Hdd & Hall & _).
  exists word_boxes. split; [exact Hdd | exact Hall].
Defined.

Lemma image_step_cases (data : Tools.tesseract_data) (word_boxes : list word_box) (i : nat)
    (word_boxes' : list word_box) :
  Tools.image_step data word_boxes i = Some word_boxes' ->
  word_boxes' = word_boxes
  \/ exists word x y w h,
       kept_row data i word x y w h
       /\ word_boxes' = word_boxes ++ [Tools.image_word_box word x y w h].
Proof.
  unfold Tools.image_step, kept_row.
  destruct (Tools.td_conf data !! i) as [conf |]; [| discriminate].
  destruct (Tools.py_int conf) as [c |] eqn:Ec; [| discriminate].
  destruct (Z.ltb_spec 0 c) as [Hc | Hc]; [| intros [= <-]; by left].
  destruct (Tools.td_text data !! i) as [word |]; [| discriminate].
  fold (nonblank word). destruct (nonblank word) eqn:Hnb; [| intros [= <-]; by left].
  destruct (Tools.td_left data !! i) as [x |]; [| discriminate].
  destruct (Tools.td_top data !! i) as [y |]; [| discriminate].
  destruct (Tools.td_width data !! i) as [w |]; [| discriminate].
  destruct (Tools.td_height data !! i) as [h |]; [| discriminate].
  intros [= <-]. right. exists word, x, y, w, h.
  split; [| reflexivity]. split; [by exists conf, c |]. by repeat split.
Qed.

Lemma image_loop_tokens (data : Tools.tesseract_data) (indices : list nat)
    (word_boxes word_boxes' : list word_box) (P : word_box -> Prop) :
  (forall i word x y w h, kept_row data i word x y w h ->
                          P (Tools.image_word_box word x y w h)) ->
  Tools.image_loop data indices word_boxes = Some word_boxes' ->
  Forall P word_boxes -> Forall P word_boxes'.
Proof.
  intros HP. revert word_boxes. induction indices as [| i indices IH]; intros word_boxes.
  - cbn. by intros [= <-].
  - cbn [Tools.image_loop].
    destruct (Tools.image_step data word_boxes i) as [wb1 |] eqn:Estep; [| discriminate].
    intros Hloop Hacc. apply (IH wb1 Hloop).
    apply image_step_cases in Estep as [-> | (word & x & y & w & h & Hk & ->)]; [exact Hacc |].
    apply Forall_app. split; [exact Hacc |]. constructor; [by eapply HP | constructor].
Qed.

Lemma image_loop_aligned (data : Tools.tesseract_data) (indices : list nat)
    (word_boxes : list word_box) :
  (forall i, In i indices ->
             (exists z, Tools.td_conf data !! i = Some (PInt z))
             /\ is_Some (Tools.td_text data !! i)
             /\ is_Some (Tools.td_left data !! i) /\ is_Some (Tools.td_top data !! i)
             /\ is_Some (Tools.td_width data !! i) /\ is_Some (Tools.td_height data !! i)) ->
  is_Some (Tools.image_loop data indices word_boxes).
Proof.
  revert word_boxes. induction indices as [| i indices IH]; intros word_boxes H; [by eexists |].
  cbn [Tools.image_loop].
  destruct (H i (or_introl eq_refl)) as ([z Hz] & [word Hw] & [x Hx] & [y Hy] & [w Hw'] & [h Hh]).
  assert (Hstep : is_Some (Tools.image_step data word_boxes i)).
  { unfold Tools.image_step. rewrite Hz, Hw, Hx, Hy, Hw', Hh. cbn [Tools.py_int].
    destruct (0 <? z)%Z; [| by eexists]. destruct (negb _); by eexists. }
  destruct Hstep as [wb1 ->]. apply IH. intros j Hj. apply H. by right.
Qed.

(** X17 -- [_process_image], when Tesseract reads the image.  Either the
    result is the empty text with no token (a subscript or [int] raised), or
    the text is Tesseract's and every token comes from a row of the table
    whose confidence is an integer above 0 and whose text is not blank: its
    box is [[left, top, left + width, top + height]], its page is 1, and the
    confidence that selected it is not kept.  The box has [x0 <= x1] and
    [y0 <= y1] when no width or height is negative.  When the six columns
    have one length and the confidences are integers, the reader does not
    fail. *)
Theorem image_reader_tokens
    (image_to_data : string -> option Tools.tesseract_data)
    (image_to_string : string -> option string)
    (image_path : string) (data : Tools.tesseract_data) (full_text : string) :
  image_to_data image_path = Some data ->
  image_to_string image_path = Some full_text ->
  let dd := Tools._process_image image_to_data image_to_string image_path in
  (dd = Tools.empty_document
   \/ exists word_boxes,
        dd = Core.mk_document_data (Some full_text) (Some word_boxes)
        /\ Forall (fun b =>
                     tools_box 1 b
                     /\ exists i word x y w h,
                          kept_row data i word x y w h
                          /\ wb_bbox b = mk_bbox (inject_Z x) (inject_Z y)
                                           (inject_Z (x + w)) (inject_Z (y + h)))
                  word_boxes
        /\ ((forall i w, Tools.td_width data !! i = Some w -> (0 <= w)%Z) ->
            (forall i h, Tools.td_height data !! i = Some h -> (0 <= h)%Z) ->
            Forall (fun b => well_formed (wb_bbox b)) word_boxes))
  /\ (length (Tools.td_conf data) = length (Tools.td_text data) ->
      length (Tools.td_left data) = length (Tools.td_text data) ->
      length (Tools.td_top data) = length (Tools.td_text data) ->
      length (Tools.td_width data) = length (Tools.td_text data) ->
      length (Tools.td_height data) = length (Tools.td_text data) ->
      Forall (fun conf => exists z, conf = PInt z) (Tools.td_conf data) ->
      exists word_boxes, dd = Core.mk_document_data (Some full_text) (Some word_boxes)).
Proof.
  intros Hdata Htext dd. subst dd. unfold Tools._process_image. rewrite Hdata, Htext.
  split.
  - destruct (Tools.image_loop data _ []) as [word_boxes |] eqn:Eloop; [| by left].
    right. exists word_boxes. split; [reflexivity |]. split.
    + eapply image_loop_tokens; [| exact Eloop | constructor].
      intros i word x y w h Hk. split.
      * split; [reflexivity |]. split; [cbn; lia |].
        exists word. split; [reflexivity |]. by destruct Hk as (_ & _ & ? & _).
      * by exists i, word, x, y, w, h.
    + intros Hw Hh.
      eapply image_loop_tokens; [| exact Eloop | constructor].
      intros i word x y w h (_ & _ & _ & _ & _ & Hwi & Hhi).
      specialize (Hw i w Hwi). specialize (Hh i h Hhi).
      unfold well_formed. cbn. rewrite <- !Zle_Qle. lia.
  - intros Hc Hl Ht Hw Hh Hint.
    destruct (image_loop_aligned data (seq 0 (length (Tools.td_text data))) []) as [wb Hwb].
    + intros i Hi. apply in_seq in Hi as [_ Hi]. cbn in Hi.
      rewrite <- ?Hc, <- ?Hl, <- ?Ht, <- ?Hw, <- ?Hh.
      assert (Hconf : is_Some (Tools.td_conf data !! i)) by (apply lookup_lt_is_Some; lia).
      destruct Hconf as [conf Hconf]. split.
      * rewrite List.Forall_forall in Hint.
        destruct (Hint conf) as [z ->]; [| by exists z].
        apply list_elem_of_In. by eapply list_elem_of_lookup_2.
      * repeat split; apply lookup_lt_is_Some; lia.
    + rewrite Hwb. by exists wb.
Qed.

(** Three rows; the second is not a word, the third is blank. *)
Lemma image_reader_tokens_witness :
  exists word_boxes,
    Tools._process_image
      (fun _ => Some (Tools.mk_tesseract_data ["Total"; ""; " "]%string
                        [PInt 96; PInt (-1); PInt 80] [10; 0; 60]%Z [20; 0; 20]%Z
                        [40; 0; 5]%Z [12; 0; 12]%Z))
      (fun _ => Some "Total"%string) "scan.png"
    = Core.mk_document_data (Some "Total"%string) (Some word_boxes).
Proof.
  apply (proj2 (image_reader_tokens
                  (fun _ => Some (Tools.mk_tesseract_data ["Total"; ""; " "]%string
                                    [PInt 96; PInt (-1); PInt 80] [10; 0; 60]%Z [20; 0; 20]%Z
                                    [40; 0; 5]%Z [12; 0; 12]%Z))
                  (fun _ => Some "Total"%string) "scan.png" _ "Total" eq_refl eq_refl));
    try reflexivity.
  repeat constructor; by eexists.
Defined.

Lemma process_pdf_tokens (fitz_open : string -> option (list Tools.pdf_page))
    (pdf_path : string) :
  exists text word_boxes,
    Tools._process_pdf fitz_open pdf_path = Core.mk_document_data (Some text) (Some word_boxes)
    /\ Forall (fun b => exists pages, tools_box pages b) word_boxes.
Proof.
  unfold Tools._process_pdf.
  destruct (fitz_open pdf_path) as [pages |];
    [| eexists _, _; split; [reflexivity | constructor]].
  pose proof (pdf_boxes_elements pages) as Hel.
  destruct (Tools.pdf_loop pages) as [full_text word_boxes]. cbn [snd] in Hel.
  eexists _, word_boxes. split; [reflexivity |].
  apply List.Forall_forall. intros b Hb.
  apply Hel in Hb as (i & page & w & Hpage & Hw & Hnb & ->).
  apply lookup_lt_Some in Hpage. exists (Z.of_nat (length pages)).
  split; [reflexivity |]. split; [cbn; lia |]. by exists (Tools.pw_word w).
Qed.

Lemma process_image_tokens (image_to_data : string -> option Tools.tesseract_data)
    (image_to_string : string -> option string) (image_path : string) :
  exists text word_boxes,
    Tools._process_image image_to_data image_to_string image_path
    = Core.mk_document_data (Some text) (Some word_boxes)
    /\ Forall (fun b => exists pages, tools_box pages b) word_boxes.
Proof.
  unfold Tools._process_image.
  destruct (image_to_data image_path) as [data |];
    [| eexists _, _; split; [reflexivity | constructor]].
  destruct (image_to_string image_path) as [full_text |];
    [| eexists _, _; split; [reflexivity | constructor]].
  destruct (Tools.image_loop data _ []) as [word_boxes |] eqn:Eloop;
    [| eexists _, _; split; [reflexivity | constructor]].
  eexists _, word_boxes. split; [reflexivity |].
  eapply image_loop_tokens; [| exact Eloop | constructor].
  intros i word x y w h Hk. exists 1%Z.
  split; [reflexivity |]. split; [cbn; lia |].
  exists word. split; [reflexivity |]. by destruct Hk as (_ & _ & ? & _).
Qed.

(** Both readers answer with the two keys present and tokens of the kind
    described. *)
Lemma process_document_tokens (is_sep : ascii -> bool) (path_exists : string -> bool)
    (fitz_open : string -> option (list Tools.pdf_page))
    (image_to_data : string -> option Tools.tesseract_data)
    (image_to_string : string -> option string)
    (file_path : string) (dd : Core.document_data) :
  Tools.process_document is_sep path_exists fitz_open image_to_data image_to_string file_path
  = Ok dd ->
  exists text word_boxes,
    dd = Core.mk_document_data (Some text) (Some word_boxes)
    /\ Forall (fun b => exists pages, tools_box pages b) word_boxes.
Proof.
  unfold Tools.process_document.
  destruct (negb (path_exists file_path)); [discriminate |].
  destruct (String.eqb _ ".pdf"); [intros [= <-]; apply process_pdf_tokens |].
  destruct (bool_decide _); [| discriminate]. intros [= <-]. apply process_image_tokens.
Qed.

Lemma fold_left_Qplus_ones (l : list Q) (a : Q) :
  (forall x, In x l -> x == 1) -> fold_left Qplus l a == a + inject_Z (Z.of_nat (length l)).
Proof.
  revert a. induction l as [| x l IH]; intros a H.
  - cbn [fold_left length]. change (inject_Z (Z.of_nat 0)) with 0. ring.
  - cbn [fold_left length]. rewrite Nat2Z.inj_succ, <- Z.add_1_r, inject_Z_plus.
    change (inject_Z 1) with 1.
    rewrite IH by (intros y Hy; apply H; by right).
    rewrite (H x (or_introl eq_refl)). ring.
Qed.

Lemma mean_ones (l : list Q) : l <> [] -> (forall x, In x l -> x == 1) -> mean l == 1.
Proof.
  intros Hne H. unfold mean. rewrite fold_left_Qplus_ones by exact H.
  assert (Hpos : 0 < inject_Z (Z.of_nat (length l))).
  { apply inject_nat_pos. destruct l; [congruence | simpl; lia]. }
  field. lra.
Qed.

(** X18 -- The tokens [process_document] returns never carry a [conf]
    entry: the PDF reader has none to give, and the image reader uses the
    Tesseract confidence to select the rows and then drops it.  The scorer
    reads a missing [conf] as 100, so on these tokens the OCR component of a
    field is 0 when no token matches the value and 1 when one does, and the
    composite is [0.70 * consistency + 0.20 * validation], with 0.10 added
    when a token matches. *)
Theorem tools_tokens_carry_no_confidence (is_sep : ascii -> bool) (path_exists : string -> bool)
    (fitz_open : string -> option (list Tools.pdf_page))
    (image_to_data : string -> option Tools.tesseract_data)
    (image_to_string : string -> option string)
    (file_path : string) (dd : Core.document_data) :
  Tools.process_document is_sep path_exists fitz_open image_to_data image_to_string file_path
  = Ok dd ->
  exists word_boxes,
    Core.dd_word_boxes dd = Some word_boxes
    /\ Forall (fun b => wb_conf b = None) word_boxes
    /\ forall (field_name value : string) (c : Q) (qa_results : qa_result),
         (List.filter (ocr_matches value) word_boxes = [] \/ value = EmptyString ->
          _get_ocr_confidence_for_value value word_boxes == 0
          /\ _calculate_field_composite_confidence field_name value c qa_results word_boxes
             == 0.70 * c + 0.20 * validation_score field_name qa_results)
         /\ (List.filter (ocr_matches value) word_boxes <> [] -> value <> EmptyString ->
             _get_ocr_confidence_for_value value word_boxes == 1
             /\ _calculate_field_composite_confidence field_name value c qa_results word_boxes
                == 0.70 * c + 0.20 * validation_score field_name qa_results + 0.10).
Proof.
  intros Hdd. apply process_document_tokens in Hdd as (text & word_boxes & -> & Hall).
  exists word_boxes. split; [reflexivity |].
  assert (Hconf : Forall (fun b => wb_conf b = None) word_boxes).
  { eapply Forall_impl; [exact Hall |]. by intros b (pages & Hb & _). }
  split; [exact Hconf |].
  intros field_name value c qa_results.
  assert (Hzero : List.filter (ocr_matches value) word_boxes = [] \/ value = EmptyString ->
                  _get_ocr_confidence_for_value value word_boxes == 0).
  { intros H. unfold _get_ocr_confidence_for_value.
    destruct (String.eqb_spec value "") as [Hv | Hv]; cbn [orb]; [reflexivity |].
    destruct H as [H | H]; [| congruence].
    destruct word_boxes as [| b0 bs]; [reflexivity |].
    by rewrite matching_word_confs_filter, H. }
  assert (Hone : List.filter (ocr_matches value) word_boxes <> [] -> value <> EmptyString ->
                 _get_ocr_confidence_for_value value word_boxes == 1).
  { intros Hm Hv.
    destruct (List.filter (ocr_matches value) word_boxes) as [| b bs] eqn:Ef; [congruence |].
    assert (Hb : In b word_boxes /\ ocr_matches value b = true).
    { apply filter_In. rewrite Ef. by left. }
    rewrite (ocr_confidence_mean value word_boxes b Hv (proj1 Hb) (proj2 Hb)), Ef.
    apply mean_ones; [discriminate |].
    intros x Hx. apply in_map_iff in Hx as (b' & <- & Hb').
    rewrite <- Ef in Hb'. apply filter_In in Hb' as [Hb' _].
    rewrite List.Forall_forall in Hconf. unfold ocr_conf. rewrite (Hconf b' Hb'). reflexivity. }
  split.
  - intros H. split; [by apply Hzero |].
    unfold _calculate_field_composite_confidence. rewrite (Hzero H). ring.
  - intros Hm Hv. split; [by apply Hone |].
    unfold _calculate_field_composite_confidence. rewrite (Hone Hm Hv). ring.
Qed.

(** A page with the word the value names. *)
Lemma tools_tokens_carry_no_confidence_witness :
  exists word_boxes,
    Core.dd_word_boxes
      (Tools._process_pdf
         (fun _ => Some [Tools.mk_pdf_page "Acme" [Tools.mk_pdf_word 10 10 50 22 "Acme"]])
         "scan.pdf")
    = Some word_boxes
    /\ Forall (fun b => wb_conf b = None) word_boxes.
Proof.
  destruct (tools_tokens_carry_no_confidence (PyRe.is_char "/") (fun _ => true)
              (fun _ => Some [Tools.mk_pdf_page "Acme" [Tools.mk_pdf_word 10 10 50 22 "Acme"]])
              (fun _ => None) (fun _ => None) "scan.pdf" _ eq_refl)
    as (word_boxes & Hwb & Hconf & _).
  exists word_boxes. split; [exact Hwb | exact Hconf].
Defined.

(** X19 -- [process_document] raises in two cases only: the file does not
    exist, or its extension, lower-cased, is neither [.pdf] nor one of the
    six image extensions; the test for the file comes first.
    [run_extraction] reports both as [ocr_error].  A failure inside a reader
    is not raised: a PDF that PyMuPDF cannot read, or an image on which
    Tesseract fails, comes back as the empty text, and [run_extraction]
    reports it as [ocr_failed] with the note "OCR failed to extract text.". *)
Theorem reader_failures_are_not_raised
    (py_str : pyval -> string) (exn_str : pyexn -> string)
    (classification_reply : string -> result (option string))
    (extraction_reply : string -> Core.schema -> result pyval)
    (model_validate : Core.schema -> pyval -> result pydict)
    (is_sep : ascii -> bool) (path_exists : string -> bool)
    (fitz_open : string -> option (list Tools.pdf_page))
    (image_to_data : string -> option Tools.tesseract_data)
    (image_to_string : string -> option string)
    (file_path : string) :
  let process_document :=
    Tools.process_document is_sep path_exists fitz_open image_to_data image_to_string in
  let run_extraction :=
    Core.run_extraction py_str exn_str process_document classification_reply
      extraction_reply model_validate in
  let file_extension := PyStr.lower (Tools.splitext_ext is_sep file_path) in
  ((exists e, process_document file_path = Raise e)
   <-> path_exists file_path = false
       \/ (file_extension <> ".pdf"%string /\ ~ In file_extension Tools.image_extensions))
  /\ (forall e, process_document file_path = Raise e ->
        exists message,
          run_extraction file_path = Ok (Core._create_error_output message "ocr_error"))
  /\ (path_exists file_path = false ->
      process_document file_path
      = Raise (Tools.FileNotFoundError ("Document not found at: " +:+ file_path)))
  /\ (path_exists file_path = true ->
      (file_extension = ".pdf"%string /\ fitz_open file_path = None)
      \/ (In file_extension Tools.image_extensions
          /\ (image_to_data file_path = None \/ image_to_string file_path = None)) ->
      run_extraction file_path
      = Ok (Core._create_error_output "OCR failed to extract text." "ocr_failed")).
Proof.
  intros process_document run_extraction file_extension.
  subst process_document run_extraction. unfold Tools.process_document. fold file_extension.
  assert (Himg : ~ In ".pdf"%string Tools.image_extensions).
  { cbn. intros H. repeat destruct H as [H | H]; (discriminate H || destruct H). }
  split; [| split; [| split]].
  - destruct (path_exists file_path); cbn [negb]; [| split; [by left | by eexists]].
    destruct (String.eqb_spec file_extension ".pdf") as [Hpdf | Hpdf].
    { split; [by intros [e He] |]. intros [H | [H _]]; congruence. }
    destruct (bool_decide_reflect (file_extension ∈ Tools.image_extensions)) as [Hi | Hi].
    + split; [by intros [e He] |]. intros [H | [_ H]]; [discriminate |].
      exfalso. apply H. by apply list_elem_of_In.
    + split; [| by eexists]. intros _. right. split; [exact Hpdf |].
      intros H. apply Hi. by apply list_elem_of_In.
  - intros e He. unfold Core.run_extraction. unfold Tools.process_document.
    fold file_extension. rewrite He. by eexists.
  - by intros ->.
  - intros Hex Hfail. unfold Core.run_extraction, Tools.process_document.
    fold file_extension. rewrite Hex. cbn [negb].
    destruct Hfail as [[Hpdf Hopen] | [Hin Himage]].
    + rewrite Hpdf. cbn [String.eqb Ascii.eqb]. unfold Tools._process_pdf. by rewrite Hopen.
    + destruct (String.eqb_spec file_extension ".pdf") as [Hpdf | _]; [congruence |].
      rewrite bool_decide_eq_true_2 by (by apply list_elem_of_In).
      unfold Tools._process_image.
      destruct Himage as [-> | Hs]; [reflexivity |].
      rewrite Hs. by destruct (image_to_data file_path).
Qed.

(** A PDF that exists and cannot be opened. *)
Lemma reader_failures_are_not_raised_witness :
  Core.run_extraction str_scalar (fun _ => "boom"%string)
    (Tools.process_document (PyRe.is_char "/") (fun _ => true) (fun _ => None)
       (fun _ => None) (fun _ => None))
    (fun _ => Ok (Some "invoice"%string)) (fun _ _ => Ok (PDict []))
    (fun _ v => Ok (dict_items v)) "uploaded_temp/Scan.PDF"
  = Ok (Core._create_error_output "OCR failed to extract text." "ocr_failed").
Proof.
  apply (proj2 (proj2 (proj2 (reader_failures_are_not_raised str_scalar (fun _ => "boom"%string)
                                 (fun _ => Ok (Some "invoice"%string)) (fun _ _ => Ok (PDict []))
                                 (fun _ v => Ok (dict_items v))
                                 (PyRe.is_char "/") (fun _ => true) (fun _ => None)
                                 (fun _ => None) (fun _ => None) "uploaded_temp/Scan.PDF"))));
    [reflexivity | left; split; reflexivity].
Defined.

Lemma join_blank_pages (sep : string) (pages : list string) :
  Forall (fun t => t = EmptyString) pages ->
  PyStr.join sep pages
  = PyStr.join EmptyString (List.map (fun _ => sep) (tail pages)).
Proof.
  induction 1 as [| t pages -> _ IH]; [reflexivity |].
  destruct pages as [| t' pages]; [reflexivity |].
  change (PyStr.join sep ("" :: t' :: pages)) with ("" +:+ sep +:+ PyStr.join sep (t' :: pages)).
  rewrite IH. cbn [tail List.map]. rewrite append_nil_l.
  destruct pages as [| t'' pages]; [cbn; by rewrite append_nil_r | reflexivity].
Qed.

(** X20 -- A PDF whose pages have no text, such as a scan without a text
    layer.  With one page the text [_process_pdf] returns is empty and
    [run_extraction] reports [ocr_failed].  With two pages or more the text
    is the line feeds that join the pages: it is not empty, the test for a
    failed OCR does not see it, and no report of [run_extraction] is then the
    [ocr_failed] report. *)
Theorem textless_pdf_passes_the_text_check
    (py_str : pyval -> string) (exn_str : pyexn -> string)
    (classification_reply : string -> result (option string))
    (extraction_reply : string -> Core.schema -> result pyval)
    (model_validate : Core.schema -> pyval -> result pydict)
    (is_sep : ascii -> bool) (path_exists : string -> bool)
    (fitz_open : string -> option (list Tools.pdf_page))
    (image_to_data : string -> option Tools.tesseract_data)
    (image_to_string : string -> option string)
    (file_path : string) (pages : list Tools.pdf_page) :
  let run_extraction :=
    Core.run_extraction py_str exn_str
      (Tools.process_document is_sep path_exists fitz_open image_to_data image_to_string)
      classification_reply extraction_reply model_validate in
  path_exists file_path = true ->
  PyStr.lower (Tools.splitext_ext is_sep file_path) = ".pdf"%string ->
  fitz_open file_path = Some pages ->
  Forall (fun page => Tools.page_text page = EmptyString) pages ->
  ((length pages <= 1)%nat ->
   Core.dd_text (Tools._process_pdf fitz_open file_path) = Some EmptyString
   /\ run_extraction file_path
      = Ok (Core._create_error_output "OCR failed to extract text." "ocr_failed"))
  /\ ((2 <= length pages)%nat ->
      (exists text,
          Core.dd_text (Tools._process_pdf fitz_open file_path) = Some text
          /\ text <> EmptyString
          /\ all_chars (PyRe.is_char (ascii_of_nat 10)) text = true)
      /\ forall r, run_extraction file_path = Ok r ->
                   failed_rules (Core.qa r) <> ["ocr_failed"%string]).
Proof.
  intros run_extraction Hex Hext Hopen Hblank. subst run_extraction.
  assert (Htext : Core.dd_text (Tools._process_pdf fitz_open file_path)
                  = Some (PyStr.join EmptyString
                            (List.map (fun _ => PyRe.newline)
                               (tail (List.map Tools.page_text pages))))).
  { unfold Tools._process_pdf. rewrite Hopen.
    pose proof (f_equal fst (pdf_loop_pages pages)) as Hft. cbn [fst] in Hft.
    destruct (Tools.pdf_loop pages) as [full_text word_boxes]. cbn [fst] in Hft. subst full_text.
    cbn [Core.dd_text]. f_equal. apply join_blank_pages.
    apply Forall_map. exact Hblank. }
  assert (Hrun : forall dd, Tools._process_pdf fitz_open file_path = dd ->
                 Tools.process_document is_sep path_exists fitz_open image_to_data
                   image_to_string file_path = Ok dd).
  { intros dd <-. unfold Tools.process_document. by rewrite Hex, Hext. }
  split.
  - intros Hlen. split.
    + rewrite Htext. by destruct pages as [| p1 [| p2 rest]]; [| | cbn in Hlen; lia].
    + unfold Core.run_extraction. rewrite (Hrun _ eq_refl), Htext.
      by destruct pages as [| p1 [| p2 rest]]; [| | cbn in Hlen; lia].
  - intros Hlen. destruct pages as [| p1 [| p2 rest]]; [cbn in Hlen; lia | cbn in Hlen; lia |].
    cbn [List.map tail] in Htext.
    set (text := PyStr.join "" (PyRe.newline :: List.map (fun _ => PyRe.newline)
                                                   (List.map Tools.page_text rest))) in *.
    assert (Hne : text <> EmptyString).
    { subst text. by destruct (List.map _ (List.map Tools.page_text rest)). }
    split.
    + exists text. split; [exact Htext |]. split; [exact Hne |].
      subst text. generalize (List.map Tools.page_text rest) as l.
      induction l as [| t l IH]; [reflexivity |].
      cbn [List.map] in *.
      change (PyStr.join "" (PyRe.newline :: PyRe.newline :: List.map (fun _ => PyRe.newline) l))
        with (PyRe.newline +:+ "" +:+ PyStr.join "" (PyRe.newline
                                                        :: List.map (fun _ => PyRe.newline) l)).
      rewrite append_nil_l, all_chars_app, IH. reflexivity.
    + intros r. unfold Core.run_extraction. rewrite (Hrun _ eq_refl), Htext.
      cbn [default from_option id].
      replace (String.eqb text "") with false by (symmetry; by apply String.eqb_neq).
      destruct (String.eqb _ "unknown"); [by intros [= <-] |].
      destruct (Core.schema_of _) as [sc |]; [| by intros [= <-]].
      destruct (model_validate sc _) as [data | e]; [| by intros [= <-]].
      destruct (Core._format_extracted_data py_str data _) as [fs | e]; cbn [bind];
        [by intros [= <-] | discriminate].
Qed.

(** A scan of two pages without a text layer. *)
Lemma textless_pdf_passes_the_text_check_witness :
  exists text,
    Core.dd_text
      (Tools._process_pdf (fun _ => Some [Tools.mk_pdf_page "" []; Tools.mk_pdf_page "" []])
         "scan.pdf")
    = Some text
    /\ text <> EmptyString.
Proof.
  destruct (proj2 (textless_pdf_passes_the_text_check str_scalar (fun _ => "boom"%string)
                     (fun _ => Ok None) (fun _ _ => Ok (PDict []))
                     (fun _ v => Ok (dict_items v))
                     (PyRe.is_char "/") (fun _ => true)
                     (fun _ => Some [Tools.mk_pdf_page "" []; Tools.mk_pdf_page "" []])
                     (fun _ => None) (fun _ => None) "scan.pdf"
                     [Tools.mk_pdf_page "" []; Tools.mk_pdf_page "" []]
                     eq_refl eq_refl eq_refl ltac:(repeat constructor))
             ltac:(cbn; lia)) as [(text & Htext & Hne & _) _].
  exists text. split; [exact Htext | exact Hne].
Defined.
